(** * ResultEase: the result-analysis core, embedded and verified

    A shallow embedding of the TypeScript sources of the ResultEase
    ingestion-to-analytics pipeline:

    - [domain/value-objects/Percentage.ts], [domain/value-objects/Marks.ts]
    - [domain/entities/Student.ts], [domain/entities/Subject.ts],
      [domain/entities/Result.ts]
    - [domain/services/ResultCalculator.ts] (averages, highest and lowest
      marks, grade and marks distributions)
    - [features/excel/ColumnMapper.ts]
    - [features/excel/ValidationService.ts]

    Conventions of the embedding.

    - A JavaScript [number] is [NaN] or an exact rational: the finite doubles
      are read as the rationals they denote and arithmetic is exact (no
      rounding); the two infinities are not represented.  Values stored in a
      validated object ([Marks], [Percentage]) are plain rationals, since
      their constructors reject [NaN].
    - A thrown [Error] is the [Throw] case of the [result] type, carrying the
      message; [try]/[catch] is a [match] on it.
    - Strings are byte strings; [trim] and the case conversions act on the
      ASCII range.
    - A [Map] keeps its entries in insertion order and is an association list
      ([JSMap]).  A plain object that the code uses as a map keyed by data (a
      counter, the maps of the duplicates, the raw marks of a student, the
      marks of a row) is read through [JSObject]: a name that it inherits
      from [Object.prototype] and does not hold reads as the inherited
      function, and [Object.entries] lists the keys that are array indices
      first.  The rows of a sheet are finite maps from column names to
      primitive cells, as the parser makes them; the statements that depend
      on what a mapping reads from a row assume that its column is not named
      like an inherited property.
    - Fields that no modelled operation reads ([createdAt], the descriptions
      of the validation rules, the data-quality scores of [validateData])
      are left out, and so are the statistics that take a square root or
      round a floating-point product. *)

From stdpp Require Import gmap strings list sorting pretty.
From Stdlib Require Import Ascii QArith Lqa.

Local Close Scope Q_scope.
Local Open Scope string_scope.

(* ===================================================================== *)
(** * Exceptions *)
(* ===================================================================== *)

Inductive result (A : Type) : Type :=
  | Ok (a : A)
  | Throw (msg : string).
Arguments Ok {A} a.
Arguments Throw {A} msg.

Global Instance result_ret : MRet result := λ A a, Ok a.
Global Instance result_bind : MBind result :=
  λ A B f m, match m with Ok a => f a | Throw e => Throw e end.
Global Instance result_fmap : FMap result :=
  λ A B f m, match m with Ok a => Ok (f a) | Throw e => Throw e end.

Definition isOk {A} (m : result A) : bool :=
  match m with Ok _ => true | Throw _ => false end.

Definition throws {A} (m : result A) : Prop := ∃ msg, m = Throw msg.

(** [l.map(f)] where [f] may throw: the first exception aborts the
    traversal. *)
Fixpoint mapR {A B} (f : A → result B) (l : list A) : result (list B) :=
  match l with
  | [] => Ok []
  | x :: l' => y ← f x; ys ← mapR f l'; Ok (y :: ys)
  end.

(** [l.forEach(x => body)] over a state that [body] may abort by throwing. *)
Fixpoint foldR {A S} (body : S → A → result S) (s : S) (l : list A) : result S :=
  match l with
  | [] => Ok s
  | x :: l' => s' ← body s x; foldR body s' l'
  end.

(* ===================================================================== *)
(** * JavaScript numbers, strings and primitive values *)
(* ===================================================================== *)

Definition Qlt_bool (x y : Q) : bool := negb (Qle_bool y x).

Inductive number : Type :=
  | NaN
  | Num (q : Q).

Module Number.

Definition isNaN (n : number) : bool :=
  match n with NaN => true | Num _ => false end.

(** The relational operators: every comparison with [NaN] is false. *)
Definition lt (a b : number) : bool :=
  match a, b with Num x, Num y => Qlt_bool x y | _, _ => false end.
Definition le (a b : number) : bool :=
  match a, b with Num x, Num y => Qle_bool x y | _, _ => false end.
Definition gt (a b : number) : bool := lt b a.
Definition ge (a b : number) : bool := le b a.
(** [a === b] on numbers. *)
Definition eq (a b : number) : bool :=
  match a, b with Num x, Num y => Qeq_bool x y | _, _ => false end.

Definition add (a b : number) : number :=
  match a, b with Num x, Num y => Num (x + y) | _, _ => NaN end.
Definition mul (a b : number) : number :=
  match a, b with Num x, Num y => Num (x * y) | _, _ => NaN end.
(** Division by zero gives an infinity or [NaN] in JavaScript; the
    embedding has no infinities and answers [NaN].  The divisions of the
    modelled code are guarded by a positive divisor. *)
Definition div (a b : number) : number :=
  match a, b with
  | Num x, Num y => if Qeq_bool y 0 then NaN else Num (x / y)
  | _, _ => NaN
  end.

(** [ToBoolean] on a number: [0] and [NaN] are falsy. *)
Definition truthy (n : number) : bool :=
  match n with NaN => false | Num q => negb (Qeq_bool q 0) end.

(** [Math.min] and [Math.max]: [NaN] if either argument is. *)
Definition min (a b : number) : number :=
  match a, b with
  | Num x, Num y => Num (if Qle_bool x y then x else y)
  | _, _ => NaN
  end.
Definition max (a b : number) : number :=
  match a, b with
  | Num x, Num y => Num (if Qle_bool x y then y else x)
  | _, _ => NaN
  end.

Definition ofZ (z : Z) : number := Num (inject_Z z).

End Number.

Module JSString.

(** ASCII white space and line terminators: TAB, LF, VT, FF, CR, SP. *)
Definition isWhiteSpace (c : ascii) : bool :=
  let n := N_of_ascii c in
  ((9 <=? n)%N && (n <=? 13)%N) || (n =? 32)%N.

Definition isDigit (c : ascii) : bool :=
  let n := N_of_ascii c in (48 <=? n)%N && (n <=? 57)%N.
Definition isUpper (c : ascii) : bool :=
  let n := N_of_ascii c in (65 <=? n)%N && (n <=? 90)%N.
Definition isLower (c : ascii) : bool :=
  let n := N_of_ascii c in (97 <=? n)%N && (n <=? 122)%N.

Fixpoint trimStart (s : string) : string :=
  match s with
  | EmptyString => EmptyString
  | String c s' => if isWhiteSpace c then trimStart s' else s
  end.

Fixpoint trimEnd (s : string) : string :=
  match s with
  | EmptyString => EmptyString
  | String c s' =>
      match trimEnd s' with
      | EmptyString => if isWhiteSpace c then EmptyString else String c EmptyString
      | t => String c t
      end
  end.

Definition trim (s : string) : string := trimEnd (trimStart s).

Fixpoint mapChars (f : ascii → ascii) (s : string) : string :=
  match s with
  | EmptyString => EmptyString
  | String c s' => String (f c) (mapChars f s')
  end.

Definition lowerChar (c : ascii) : ascii :=
  if isUpper c then ascii_of_N (N_of_ascii c + 32) else c.
Definition upperChar (c : ascii) : ascii :=
  if isLower c then ascii_of_N (N_of_ascii c - 32) else c.

Definition toLowerCase : string → string := mapChars lowerChar.
Definition toUpperCase : string → string := mapChars upperChar.

Fixpoint forallChars (p : ascii → bool) (s : string) : bool :=
  match s with
  | EmptyString => true
  | String c s' => p c && forallChars p s'
  end.

Fixpoint existsChars (p : ascii → bool) (s : string) : bool :=
  match s with
  | EmptyString => false
  | String c s' => p c || existsChars p s'
  end.

(** [s.startsWith(p)] *)
Definition startsWith (p s : string) : bool := String.prefix p s.

(** [l.join(sep)] *)
Fixpoint join (sep : string) (l : list string) : string :=
  match l with
  | [] => ""
  | [x] => x
  | x :: l' => x +:+ sep +:+ join sep l'
  end.

(** ** Numeric literals

    [readDigits s acc n] reads the longest run of decimal digits at the
    head of [s]; it returns the number read (continuing [acc]), how many
    digits there were (continuing [n]) and the rest of the string. *)
Fixpoint readDigits (s : string) (acc : Z) (n : nat) : Z * nat * string :=
  match s with
  | String c s' =>
      if isDigit c
      then readDigits s' (10 * acc + (Z.of_N (N_of_ascii c) - 48))%Z (S n)
      else (acc, n, s)
  | EmptyString => (acc, n, s)
  end.

Definition readSign (s : string) : bool * string :=
  match s with
  | String "-" s' => (true, s')
  | String "+" s' => (false, s')
  | _ => (false, s)
  end.

(** The exponent part [e[+-]digits]; it is consumed only when complete. *)
Definition readExponent (s : string) : Z * string :=
  match s with
  | String c s' =>
      if (Ascii.eqb c "e" || Ascii.eqb c "E")%bool then
        let '(neg, s1) := readSign s' in
        let '(e, n, s2) := readDigits s1 0 0 in
        match n with
        | O => (0%Z, s)
        | S _ => ((if neg then - e else e)%Z, s2)
        end
      else (0%Z, s)
  | EmptyString => (0%Z, s)
  end.

(** The longest prefix of [s] that is a [StrDecimalLiteral], with the
    rest of the string; [None] when no prefix is one.  The literal
    [Infinity] is not recognised (the embedding has no infinities). *)
Definition readDecimalLiteral (s : string) : option (Q * string) :=
  let '(neg, s0) := readSign s in
  let '(ip, ni, s1) := readDigits s0 0 0 in
  let '(fp, nf, s2) :=
    match s1 with
    | String "." s1' =>
        let '(fp, nf, s2) := readDigits s1' 0 0 in
        (* a lone dot is part of the literal only after integer digits *)
        match ni, nf with
        | O, O => (0%Z, O, s1)
        | _, _ => (fp, nf, s2)
        end
    | _ => (0%Z, O, s1)
    end in
  match ni, nf with
  | O, O => None
  | _, _ =>
      let '(e, s3) := readExponent s2 in
      let mant := (inject_Z ip + inject_Z fp / inject_Z (10 ^ Z.of_nat nf))%Q in
      let v := (mant * inject_Z 10 ^ e)%Q in
      Some (if neg then (- v)%Q else v, s3)
  end.

(** [parseFloat(s)] *)
Definition parseFloat (s : string) : number :=
  match readDecimalLiteral (trimStart s) with
  | Some (q, _) => Num q
  | None => NaN
  end.

(** The value of a digit in a radix up to 16. *)
Definition digitValue (c : ascii) : option Z :=
  let n := Z.of_N (N_of_ascii c) in
  if isDigit c then Some (n - 48)%Z
  else if ((97 <=? n) && (n <=? 102))%Z then Some (n - 87)%Z
  else if ((65 <=? n) && (n <=? 70))%Z then Some (n - 55)%Z
  else None.

(** The number that all of [s] denotes in the radix, continuing [acc]. *)
Fixpoint readRadix (radix : Z) (s : string) (acc : Z) : option Z :=
  match s with
  | EmptyString => Some acc
  | String c s' =>
      match digitValue c with
      | Some d => if (d <? radix)%Z then readRadix radix s' (radix * acc + d)%Z
                  else None
      | None => None
      end
  end.

(** The literals [0x...], [0o...] and [0b...]. *)
Definition readRadixLiteral (s : string) : option Z :=
  match s with
  | String "0" (String x (String c rest)) =>
      if (Ascii.eqb x "x" || Ascii.eqb x "X")%bool then readRadix 16 (String c rest) 0
      else if (Ascii.eqb x "o" || Ascii.eqb x "O")%bool then readRadix 8 (String c rest) 0
      else if (Ascii.eqb x "b" || Ascii.eqb x "B")%bool then readRadix 2 (String c rest) 0
      else None
  | _ => None
  end.

(** [Number(s)] on a string: the whole trimmed string must be a numeric
    literal; the empty string is [0]. *)
Definition toNumber (s : string) : number :=
  let t := trim s in
  if String.eqb t "" then Num 0
  else match readRadixLiteral t with
       | Some z => Num (inject_Z z)
       | None =>
           match readDecimalLiteral t with
           | Some (q, EmptyString) => Num q
           | _ => NaN
           end
       end.

(** The fractional digits of [r / d], for [0 <= r < d], at most [fuel]
    of them. *)
Fixpoint fractionDigits (fuel : nat) (r d : Z) : string :=
  match fuel with
  | O => ""
  | S fuel' =>
      if (r =? 0)%Z then ""
      else String (ascii_of_N (48 + Z.to_N (10 * r / d)))
                  (fractionDigits fuel' ((10 * r) mod d)%Z d)
  end.

(** [String(n)] on a number, in plain decimal notation.  It is
    [Number::toString] on the integers below [1e21] and on the decimal
    fractions of at most twenty places that are at least [1e-6]. *)
Definition ofNumber (n : number) : string :=
  match n with
  | NaN => "NaN"
  | Num q =>
      let a := Z.abs (Qnum q) in
      let d := Z.pos (Qden q) in
      let r := (a mod d)%Z in
      (if (Qnum q <? 0)%Z then "-" else "")
        +:+ pretty (a / d)%Z
        +:+ (if (r =? 0)%Z then "" else "." +:+ fractionDigits 20 r d)
  end.

(** [s.split(sep)] for a separator of one character. *)
Fixpoint split (sep : ascii) (s : string) : list string :=
  match s with
  | EmptyString => [""]
  | String c s' =>
      if Ascii.eqb c sep then "" :: split sep s'
      else match split sep s' with
           | w :: ws => String c w :: ws
           | [] => [String c ""]
           end
  end.

(** [s.replace(/[^...]/g, '')]: the characters of the class [keep] stay,
    the others are deleted. *)
Fixpoint keepChars (keep : ascii → bool) (s : string) : string :=
  match s with
  | EmptyString => EmptyString
  | String c s' =>
      if keep c then String c (keepChars keep s') else keepChars keep s'
  end.

(** [word.charAt(0).toUpperCase() + word.slice(1).toLowerCase()] *)
Definition capitalize (word : string) : string :=
  match word with
  | EmptyString => EmptyString
  | String c rest => String (upperChar c) (toLowerCase rest)
  end.

(** [s.endsWith(p)] *)
Fixpoint endsWith (p s : string) : bool :=
  String.eqb p s
  || match s with
     | EmptyString => false
     | String _ s' => endsWith p s'
     end.

(** [s.includes(p)] *)
Fixpoint includes (p s : string) : bool :=
  String.prefix p s
  || match s with
     | EmptyString => false
     | String _ s' => includes p s'
     end.

(** The line terminators, which [.] does not match in a regular
    expression: LF, CR, and U+2028 and U+2029, which are the bytes
    E2 80 A8 and E2 80 A9. *)
Definition startsWithLineTerminator (s : string) : bool :=
  match s with
  | EmptyString => false
  | String c s' =>
      (N_of_ascii c =? 10)%N || (N_of_ascii c =? 13)%N
      || match s' with
         | String c1 (String c2 _) =>
             (N_of_ascii c =? 226)%N && (N_of_ascii c1 =? 128)%N
             && ((N_of_ascii c2 =? 168)%N || (N_of_ascii c2 =? 169)%N)
         | _ => false
         end
  end.

Fixpoint hasLineTerminator (s : string) : bool :=
  startsWithLineTerminator s
  || match s with
     | EmptyString => false
     | String _ s' => hasLineTerminator s'
     end.

(** [/b/.test(s)] with the match on the first line of [s]. *)
Fixpoint includesOnLine (b : string) (s : string) : bool :=
  String.prefix b s
  || match s with
     | EmptyString => false
     | String _ s' => negb (startsWithLineTerminator s) && includesOnLine b s'
     end.

(** [/a.*b/.test(s)]: somewhere in [s] there is [a], followed on the same
    line by [b]. *)
Fixpoint includesAround (a b : string) (s : string) : bool :=
  (String.prefix a s
   && includesOnLine b (String.substring (String.length a)
                          (String.length s - String.length a) s))
  || match s with
     | EmptyString => false
     | String _ s' => includesAround a b s'
     end.

(** [s.replace(/\s+/g, r)]: every run of white space becomes one [r];
    [inRun] tells that the previous character was white space. *)
Fixpoint replaceWhitespaceRuns (r : string) (s : string) (inRun : bool) : string :=
  match s with
  | EmptyString => EmptyString
  | String c s' =>
      if isWhiteSpace c then
        if inRun then replaceWhitespaceRuns r s' true
        else r +:+ replaceWhitespaceRuns r s' true
      else String c (replaceWhitespaceRuns r s' false)
  end.

End JSString.

(** The primitive values a spreadsheet cell or an untyped field holds. *)
Inductive value : Type :=
  | VUndefined
  | VNull
  | VBool (b : bool)
  | VNumber (n : number)
  | VString (s : string).

Module Value.

(** [ToBoolean] *)
Definition truthy (v : value) : bool :=
  match v with
  | VUndefined | VNull => false
  | VBool b => b
  | VNumber n => Number.truthy n
  | VString s => negb (String.eqb s "")
  end.

(** [String(v)] *)
Definition toString (v : value) : string :=
  match v with
  | VUndefined => "undefined"
  | VNull => "null"
  | VBool true => "true"
  | VBool false => "false"
  | VNumber n => JSString.ofNumber n
  | VString s => s
  end.

(** [Number(v)] *)
Definition toNumber (v : value) : number :=
  match v with
  | VUndefined => NaN
  | VNull => Num 0
  | VBool true => Num 1
  | VBool false => Num 0
  | VNumber n => n
  | VString s => JSString.toNumber s
  end.

End Value.

(* ===================================================================== *)
(** * Value objects *)
(* ===================================================================== *)

Module Percentage.

Record t : Type := mk { value : Q }.

Definition validatePercentage (percentage : number) : result unit :=
  match percentage with
  | NaN => Throw "Percentage cannot be NaN"
  | Num q =>
      if Qlt_bool q 0 then Throw "Percentage cannot be negative"
      else if Qlt_bool 100 q then Throw "Percentage cannot exceed 100"
      else Ok ()
  end.

(** [new Percentage(percentage)] *)
Definition new (percentage : number) : result t :=
  _ ← validatePercentage percentage;
  match percentage with
  | Num q => Ok (mk q)
  | NaN => Throw "Percentage cannot be NaN"
  end.

Definition getValue (p : t) : Q := value p.

Definition isPassing (p : t) (passThreshold : Q) : bool :=
  Qle_bool passThreshold (value p).

Definition getLetterGrade (p : t) : string :=
  if Qle_bool 90 (value p) then "A+"
  else if Qle_bool 80 (value p) then "A"
  else if Qle_bool 70 (value p) then "B"
  else if Qle_bool 60 (value p) then "C"
  else if Qle_bool 50 (value p) then "D"
  else if Qle_bool 40 (value p) then "E"
  else "F".

Definition fromMarks (obtained total : number) : result t :=
  if Number.le total (Num 0)
  then Throw "Total marks must be greater than zero"
  else
    let percentage := Number.mul (Number.div obtained total) (Num 100) in
    new percentage.

Definition zero : result t := new (Num 0).
Definition hundred : result t := new (Num 100).

Definition getPerformanceCategory (p : t) : string :=
  if Qle_bool 90 (value p) then "Excellent"
  else if Qle_bool 75 (value p) then "Good"
  else if Qle_bool 60 (value p) then "Average"
  else if Qle_bool 40 (value p) then "Below Average"
  else "Poor".

Definition isGreaterThan (p other : t) : bool := Qlt_bool (value other) (value p).

Definition isEqualTo (p other : t) : bool := Qeq_bool (value p) (value other).

Definition fromFraction (numerator denominator : number) : result t :=
  if Number.le denominator (Num 0)
  then Throw "Denominator must be greater than zero"
  else
    let percentage := Number.mul (Number.div numerator denominator) (Num 100) in
    new percentage.

End Percentage.

Module Marks.

Record t : Type := mk { value : Q }.

Definition validateMarks (marks : number) (isTotal : bool) : result unit :=
  match marks with
  | NaN => Throw "Marks cannot be NaN"
  | Num q =>
      if Qlt_bool q 0 then Throw "Marks cannot be negative"
      else if negb isTotal && Qlt_bool 100 q then Throw "Marks cannot exceed 100"
      else Ok ()
  end.

(** [new Marks(marks, isTotal)] *)
Definition new (marks : number) (isTotal : bool) : result t :=
  _ ← validateMarks marks isTotal;
  match marks with
  | Num q => Ok (mk q)
  | NaN => Throw "Marks cannot be NaN"
  end.

Definition getValue (m : t) : Q := value m.

Definition fromString (marksString : string) : result t :=
  let trimmed := JSString.trim marksString in
  if String.eqb trimmed ""
     || String.eqb (JSString.toLowerCase trimmed) "absent"
     || String.eqb (JSString.toLowerCase trimmed) "ab"
  then new (Num 0) false
  else
    let parsed := JSString.parseFloat trimmed in
    if Number.isNaN parsed
    then Throw ("Invalid marks format: " +:+ marksString)
    else new parsed false.

Definition zero : result t := new (Num 0) false.

(** Total marks may exceed 100. *)
Definition total (marks : number) : result t := new marks true.

Definition isPassing (m : t) (passPercentage : Q) : bool :=
  Qle_bool passPercentage (value m).

Definition getLetterGrade (m : t) : string :=
  if Qle_bool 90 (value m) then "A+"
  else if Qle_bool 80 (value m) then "A"
  else if Qle_bool 70 (value m) then "B"
  else if Qle_bool 60 (value m) then "C"
  else if Qle_bool 50 (value m) then "D"
  else if Qle_bool 40 (value m) then "E"
  else "F".

(** The sum is built as total marks, which may exceed 100. *)
Definition add (m other : t) : result t :=
  new (Num (value m + value other)) true.

Definition isGreaterThan (m other : t) : bool := Qlt_bool (value other) (value m).

Definition isEqualTo (m other : t) : bool := Qeq_bool (value m) (value other).

End Marks.

(* ===================================================================== *)
(** * Entities *)
(* ===================================================================== *)

Module Student.

Record t : Type := mk {
  name : string;
  rollNumber : string;
  className : option string;
  section : option string
}.

Definition validateStudent (name rollNumber : string) : result unit :=
  if (String.length (JSString.trim name) =? 0)%nat
  then Throw "Student name must be a non-empty string"
  else if (String.length (JSString.trim name) <? 2)%nat
  then Throw "Student name must be at least 2 characters long"
  else if (String.length (JSString.trim rollNumber) =? 0)%nat
  then Throw "Roll number must be a non-empty string"
  else Ok ().

(** [new Student(name, rollNumber, className, section)] *)
Definition new (name rollNumber : string) (className section : option string)
  : result t :=
  _ ← validateStudent name rollNumber;
  Ok {| name := JSString.trim name;
        rollNumber := JSString.trim rollNumber;
        className := JSString.trim <$> className;
        section := JSString.trim <$> section |}.

Definition getName (s : t) : string := name s.
Definition getRollNumber (s : t) : string := rollNumber s.

(** Roll numbers compared without regard to letter case. *)
Definition matches (s other : t) : bool :=
  String.eqb (JSString.toLowerCase (rollNumber s))
             (JSString.toLowerCase (rollNumber other)).

(** [Student.fromRawData({name, rollNumber, class, section})]; an empty
    string is falsy. *)
Definition fromRawData (name rollNumber : string)
    (className section : option string) : result t :=
  if String.eqb name "" then Throw "Student name is required"
  else if String.eqb rollNumber "" then Throw "Student roll number is required"
  else new name rollNumber className section.

Definition getDisplayName (s : t) : string :=
  JSString.join " " (JSString.capitalize <$> JSString.split " " (name s)).

Definition getFullIdentifier (s : t) : string :=
  getDisplayName s +:+ " (" +:+ rollNumber s +:+ ")".

(** An optional string is truthy when it is present and not empty. *)
Definition present (o : option string) : bool :=
  match o with
  | Some str => negb (String.eqb str "")
  | None => false
  end.

Definition getClassDisplay (s : t) : string :=
  if present (className s) && present (section s)
  then default "" (className s) +:+ "-" +:+ default "" (section s)
  else if present (className s) then default "" (className s)
  else "N/A".

Definition matchesRollNumber (s : t) (rollNumber' : string) : bool :=
  String.eqb (JSString.toLowerCase (rollNumber s))
             (JSString.toLowerCase rollNumber').

(** [/[^a-z0-9]/g] deletes everything but lower-case letters and digits. *)
Definition getNormalizedRollNumber (s : t) : string :=
  JSString.keepChars (λ c, JSString.isLower c || JSString.isDigit c)
                     (JSString.toLowerCase (rollNumber s)).

Definition canCreateFrom (name rollNumber : string)
    (className section : option string) : bool :=
  isOk (fromRawData name rollNumber className section).

End Student.

Module Subject.

Record t : Type := mk {
  name : string;
  maxMarks : number;
  isOptional : bool
}.

Definition validateSubject (name : string) (maxMarks : number) : result unit :=
  if (String.length (JSString.trim name) =? 0)%nat
  then Throw "Subject name must be a non-empty string"
  else if Number.le maxMarks (Num 0)
  then Throw "Maximum marks must be a positive number"
  else if Number.gt maxMarks (Num 1000)
  then Throw "Maximum marks cannot exceed 1000"
  else Ok ().

(** [new Subject(name, maxMarks, isOptional)] *)
Definition new (name : string) (maxMarks : number) (isOptional : bool)
  : result t :=
  _ ← validateSubject name maxMarks;
  Ok {| name := JSString.trim name; maxMarks := maxMarks; isOptional := isOptional |}.

(** [new Subject(name)], with the default arguments. *)
Definition newDefault (name : string) : result t := new name (Num 100) false.

Definition getName (s : t) : string := name s.
Definition getMaxMarks (s : t) : number := maxMarks s.

Definition isOptionalSubject (s : t) : bool := isOptional s.

Definition normalizeName (name : string) : string :=
  JSString.keepChars (λ c, JSString.isLower c || JSString.isDigit c)
                     (JSString.toLowerCase name).

Definition getNormalizedName (s : t) : string := normalizeName (name s).

Definition getDisplayName (s : t) : string :=
  JSString.join " " (JSString.capitalize <$> JSString.split " " (name s)).

Definition matches (s otherSubject : t) : bool :=
  String.eqb (getNormalizedName s) (getNormalizedName otherSubject).

Definition matchesName (s : t) (name' : string) : bool :=
  String.eqb (getNormalizedName s) (normalizeName name').

Definition calculatePercentage (s : t) (marks : number) : number :=
  Number.mul (Number.div marks (maxMarks s)) (Num 100).

Definition fromString (subjectString : string) (maxMarks : number) : result t :=
  let cleaned := JSString.trim subjectString in
  if (String.length cleaned =? 0)%nat
  then Throw "Subject name cannot be empty"
  else new cleaned maxMarks false.

Definition createStandardSubjects : result (list t) :=
  mapR (λ name, new name (Num 100) false)
       ["Mathematics"; "Science"; "English"; "Social Studies"; "Hindi"].

Definition isValidName (name : string) : bool := isOk (newDefault name).

End Subject.

(* ===================================================================== *)
(** * [Map<string, V>]: entries in insertion order *)
(* ===================================================================== *)

Module JSMap.

Definition t (V : Type) : Type := list (string * V).

Definition empty {V} : t V := [].

Fixpoint get {V} (m : t V) (k : string) : option V :=
  match m with
  | [] => None
  | (k', v) :: m' => if String.eqb k' k then Some v else get m' k
  end.

(** [m.set(k, v)]: an existing key keeps its place and takes the new
    value; a new key goes last. *)
Fixpoint set {V} (m : t V) (k : string) (v : V) : t V :=
  match m with
  | [] => [(k, v)]
  | (k', v') :: m' =>
      if String.eqb k' k then (k', v) :: m' else (k', v') :: set m' k v
  end.

Definition keys {V} (m : t V) : list string := m.*1.
Definition values {V} (m : t V) : list V := m.*2.
Definition size {V} (m : t V) : nat := length m.

End JSMap.

(* ===================================================================== *)
(** * [Array.prototype.sort] *)
(* ===================================================================== *)

Module JSArray.

(** [l.includes(x)] on strings *)
Definition includes (l : list string) (x : string) : bool :=
  existsb (String.eqb x) l.

(** [l.sort(compare)] is a stable sort: [a] goes before [b] when
    [compare(a, b) < 0], after it when [compare(a, b) > 0], and elements
    that compare equal keep their order.  For a comparator that orders
    consistently the outcome is unique; it is computed by stable
    insertion. *)
Fixpoint insert {A} (compare : A → A → Q) (x : A) (l : list A) : list A :=
  match l with
  | [] => [x]
  | y :: l' =>
      if Qle_bool (compare x y) 0 then x :: l else y :: insert compare x l'
  end.

Definition sort {A} (compare : A → A → Q) (l : list A) : list A :=
  foldr (insert compare) [] l.

(** [l.slice(0, end)] for an integer [end]; a negative [end] counts from
    the end of the array. *)
Definition sliceTo {A} (l : list A) (end' : Z) : list A :=
  take (Z.to_nat (if (end' <? 0)%Z then Z.max (Z.of_nat (length l) + end') 0
                  else end')) l.

End JSArray.

(* ===================================================================== *)
(** * Plain objects used as maps *)
(* ===================================================================== *)

Module JSObject.

(** The properties that every plain object inherits from
    [Object.prototype]: those of the language and of its annex B. *)
Definition prototypeKeys : list string :=
  ["constructor"; "hasOwnProperty"; "isPrototypeOf"; "propertyIsEnumerable";
   "toLocaleString"; "toString"; "valueOf"; "__proto__";
   "__defineGetter__"; "__defineSetter__"; "__lookupGetter__";
   "__lookupSetter__"].

Definition inherits (key : string) : bool := JSArray.includes prototypeKeys key.

(** What [obj[key]] reads, given the own property of that name if there is
    one: the own property; failing that, what the object inherits under
    the name, a function or (for "__proto__") the prototype itself, which
    are truthy and are not numbers, strings or arrays; failing that,
    [undefined]. *)
Inductive read (V : Type) : Type :=
  | Own (v : V)
  | Inherited
  | Undefined.
Arguments Own {V} v.
Arguments Inherited {V}.
Arguments Undefined {V}.

Definition get {V} (own : option V) (key : string) : read V :=
  match own with
  | Some v => Own v
  | None => if inherits key then Inherited else Undefined
  end.

(** [key in obj] *)
Definition has {V} (own : option V) (key : string) : bool :=
  match get own key with Undefined => false | _ => true end.

(** [obj[key] = v] for a [v] that is neither an object nor [null]:
    "__proto__" names the accessor that every object inherits, and its
    setter ignores such a [v]; any other key becomes, or stays, an own
    property. *)
Definition set {V} (own : JSMap.t V) (key : string) (v : V) : JSMap.t V :=
  if String.eqb key "__proto__" then own else JSMap.set own key v.

(** An array index: a decimal numeral in canonical form, without sign or
    leading zero, below [2^32 - 1]. *)
Fixpoint readIndex (s : string) (acc : N) : option N :=
  match s with
  | EmptyString => Some acc
  | String c s' =>
      if JSString.isDigit c
      then readIndex s' (10 * acc + (N_of_ascii c - 48))%N
      else None
  end.

Definition arrayIndex (key : string) : option N :=
  match key with
  | EmptyString => None
  | String c rest =>
      if Ascii.eqb c "0" && negb (String.eqb rest "") then None
      else match readIndex key 0 with
           | Some n => if (n <? 4294967295)%N then Some n else None
           | None => None
           end
  end.

Definition isIndexed {V} (e : string * V) : bool :=
  match arrayIndex e.1 with Some _ => true | None => false end.

Definition compareIndex {V} (a b : string * V) : Q :=
  (inject_Z (Z.of_N (default 0%N (arrayIndex a.1)))
   - inject_Z (Z.of_N (default 0%N (arrayIndex b.1))))%Q.

(** [Object.entries(obj)]: the own properties, those whose keys are array
    indices first, in ascending order of the index, then the others in
    the order in which they were created. *)
Definition entries {V} (own : JSMap.t V) : list (string * V) :=
  (JSArray.sort compareIndex (List.filter isIndexed own)
   ++ List.filter (λ e, negb (isIndexed e)) own)%list.

(** [Object.keys(obj)] and [Object.values(obj)] *)
Definition keys {V} (own : JSMap.t V) : list string := (entries own).*1.
Definition values {V} (own : JSMap.t V) : list V := (entries own).*2.

(** What a counter [acc[key] = (acc[key] || 0) + 1] holds: a count, or
    the text that [+ 1] makes of an inherited function, to which later
    increments append; as a number that text is [NaN]. *)
Inductive tally : Type :=
  | Times (n : nat)
  | Text.

(** [acc[key] = (acc[key] || 0) + 1] on an object created as [{}]. *)
Definition increment (acc : JSMap.t tally) (key : string) : JSMap.t tally :=
  match get (JSMap.get acc key) key with
  | Own (Times n) => set acc key (Times (n + 1))
  | Own Text => set acc key Text
  | Inherited => set acc key Text
  | Undefined => set acc key (Times 1)
  end.

(** [count > 1] *)
Definition moreThanOnce (count : tally) : bool :=
  match count with Times n => (1 <? n)%nat | Text => false end.

End JSObject.

(* ===================================================================== *)
(** * The Result aggregate *)
(* ===================================================================== *)

(** One student's performance across all subjects.  [rank] is absent until
    ranks are calculated; the ranks the class writes are positive
    integers. *)
Record StudentResult : Type := mkStudentResult {
  student : Student.t;
  marks : JSMap.t Marks.t;        (* subject name -> marks *)
  totalMarks : Marks.t;
  percentage : Percentage.t;
  rank : option nat
}.

Definition setRank (sr : StudentResult) (rk : option nat) : StudentResult :=
  {| student := student sr; marks := marks sr; totalMarks := totalMarks sr;
     percentage := percentage sr; rank := rk |}.

(** A mark of the raw input: [number | string]. *)
Inductive RawMark : Type :=
  | RNumber (n : number)
  | RString (s : string).

Record RawStudent : Type := mkRawStudent {
  raw_name : string;
  raw_rollNumber : string;
  raw_class : option string;
  raw_section : option string;
  raw_marks : gmap string RawMark
}.

Record RawData : Type := mkRawData {
  raw_id : string;
  raw_title : string;
  raw_subjects : list string;
  raw_studentData : list RawStudent
}.

Module Result.

Record t : Type := mk {
  id : string;
  title : string;
  subjects : list Subject.t;
  studentResults : JSMap.t StudentResult;   (* roll number -> result *)
  maxTotalMarks : number
}.

Definition validateResult (id title : string) (subjects : list Subject.t)
  : result unit :=
  if (String.length (JSString.trim id) =? 0)%nat
  then Throw "Result ID must be a non-empty string"
  else if (String.length (JSString.trim title) =? 0)%nat
  then Throw "Result title must be a non-empty string"
  else if (length subjects =? 0)%nat
  then Throw "Result must have at least one subject"
  else Ok ().

(** Every subject of the result must be a key of the student's marks. *)
Definition validateStudentResult (r : t) (studentResult : StudentResult)
  : result unit :=
  let resultSubjectNames := JSMap.keys (marks studentResult) in
  let expectedSubjectNames := Subject.getName <$> subjects r in
  foldR (λ _ expectedSubject,
           if negb (JSArray.includes resultSubjectNames expectedSubject)
           then Throw ("Missing marks for subject: " +:+ expectedSubject)
           else Ok ())
        () expectedSubjectNames.

Definition addStudentResult (r : t) (studentResult : StudentResult) : result t :=
  _ ← validateStudentResult r studentResult;
  Ok {| id := id r; title := title r; subjects := subjects r;
        studentResults :=
          JSMap.set (studentResults r)
                    (Student.getRollNumber (student studentResult))
                    studentResult;
        maxTotalMarks := maxTotalMarks r |}.

(** [new Result(id, title, subjects, studentResults)] *)
Definition new (id title : string) (subjects : list Subject.t)
    (studentResults : list StudentResult) : result t :=
  _ ← validateResult id title subjects;
  foldR addStudentResult
    {| id := id; title := JSString.trim title; subjects := subjects;
       studentResults := JSMap.empty;
       maxTotalMarks :=
         foldl (λ sum subject, Number.add sum (Subject.getMaxMarks subject))
               (Num 0) subjects |}
    studentResults.

Definition getSubjects (r : t) : list Subject.t := subjects r.

Definition getStudentResults (r : t) : list StudentResult :=
  JSMap.values (studentResults r).

Definition getStudentResult (r : t) (rollNumber : string) : option StudentResult :=
  JSMap.get (studentResults r) rollNumber.

Definition getStudentCount (r : t) : nat := JSMap.size (studentResults r).

(** The comparator of [calculateRanks]: by percentage, descending, then by
    total marks, descending. *)
Definition compareResults (a b : StudentResult) : Q :=
  let percentageDiff :=
    (Percentage.getValue (percentage b) - Percentage.getValue (percentage a))%Q in
  if negb (Qeq_bool percentageDiff 0) then percentageDiff
  else (Marks.getValue (totalMarks b) - Marks.getValue (totalMarks a))%Q.

(** The array [results] of [calculateRanks] holds references to the
    objects of the map: an element is the key under which the object is
    stored, with the object's content. *)
Definition sortedResults (r : t) : list (string * StudentResult) :=
  JSArray.sort (λ a b, compareResults a.2 b.2) (studentResults r).

(** The ranking loop from index [i] on, over the rest of the sorted
    array; [prev] is [results[i - 1]], absent when [i = 0]. *)
Fixpoint assignRanks (prev : option StudentResult) (i currentRank : nat)
    (results : list (string * StudentResult)) : list (string * StudentResult) :=
  match results with
  | [] => []
  | (k, ri) :: rest =>
      let currentRank' :=
        match prev with
        | Some rp =>
            if negb (Qeq_bool (Percentage.getValue (percentage ri))
                              (Percentage.getValue (percentage rp)))
            then i + 1
            else currentRank
        | None => currentRank
        end in
      (k, setRank ri (Some currentRank'))
        :: assignRanks (Some ri) (S i) currentRank' rest
  end.

(** The sorted array once the loop has run. *)
Definition rankedResults (r : t) : list (string * StudentResult) :=
  assignRanks None 0 1 (sortedResults r).

(** [calculateRanks()]: the loop writes the [rank] field of objects the
    map holds, so every entry of the map shows the rank written to the
    array element that refers to it. *)
Definition calculateRanks (r : t) : t :=
  let ranked := rankedResults r in
  {| id := id r; title := title r; subjects := subjects r;
     studentResults :=
       (λ e : string * StudentResult,
          (e.1, match JSMap.get ranked e.1 with
                | Some written => setRank e.2 (rank written)
                | None => e.2
                end)) <$> studentResults r;
     maxTotalMarks := maxTotalMarks r |}.

(** One subject of one student in [fromRawData]: the mark is read from
    the raw record, a plain object (an absent or falsy number counts as
    0), stored, and added to the running total.  Under a name that the
    record inherits and does not hold itself, the read gives a function
    or an object: it is not a string, it is truthy, and [new Marks]
    refuses it because its type is not 'number'. *)
Definition processSubject (studentMarks : gmap string RawMark)
    (acc : JSMap.t Marks.t * Q) (subject : Subject.t)
  : result (JSMap.t Marks.t * Q) :=
  let markValue :=
    JSObject.get (studentMarks !! Subject.getName subject)
                 (Subject.getName subject) in
  mark ← match markValue with
         | JSObject.Own (RString s) => Marks.fromString s
         | JSObject.Own (RNumber n) =>
             Marks.new (if Number.truthy n then n else Num 0) false
         | JSObject.Inherited => Throw "Marks must be a number"
         | JSObject.Undefined => Marks.new (Num 0) false
         end;
  Ok (JSMap.set acc.1 (Subject.getName subject) mark,
      (acc.2 + Marks.getValue mark)%Q).

Definition buildStudentResult (subjects : list Subject.t)
    (studentData : RawStudent) : result StudentResult :=
  student ← Student.fromRawData (raw_name studentData) (raw_rollNumber studentData)
                                (raw_class studentData) (raw_section studentData);
  '(marks, totalMarksValue) ←
    foldR (processSubject (raw_marks studentData)) (JSMap.empty, 0%Q) subjects;
  totalMarks ← Marks.total (Num totalMarksValue);
  let maxTotalMarks :=
    foldl (λ sum s, Number.add sum (Subject.getMaxMarks s)) (Num 0) subjects in
  percentage ← Percentage.fromMarks (Num totalMarksValue) maxTotalMarks;
  Ok {| student := student; marks := marks; totalMarks := totalMarks;
        percentage := percentage; rank := None |}.

(** [Result.fromRawData(data)] *)
Definition fromRawData (data : RawData) : result t :=
  subjects ← mapR Subject.newDefault (raw_subjects data);
  studentResults ← mapR (buildStudentResult subjects) (raw_studentData data);
  result ← new (raw_id data) (raw_title data) subjects studentResults;
  Ok (calculateRanks result).

(** [getStudentsByRank()]: the ranked students, by ascending rank. *)
Definition getStudentsByRank (r : t) : list StudentResult :=
  JSArray.sort
    (λ a b, (inject_Z (Z.of_nat (default 0%nat (rank a)))
             - inject_Z (Z.of_nat (default 0%nat (rank b))))%Q)
    (filter (λ result, rank result ≠ None) (getStudentResults r)).

(** [getTopStudents(count)]; [count] is 10 when the argument is left out. *)
Definition getTopStudents (r : t) (count : Z) : list StudentResult :=
  JSArray.sliceTo (getStudentsByRank r) count.

End Result.

(* ===================================================================== *)
(** * ResultCalculator: the marks distribution *)
(* ===================================================================== *)

Module ResultCalculator.

Definition defaultRanges : list number :=
  [Num 0; Num 40; Num 60; Num 75; Num 90; Num 100].

(** [ranges[i]]: [undefined] outside the array. *)
Definition rangeAt (ranges : list number) (i : Z) : value :=
  if (i <? 0)%Z then VUndefined
  else match ranges !! Z.to_nat i with
       | Some n => VNumber n
       | None => VUndefined
       end.

(** The key [`${ranges[i]}-${ranges[i + 1]}%`]. *)
Definition rangeKey (ranges : list number) (i : Z) : string :=
  Value.toString (rangeAt ranges i) +:+ "-"
    +:+ Value.toString (rangeAt ranges (i + 1)) +:+ "%".

(** [distribution[key]++]; a missing property reads as [undefined], whose
    increment is [NaN]. *)
Definition increment (distribution : gmap string number) (key : string)
  : gmap string number :=
  <[key := Number.add (default NaN (distribution !! key)) (Num 1)]> distribution.

(** The indices [0 .. ranges.length - 2] of the two loops. *)
Definition rangeIndices (ranges : list number) : list nat :=
  seq 0 (length ranges - 1).

Definition inRange (ranges : list number) (percentage : Q) (i : nat) : bool :=
  match ranges !! i, ranges !! (i + 1) with
  | Some lo, Some hi =>
      Number.ge (Num percentage) lo && Number.lt (Num percentage) hi
  | _, _ => false
  end.

(** The body run for one student. *)
Definition countStudent (ranges : list number)
    (distribution : gmap string number) (studentResult : StudentResult)
  : gmap string number :=
  let percentage := Percentage.getValue (percentage studentResult) in
  let distribution1 :=
    match find (inRange ranges percentage) (rangeIndices ranges) with
    | Some i => increment distribution (rangeKey ranges (Z.of_nat i))
    | None => distribution
    end in
  (* Handle 100% case *)
  if Qeq_bool percentage 100
  then increment distribution1
         (rangeKey ranges (Z.of_nat (length ranges) - 2))
  else distribution1.

Definition calculateMarksDistribution (result : Result.t)
    (ranges : list number) : gmap string number :=
  let initial :=
    foldl (λ distribution i, <[rangeKey ranges (Z.of_nat i) := Num 0]> distribution)
          ∅ (rangeIndices ranges) in
  foldl (countStudent ranges) initial (Result.getStudentResults result).

(** ** Averages *)

(** [marks?.getValue() || 0] *)
Definition valueOrZero (marks : option Marks.t) : Q :=
  match marks with
  | Some m => if Qeq_bool (Marks.getValue m) 0 then 0%Q else Marks.getValue m
  | None => 0%Q
  end.

Definition calculateSubjectAverage (result : Result.t) (subjectName : string)
  : number :=
  let studentResults := Result.getStudentResults result in
  if (length studentResults =? 0)%nat then Num 0
  else
    let totalMarks :=
      foldl (λ sum studentResult,
               (sum + valueOrZero (JSMap.get (marks studentResult) subjectName))%Q)
            0%Q studentResults in
    Number.div (Num totalMarks) (Number.ofZ (Z.of_nat (length studentResults))).

(** The averages are kept in a plain object: a number assigned to its
    "__proto__" adds no property. *)
Definition calculateAllSubjectAverages (result : Result.t) : gmap string number :=
  foldl (λ averages subject,
           if String.eqb (Subject.getName subject) "__proto__" then averages
           else
             <[Subject.getName subject :=
                 calculateSubjectAverage result (Subject.getName subject)]> averages)
        ∅ (Result.getSubjects result).


(** ** Extremes *)

(** The body of the loop of [findHighestMarksInSubject], on the pair of
    [highestMarks] and [topStudents]. *)
Definition highestStep (subjectName : string)
    (acc : Marks.t * list StudentResult) (studentResult : StudentResult)
  : Marks.t * list StudentResult :=
  let '(highestMarks, topStudents) := acc in
  match JSMap.get (marks studentResult) subjectName with
  | Some m =>
      if Marks.isGreaterThan m highestMarks then (m, [studentResult])
      else if Marks.isEqualTo m highestMarks
      then (highestMarks, (topStudents ++ [studentResult])%list)
      else acc
  | None => acc
  end.

Definition findHighestMarksInSubject (res : Result.t) (subjectName : string)
  : result (Marks.t * list StudentResult) :=
  zero ← Marks.zero;
  Ok (foldl (highestStep subjectName) (zero, []) (Result.getStudentResults res)).

(** The body of the loop of [findLowestMarksInSubject]; [lowestMarks] is
    [null] at first. *)
Definition lowestStep (subjectName : string)
    (acc : option Marks.t * list StudentResult) (studentResult : StudentResult)
  : option Marks.t * list StudentResult :=
  let '(lowestMarks, bottomStudents) := acc in
  match JSMap.get (marks studentResult) subjectName with
  | Some m =>
      match lowestMarks with
      | None => (Some m, [studentResult])
      | Some lowest =>
          if Qlt_bool (Marks.getValue m) (Marks.getValue lowest)
          then (Some m, [studentResult])
          else if Qeq_bool (Marks.getValue m) (Marks.getValue lowest)
          then (lowestMarks, (bottomStudents ++ [studentResult])%list)
          else acc
      end
  | None => acc
  end.

Definition findLowestMarksInSubject (res : Result.t) (subjectName : string)
  : result (Marks.t * list StudentResult) :=
  let studentResults := Result.getStudentResults res in
  if (length studentResults =? 0)%nat
  then zero ← Marks.zero; Ok (zero, [])
  else
    let '(lowestMarks, bottomStudents) :=
      foldl (lowestStep subjectName) (None, []) studentResults in
    m ← match lowestMarks with
        | Some m => Ok m
        | None => Marks.zero
        end;
    Ok (m, bottomStudents).

(** ** The grade distribution *)

(** [gradeCount[grade] = (gradeCount[grade] || 0) + 1] *)
Definition countGrade (gradeCount : gmap string number)
    (studentResult : StudentResult) : gmap string number :=
  let grade := Percentage.getLetterGrade (percentage studentResult) in
  let current :=
    match gradeCount !! grade with
    | Some n => if Number.truthy n then n else Num 0
    | None => Num 0
    end in
  <[grade := Number.add current (Num 1)]> gradeCount.

Definition calculateGradeDistribution (result : Result.t) : gmap string number :=
  foldl countGrade
        {[ "A+" := Num 0; "A" := Num 0; "B" := Num 0; "C" := Num 0;
           "D" := Num 0; "E" := Num 0; "F" := Num 0 ]}
        (Result.getStudentResults result).

End ResultCalculator.

(* ===================================================================== *)
(** * ColumnMapper: the marks transformer *)
(* ===================================================================== *)

Module ColumnMapper.

(** The function [getMarksTransformer()] returns. *)
Definition getMarksTransformer (v : value) : number :=
  match v with
  | VNull | VUndefined | VString "" => Num 0
  | _ =>
      let str := JSString.trim (JSString.toLowerCase (Value.toString v)) in
      (* Handle special cases *)
      if String.eqb str "absent" || String.eqb str "ab" || String.eqb str "a"
      then Num 0
      else if String.eqb str "pass" || String.eqb str "p" then Num 40
      else if String.eqb str "fail" || String.eqb str "f" then Num 0
      else
        let num := JSString.parseFloat str in
        if Number.isNaN num then Num 0
        else Number.max (Num 0) (Number.min (Num 100) num)
  end.

(** ** Mappings *)

(** ['string' | 'number' | 'date'] *)
Inductive DataType : Type := TString | TNumber | TDate.

(** A transformer may throw; a mapping may have none. *)
Record ColumnMapping : Type := mkColumnMapping {
  excelColumn : string;
  dataField : string;
  isRequired : bool;
  dataType : DataType;
  transformer : option (value → result value)
}.

Record MappingTemplate : Type := mkMappingTemplate {
  template_name : string;
  template_description : string;
  template_mappings : list ColumnMapping;
  requiredFields : list string;
  subjectColumns : list string
}.

Record Suggestion : Type := mkSuggestion {
  suggestion_excelColumn : string;
  suggestedField : string;
  suggestion_confidence : Q;
  reason : string
}.

Record AutoMappingResult : Type := mkAutoMappingResult {
  mappings : list ColumnMapping;
  confidence : Q;
  suggestions : list Suggestion;
  unmappedColumns : list string;
  missingRequiredFields : list string
}.

Record MappingStats : Type := mkMappingStats {
  totalColumns : nat;
  mappedColumns : nat;
  requiredFieldsMapped : nat;
  subjectColumnCount : nat
}.

Record MappingValidationResult : Type := mkMappingValidationResult {
  isValid : bool;
  errors : list string;
  warnings : list string;
  stats : MappingStats
}.

Definition REQUIRED_FIELDS : list string := ["studentName"; "rollNumber"].

Definition OPTIONAL_FIELDS : list string :=
  ["class"; "section"; "fatherName"; "motherName"; "dateOfBirth";
   "totalMarks"; "percentage"; "grade"; "rank"].

(** ** The field patterns

    Every pattern of [FIELD_PATTERNS] has the form [/^(a1|a2|...)$/i],
    where an alternative is a word or two words with [.*] in between. *)
Inductive Alternative : Type :=
  | Word (w : string)
  | Around (a b : string).

Definition Pattern : Type := list Alternative.

(** The whole of [text] is the alternative.  The words are in lower case,
    and the flag [i] makes the comparison blind to the case of the text. *)
Definition matchesAlternative (text : string) (alt : Alternative) : bool :=
  let t := JSString.toLowerCase text in
  match alt with
  | Word w => String.eqb t w
  | Around a b =>
      String.prefix a t && JSString.endsWith b t
      && (String.length a + String.length b <=? String.length t)%nat
      && negb (JSString.hasLineTerminator
                 (String.substring (String.length a)
                    (String.length t - String.length a - String.length b) t))
  end.

(** [pattern.test(text)] *)
Definition test (pattern : Pattern) (text : string) : bool :=
  existsb (matchesAlternative text) pattern.

Definition FIELD_PATTERNS : list (string * list Pattern) := [
  ("studentName",
   [ [Around "student" "name"; Around "name" "student"; Word "student"; Word "name"];
     [Around "full" "name"; Around "complete" "name"];
     [Around "first" "name"; Around "last" "name"] ]);
  ("rollNumber",
   [ [Around "roll" "num"; Around "roll" "no"; Word "roll"; Around "admission" "no";
      Word "id"; Around "student" "id"];
     [Around "reg" "no"; Word "registration"; Around "reg" "num"];
     [Around "index" "no"; Word "index"] ]);
  ("class",
   [ [Word "class"; Word "standard"; Word "std"; Word "grade"; Word "level"];
     [Around "class" "name"; Around "class" "num"] ]);
  ("section",
   [ [Word "section"; Word "sec"; Word "division"; Word "div"];
     [Around "class" "section"; Around "sec" "name"] ]);
  ("totalMarks",
   [ [Around "total" "mark"; Around "total" "score"; Word "total";
      Around "grand" "total"];
     [Around "sum" "mark"; Word "aggregate"; Word "overall"] ]);
  ("percentage",
   [ [Word "percent"; Word "percentage"; Word "%"; Word "per"];
     [Around "percent" "mark"; Around "mark" "percent"] ]);
  ("grade",
   [ [Word "grade"; Around "letter" "grade"; Around "final" "grade"];
     [Around "class" "grade"; Around "overall" "grade"] ]);
  ("rank",
   [ [Word "rank"; Word "position"; Word "pos"; Word "standing"];
     [Around "class" "rank"; Around "overall" "rank"] ])
].

(** ** Helper methods *)

Definition calculatePatternConfidence (text : string) (pattern : Pattern) : Q :=
  if test pattern text then 0.8%Q else 0%Q.

(** [Math.min(a, b, c)] *)
Definition min3 (a b c : nat) : nat := Nat.min (Nat.min a b) c.

(** The cells [matrix[i][j ..]] of one row, from [j] on: [c2] is
    [str2.charAt(i - 1)], [str1] the rest of the first string from
    [j - 1] on, [prev] the cells [matrix[i - 1][j - 1 ..]] of the row
    above and [left] the cell [matrix[i][j - 1]]. *)
Fixpoint fillRow (c2 : ascii) (str1 : string) (prev : list nat) (left : nat)
  : list nat :=
  match str1, prev with
  | String c1 str1', diag :: ((up :: _) as prev') =>
      let cell :=
        if Ascii.eqb c2 c1 then diag
        else min3 (diag + 1) (left + 1) (up + 1) in
      cell :: fillRow c2 str1' prev' cell
  | _, _ => []
  end.

(** The rows [matrix[i ..]] are filled from the row [matrix[i - 1]]; the
    last row is returned.  [matrix[i][0]] is [i]. *)
Fixpoint fillRows (i : nat) (str2 str1 : string) (prevRow : list nat) : list nat :=
  match str2 with
  | EmptyString => prevRow
  | String c2 str2' =>
      fillRows (S i) str2' str1 (i :: fillRow c2 str1 prevRow i)
  end.

(** [matrix[0][j]] is [j]; the result is [matrix[str2.length][str1.length]]. *)
Definition levenshteinDistance (str1 str2 : string) : nat :=
  default 0%nat (last (fillRows 1 str2 str1 (seq 0 (String.length str1 + 1)))).

Definition calculateStringSimilarity (str1 str2 : string) : Q :=
  let longer := if (String.length str2 <? String.length str1)%nat then str1 else str2 in
  let shorter := if (String.length str2 <? String.length str1)%nat then str2 else str1 in
  if (String.length longer =? 0)%nat then 1%Q
  else
    let distance := levenshteinDistance longer shorter in
    ((inject_Z (Z.of_nat (String.length longer)) - inject_Z (Z.of_nat distance))
     / inject_Z (Z.of_nat (String.length longer)))%Q.

(** [FIELD_PATTERNS[field]?.some(pattern => pattern.test(text))] *)
Definition fieldMatches (text : string) (field : string) : bool :=
  match JSMap.get FIELD_PATTERNS field with
  | Some patterns => existsb (λ pattern, test pattern text) patterns
  | None => false
  end.

Definition matchesStandardField (header : string) : bool :=
  let normalizedHeader := JSString.toLowerCase header in
  let allFields := (REQUIRED_FIELDS ++ OPTIONAL_FIELDS)%list in
  existsb (fieldMatches normalizedHeader) allFields.

(** [v !== null && v !== undefined && v !== ''] *)
Definition isFilled (v : value) : bool :=
  match v with
  | VNull | VUndefined | VString "" => false
  | _ => true
  end.

(** A value read from a sample row under the header: what the row
    inherits under that name is neither [null], [undefined] nor '', and
    its text, which begins with a letter or a bracket, is not numeric. *)
Definition isFilledRead (v : JSObject.read value) : bool :=
  match v with
  | JSObject.Own v => isFilled v
  | JSObject.Inherited => true
  | JSObject.Undefined => false
  end.

Definition isNumericRead (v : JSObject.read value) : bool :=
  match v with
  | JSObject.Own v => negb (Number.isNaN (JSString.parseFloat (Value.toString v)))
  | JSObject.Inherited => false
  | JSObject.Undefined => false
  end.

Definition looksLikeSubjectColumn (header : string)
    (sampleRows : list (gmap string value)) : bool :=
  (* Check if column contains mostly numeric values (likely marks) *)
  let values :=
    List.filter isFilledRead
                ((λ row, JSObject.get (row !! header) header) <$> sampleRows) in
  if (length values =? 0)%nat then false
  else
    let numericValues := List.filter isNumericRead values in
    let numericRatio :=
      (inject_Z (Z.of_nat (length numericValues))
       / inject_Z (Z.of_nat (length values)))%Q in
    Qlt_bool 0.7 numericRatio && negb (matchesStandardField header).

(** [name.trim().replace(/[^a-zA-Z0-9\s]/g, '').replace(/\s+/g, '_')
    .toLowerCase()] *)
Definition normalizeSubjectName (name : string) : string :=
  JSString.toLowerCase
    (JSString.replaceWhitespaceRuns "_"
       (JSString.keepChars
          (λ c, JSString.isLower c || JSString.isUpper c || JSString.isDigit c
                || JSString.isWhiteSpace c)
          (JSString.trim name))
       false).

Definition getFieldDataType (fieldName : string) : DataType :=
  let numberFields := ["totalMarks"; "percentage"; "rank"] in
  let dateFields := ["dateOfBirth"] in
  if JSArray.includes numberFields fieldName then TNumber
  else if JSArray.includes dateFields fieldName then TDate
  else TString.

(** [(v) => String(v || '').trim()] *)
Definition textTransformer (v : value) : value :=
  VString (JSString.trim (if Value.truthy v then Value.toString v else "")).

(** [(v) => { const num = parseFloat(String(v || '0')); return isNaN(num) ? 0 : num }] *)
Definition numberTransformer (v : value) : value :=
  let num := JSString.parseFloat (if Value.truthy v then Value.toString v else "0") in
  VNumber (if Number.isNaN num then Num 0 else num).

Definition getFieldTransformer (fieldName : string)
  : option (value → result value) :=
  if String.eqb fieldName "studentName" || String.eqb fieldName "class"
     || String.eqb fieldName "section"
  then Some (λ v, Ok (textTransformer v))
  else if String.eqb fieldName "rollNumber"
  then Some (λ v, Ok (textTransformer v))
  else if String.eqb fieldName "totalMarks" || String.eqb fieldName "percentage"
          || String.eqb fieldName "rank"
  then Some (λ v, Ok (numberTransformer v))
  else None.

(** ** [autoMapColumns] *)

(** One pattern of one field, in the search for the best match. *)
Definition considerPattern (normalizedHeader fieldName : string)
    (bestMatch : option (string * Q)) (pattern : Pattern) : option (string * Q) :=
  if test pattern normalizedHeader then
    let confidence := calculatePatternConfidence normalizedHeader pattern in
    match bestMatch with
    | Some (_, best) =>
        if Qlt_bool best confidence then Some (fieldName, confidence) else bestMatch
    | None => Some (fieldName, confidence)
    end
  else bestMatch.

(** The search over all known field patterns; [mappedFields] is the set of
    the fields mapped so far, of which only membership is observed. *)
Definition findBestMatch (mappedFields : list string) (normalizedHeader : string)
  : option (string * Q) :=
  foldl (λ bestMatch (entry : string * list Pattern),
           if JSArray.includes mappedFields entry.1 then bestMatch
           else foldl (considerPattern normalizedHeader entry.1) bestMatch entry.2)
        None FIELD_PATTERNS.

(** The state of the loop over the headers. *)
Record AutoMapState : Type := mkAutoMapState {
  st_mappings : list ColumnMapping;
  st_suggestions : list Suggestion;
  st_unmappedColumns : list string;
  st_mappedFields : list string
}.

(** A header without a field: a subject column, or unmapped. *)
Definition mapOther (sampleRows : list (gmap string value)) (st : AutoMapState)
    (header : string) : AutoMapState :=
  (* Check if it might be a subject column *)
  if looksLikeSubjectColumn header sampleRows then
    {| st_mappings :=
         (st_mappings st ++
          [{| excelColumn := header;
              dataField := "subject_" +:+ normalizeSubjectName header;
              isRequired := false;
              dataType := TNumber;
              transformer := Some (λ v, Ok (VNumber (getMarksTransformer v))) |}])%list;
       st_suggestions := st_suggestions st;
       st_unmappedColumns := st_unmappedColumns st;
       st_mappedFields := st_mappedFields st |}
  else
    {| st_mappings := st_mappings st;
       st_suggestions := st_suggestions st;
       st_unmappedColumns := (st_unmappedColumns st ++ [header])%list;
       st_mappedFields := st_mappedFields st |}.

Definition mapHeader (sampleRows : list (gmap string value)) (st : AutoMapState)
    (header : string) : AutoMapState :=
  let normalizedHeader := JSString.toLowerCase (JSString.trim header) in
  match findBestMatch (st_mappedFields st) normalizedHeader with
  | Some (field, confidence) =>
      if Qlt_bool 0.6 confidence then
        (* High confidence mapping *)
        {| st_mappings :=
             (st_mappings st ++
              [{| excelColumn := header;
                  dataField := field;
                  isRequired := JSArray.includes REQUIRED_FIELDS field;
                  dataType := getFieldDataType field;
                  transformer := getFieldTransformer field |}])%list;
           st_suggestions := st_suggestions st;
           st_unmappedColumns := st_unmappedColumns st;
           st_mappedFields := (st_mappedFields st ++ [field])%list |}
      else if Qlt_bool 0.3 confidence then
        (* Low confidence - add as suggestion *)
        {| st_mappings := st_mappings st;
           st_suggestions :=
             (st_suggestions st ++
              [{| suggestion_excelColumn := header;
                  suggestedField := field;
                  suggestion_confidence := confidence;
                  reason := "Column name similarity to " +:+ field |}])%list;
           st_unmappedColumns := (st_unmappedColumns st ++ [header])%list;
           st_mappedFields := st_mappedFields st |}
      else mapOther sampleRows st header
  | None => mapOther sampleRows st header
  end.

(** The suggestion for a missing required field: the unmapped column most
    similar to it, if any is similar enough. *)
Definition suggestFor (unmappedColumns : list string)
    (suggestions : list Suggestion) (missingField : string) : list Suggestion :=
  let unmappedSuggestions :=
    JSArray.sort (λ a b : string * Q, (b.2 - a.2)%Q)
      (List.filter (λ item : string * Q, Qlt_bool 0.3 item.2)
         ((λ column,
             (column,
              calculateStringSimilarity (JSString.toLowerCase column) missingField))
            <$> unmappedColumns)) in
  match unmappedSuggestions with
  | first :: _ =>
      (suggestions ++
       [{| suggestion_excelColumn := first.1;
           suggestedField := missingField;
           suggestion_confidence := first.2;
           reason := "Suggested for missing required field: " +:+ missingField |}])%list
  | [] => suggestions
  end.

Definition autoMapColumns (headers : list string)
    (sampleRows : list (gmap string value)) : AutoMappingResult :=
  (* First, try to map required and optional fields *)
  let st := foldl (mapHeader sampleRows) (mkAutoMapState [] [] [] []) headers in
  (* Check for missing required fields *)
  let missingRequiredFields :=
    List.filter (λ field, negb (JSArray.includes (st_mappedFields st) field))
                REQUIRED_FIELDS in
  (* Try to suggest unmapped columns for missing required fields *)
  let suggestions :=
    foldl (suggestFor (st_unmappedColumns st)) (st_suggestions st)
          missingRequiredFields in
  (* Calculate overall confidence *)
  let requiredMappedCount := length (List.filter isRequired (st_mappings st)) in
  {| mappings := st_mappings st;
     confidence := (inject_Z (Z.of_nat requiredMappedCount)
                    / inject_Z (Z.of_nat (length REQUIRED_FIELDS)))%Q;
     suggestions := suggestions;
     unmappedColumns := st_unmappedColumns st;
     missingRequiredFields := missingRequiredFields |}.

(** ** [validateMappings] *)

(** [acc[field] = (acc[field] || 0) + 1], on a plain object. *)
Definition countField (acc : JSMap.t JSObject.tally) (field : string)
  : JSMap.t JSObject.tally :=
  JSObject.increment acc field.

Definition isSubjectMapping (m : ColumnMapping) : bool :=
  JSString.startsWith "subject_" (dataField m).

Definition validateMappings (mappings : list ColumnMapping) (headers : list string)
  : MappingValidationResult :=
  (* Check that all mapped columns exist in headers *)
  let notFound :=
    (λ mapping, "Mapped column '" +:+ excelColumn mapping
                  +:+ "' not found in Excel headers")
      <$> List.filter (λ mapping, negb (JSArray.includes headers (excelColumn mapping)))
                      mappings in
  (* Check for required fields *)
  let mappedFields := dataField <$> mappings in
  let missingRequired :=
    List.filter (λ field, negb (JSArray.includes mappedFields field)) REQUIRED_FIELDS in
  let missing :=
    if (0 <? length missingRequired)%nat
    then ["Missing required fields: " +:+ JSString.join ", " missingRequired]
    else [] in
  (* Check for duplicate mappings *)
  let fieldCounts := foldl countField JSMap.empty mappedFields in
  let duplicates :=
    (λ e : string * JSObject.tally,
       "Field '" +:+ e.1 +:+ "' is mapped multiple times")
      <$> List.filter (λ e : string * JSObject.tally, JSObject.moreThanOnce e.2)
                      (JSObject.entries fieldCounts) in
  let errors := (notFound ++ missing ++ duplicates)%list in
  (* Check for subject columns *)
  let subjectColumns := List.filter isSubjectMapping mappings in
  let noSubjects :=
    if (length subjectColumns =? 0)%nat
    then ["No subject columns mapped - ensure at least one subject is included"]
    else [] in
  (* Warn about unmapped columns that might be important *)
  let unmappedHeaders :=
    List.filter (λ header, negb (existsb (λ m, String.eqb (excelColumn m) header)
                                         mappings))
                headers in
  let unmapped :=
    if (0 <? length unmappedHeaders)%nat
    then ["Unmapped columns: " +:+ JSString.join ", " unmappedHeaders]
    else [] in
  {| isValid := (length errors =? 0)%nat;
     errors := errors;
     warnings := (noSubjects ++ unmapped)%list;
     stats := {| totalColumns := length headers;
                 mappedColumns := length mappings;
                 requiredFieldsMapped := length (List.filter isRequired mappings);
                 subjectColumnCount := length subjectColumns |} |}.

(** ** [applyMappings] *)

(** A property of a row under construction: a primitive value, the [marks]
    object (subject name -> value, in the order the subjects were set), or
    the row of the sheet kept under [__originalRow]. *)
Inductive property : Type :=
  | Prim (v : value)
  | MarksObject (o : JSMap.t value)
  | OriginalRow (row : gmap string value).

(** [transformedRow[name]] *)
Definition prop (transformedRow : gmap string property) (name : string) : property :=
  default (Prim VUndefined) (transformedRow !! name).

Definition truthy (p : property) : bool :=
  match p with Prim v => Value.truthy v | _ => true end.

Record ApplyResult : Type := mkApplyResult {
  success : bool;
  transformedData : list (gmap string property);
  apply_errors : list string;
  apply_warnings : list string
}.

(** The state of the loop over the mappings, for one row. *)
Record RowState : Type := mkRowState {
  transformedRow : gmap string property;
  hasValidData : bool;
  row_warnings : list string
}.

Definition failedToTransform (index : nat) (mapping : ColumnMapping)
    (error : string) : string :=
  "Row " +:+ pretty (index + 1)%nat +:+ ": Failed to transform '"
    +:+ excelColumn mapping +:+ "': " +:+ error.

(** One mapping applied to one row.  An exception of the transformer is
    caught and becomes a warning, and so does the [TypeError] of setting a
    subject on a [marks] that a mapping has replaced by a primitive value
    (the module is strict-mode code); the text of that error is the
    engine's and is given by [typeErrorText]. *)
Definition applyMapping (typeErrorText : string → value → string)
    (row : gmap string value) (index : nat) (st : RowState)
    (mapping : ColumnMapping) : RowState :=
  let rawValue := default VUndefined (row !! excelColumn mapping) in
  (* Apply transformer if available *)
  match match transformer mapping with
        | Some f => f rawValue
        | None => Ok rawValue
        end with
  | Ok processedValue =>
      (* Handle subject columns *)
      if JSString.startsWith "subject_" (dataField mapping) then
        let subjectName :=
          String.substring 8 (String.length (dataField mapping) - 8)
                           (dataField mapping) in
        let stored :=
          if Value.truthy processedValue then processedValue else VNumber (Num 0) in
        match prop (transformedRow st) "marks" with
        | MarksObject marks =>
            {| transformedRow :=
                 <["marks" := MarksObject (JSMap.set marks subjectName stored)]>
                   (transformedRow st);
               hasValidData := true;
               row_warnings := row_warnings st |}
        | OriginalRow original =>
            {| transformedRow :=
                 <["marks" := OriginalRow (<[subjectName := stored]> original)]>
                   (transformedRow st);
               hasValidData := true;
               row_warnings := row_warnings st |}
        | Prim v =>
            {| transformedRow := transformedRow st;
               hasValidData := hasValidData st;
               row_warnings :=
                 (row_warnings st ++
                  [failedToTransform index mapping
                     ("TypeError: " +:+ typeErrorText subjectName v)])%list |}
        end
      else
        (* Handle other fields *)
        {| transformedRow :=
             <[dataField mapping := Prim processedValue]> (transformedRow st);
           hasValidData :=
             hasValidData st || (isRequired mapping && Value.truthy processedValue);
           row_warnings := row_warnings st |}
  | Throw message =>
      {| transformedRow := transformedRow st;
         hasValidData := hasValidData st;
         row_warnings :=
           (row_warnings st ++
            [failedToTransform index mapping ("Error: " +:+ message)])%list |}
  end.

(** One row: what it adds to [transformedData] and to [warnings].  Nothing
    outside the inner [try] throws, so the outer [catch], which would add
    to [errors], is never entered. *)
Definition applyToRow (typeErrorText : string → value → string)
    (mappings : list ColumnMapping)
    (acc : list (gmap string property) * list string)
    (indexed : nat * gmap string value)
  : list (gmap string property) * list string :=
  let '(index, row) := indexed in
  let st :=
    foldl (applyMapping typeErrorText row index)
          {| transformedRow := {[ "marks" := MarksObject JSMap.empty;
                                  "__originalRow" := OriginalRow row ]};
             hasValidData := false;
             row_warnings := acc.2 |}
          mappings in
  (* Skip rows without required data *)
  if negb (hasValidData st) then
    (acc.1,
     (row_warnings st ++
      ["Row " +:+ pretty (index + 1)%nat
         +:+ ": Skipped due to missing required data"])%list)
  else
    (* Validate required fields *)
    let missingRequired :=
      List.filter (λ field, negb (truthy (prop (transformedRow st) field)))
                  REQUIRED_FIELDS in
    if (0 <? length missingRequired)%nat then
      (acc.1,
       (row_warnings st ++
        ["Row " +:+ pretty (index + 1)%nat +:+ ": Missing required fields: "
           +:+ JSString.join ", " missingRequired])%list)
    else ((acc.1 ++ [transformedRow st])%list, row_warnings st).

Definition applyMappings (typeErrorText : string → value → string)
    (rows : list (gmap string value)) (mappings : list ColumnMapping)
  : ApplyResult :=
  let '(transformedData, warnings) :=
    foldl (applyToRow typeErrorText mappings) ([], [])
          (imap (λ index row, (index, row)) rows) in
  let errors : list string := [] in
  {| success := (length errors =? 0)%nat;
     transformedData := transformedData;
     apply_errors := errors;
     apply_warnings := warnings |}.

(** ** Templates *)

Definition createTemplate (name description : string)
    (mappings : list ColumnMapping) : MappingTemplate :=
  let subjectColumns := excelColumn <$> List.filter isSubjectMapping mappings in
  {| template_name := name;
     template_description := description;
     template_mappings := mappings;
     requiredFields := REQUIRED_FIELDS;
     subjectColumns := subjectColumns |}.

End ColumnMapper.

(* ===================================================================== *)
(** * ValidationService *)
(* ===================================================================== *)

(** A property of a transformed row: a cell value, or the [marks] object
    (subject name -> cell value, in the order the subjects were set; it is
    enumerated with [JSObject.entries]). *)
Inductive field : Type :=
  | Cell (v : value)
  | Obj (o : JSMap.t value).

Module Field.

Definition truthy (f : field) : bool :=
  match f with Cell v => Value.truthy v | Obj _ => true end.

Definition toString (f : field) : string :=
  match f with Cell v => Value.toString v | Obj _ => "[object Object]" end.

End Field.

Module ValidationService.

(** A row of the parsed sheet, [ExcelRow]: column name -> cell. *)
Abbreviation ExcelRow := (gmap string value).

(** The two fields of a [ColumnMapping] that validation reads. *)
Record ColumnMapping : Type := mkColumnMapping {
  excelColumn : string;
  dataField : string
}.

(** A transformed row: field name -> property. *)
Abbreviation Row := (gmap string field).

(** [row[name]] *)
Definition prop (row : Row) (name : string) : field :=
  default (Cell VUndefined) (row !! name).

Inductive Severity : Type := error | warning.

Record ValidationResult : Type := mkValidationResult {
  vr_isValid : bool;
  vr_message : option string
}.

Record ValidationRule : Type := mkValidationRule {
  rule_name : string;
  rule_field : string;
  rule_validator : field → Row → list Row → result ValidationResult;
  rule_severity : Severity
}.

(** An entry of [errors] or [warnings]. *)
Record Issue : Type := mkIssue {
  issue_field : string;
  issue_rule : string;
  issue_message : string
}.

Record RowValidationResult : Type := mkRowValidationResult {
  rowIndex : nat;
  isValid : bool;
  errors : list Issue;
  warnings : list Issue
}.

Record Duplicate : Type := mkDuplicate {
  dup_key : string;          (* [rollNumber], respectively [name] *)
  dup_rowIndexes : list nat
}.

Record DuplicateAnalysis : Type := mkDuplicateAnalysis {
  duplicateRollNumbers : list Duplicate;
  duplicateNames : list Duplicate
}.

Record Summary : Type := mkSummary {
  totalRows : nat;
  validRows : nat;
  invalidRows : nat;
  warningRows : nat
}.

(** The data-quality scores of the source are not part of the model. *)
Record DataValidationResult : Type := mkDataValidationResult {
  data_isValid : bool;
  summary : Summary;
  rowResults : list RowValidationResult;
  globalErrors : list string;
  globalWarnings : list string;
  duplicateAnalysis : DuplicateAnalysis
}.

Definition valid : ValidationResult := mkValidationResult true None.
Definition validWith (message : string) : ValidationResult :=
  mkValidationResult true (Some message).
Definition invalid (message : string) : ValidationResult :=
  mkValidationResult false (Some message).

(** ** The default rules *)

Definition required (message : string) (v : field) : ValidationResult :=
  mkValidationResult
    (Field.truthy v
     && (0 <? String.length (JSString.trim (Field.toString v)))%nat)
    (Some message).

(** [/^[a-zA-Z\s\.''-]+$/] *)
Definition nameChar (c : ascii) : bool :=
  JSString.isLower c || JSString.isUpper c || JSString.isWhiteSpace c
  || Ascii.eqb c "." || Ascii.eqb c "'" || Ascii.eqb c "-".

Definition hasValidNameChars (name : string) : bool :=
  negb (String.eqb name "") && JSString.forallChars nameChar name.

Definition name_format (v : field) : ValidationResult :=
  if negb (Field.truthy v) then valid
  else
    let name := JSString.trim (Field.toString v) in
    let hasValidChars := hasValidNameChars name in
    let hasMinLength := (2 <=? String.length name)%nat in
    let hasMaxLength := (String.length name <=? 100)%nat in
    if negb hasValidChars then invalid "Name contains invalid characters"
    else if negb hasMinLength then invalid "Name must be at least 2 characters long"
    else if negb hasMaxLength then invalid "Name cannot exceed 100 characters"
    else valid.

Definition roll_number_format (v : field) : ValidationResult :=
  if negb (Field.truthy v) then valid
  else
    let rollNo := JSString.trim (Field.toString v) in
    let hasValidLength :=
      (1 <=? String.length rollNo)%nat && (String.length rollNo <=? 20)%nat in
    if negb hasValidLength
    then invalid "Roll number must be between 1-20 characters"
    else valid.

Definition isInvalidMark (m : value) : bool :=
  let numMarks := Value.toNumber m in
  Number.isNaN numMarks || Number.lt numMarks (Num 0)
  || Number.gt numMarks (Num 100).

Definition marks_range (row : Row) : ValidationResult :=
  match prop row "marks" with
  | Cell _ => invalid "No marks data found"
  | Obj marks =>
      let invalidMarks :=
        (λ e : string * value, e.1 +:+ ": " +:+ Value.toString e.2)
          <$> filter (λ e, isInvalidMark e.2) (JSObject.entries marks) in
      if (0 <? length invalidMarks)%nat
      then invalid ("Invalid marks (must be 0-100): "
                      +:+ JSString.join ", " invalidMarks)
      else valid
  end.

(** The marks that count for the average: numeric and positive. *)
Definition isValidMark (m : value) : bool :=
  negb (Number.isNaN (Value.toNumber m)) && Number.gt (Value.toNumber m) (Num 0).

Definition averageOf (validMarks : list value) : number :=
  Number.div
    (foldl (λ sum mark, Number.add sum (Value.toNumber mark)) (Num 0) validMarks)
    (Number.ofZ (Z.of_nat (length validMarks))).

Definition marks_consistency (row : Row) : ValidationResult :=
  match prop row "marks" with
  | Cell _ => valid
  | Obj marks =>
      let marksValues := JSObject.values marks in
      let validMarks := filter (λ m, isValidMark m) marksValues in
      if (length validMarks =? 0)%nat
      then invalid "Student has no valid marks in any subject"
      else
        (* Check for suspiciously high or low performance *)
        let average := averageOf validMarks in
        if Number.lt average (Num 10)
        then validWith "Very low average marks - please verify data"
        else if Number.gt average (Num 95)
        then validWith "Very high average marks - please verify data"
        else valid
  end.

(** [name.split(/\s+/)]; [inRun] tells that the previous character was
    white space. *)
Fixpoint splitWhitespace (s : string) (inRun : bool) : list string :=
  match s with
  | EmptyString => [""]
  | String c s' =>
      if JSString.isWhiteSpace c then
        if inRun then splitWhitespace s' true
        else "" :: splitWhitespace s' true
      else
        match splitWhitespace s' false with
        | w :: ws => String c w :: ws
        | [] => [String c ""]
        end
  end.

Definition name_consistency (v : field) : ValidationResult :=
  if negb (Field.truthy v) then valid
  else
    let name := JSString.trim (Field.toString v) in
    let words := splitWhitespace name false in
    if match words with
       | [w] => (String.length w <? 3)%nat
       | _ => false
       end
    then validWith "Very short name - please verify"
    else if JSString.existsChars JSString.isDigit name
    then validWith "Name contains numbers - please verify"
    else if String.eqb name (JSString.toUpperCase name)
            && (10 <? String.length name)%nat
    then validWith "Name is in all caps - consider proper case"
    else if String.eqb name (JSString.toLowerCase name)
    then validWith "Name is in all lowercase - consider proper case"
    else valid.

Definition DEFAULT_RULES : list ValidationRule := [
  (* Required field validations *)
  mkValidationRule "required_student_name" "studentName"
    (λ v _ _, Ok (required "Student name is required" v)) error;
  mkValidationRule "required_roll_number" "rollNumber"
    (λ v _ _, Ok (required "Roll number is required" v)) error;
  (* Format validations *)
  mkValidationRule "name_format" "studentName"
    (λ v _ _, Ok (name_format v)) error;
  mkValidationRule "roll_number_format" "rollNumber"
    (λ v _ _, Ok (roll_number_format v)) error;
  (* Marks validations *)
  mkValidationRule "marks_range" "marks"
    (λ _ row _, Ok (marks_range row)) error;
  (* Data consistency warnings *)
  mkValidationRule "marks_consistency" "marks"
    (λ _ row _, Ok (marks_consistency row)) warning;
  (* Name consistency warnings *)
  mkValidationRule "name_consistency" "studentName"
    (λ v _ _, Ok (name_consistency v)) warning
].

(** ** Rows *)

(** One mapping applied to the row under construction.  Setting a
    property on a [marks] that a mapping has replaced by a primitive is a
    [TypeError] (the module is strict-mode code), except that on a
    primitive other than [undefined] and [null] the name "__proto__"
    reaches the inherited setter, which does nothing.  Likewise a cell
    assigned to the "__proto__" of the row or of its [marks] adds no
    property (a [null] there clears the prototype of the object, which the
    embedding does not follow). *)
Definition applyMapping (row : ExcelRow) (transformed : Row)
    (mapping : ColumnMapping) : result Row :=
  let v := default VUndefined (row !! excelColumn mapping) in
  if JSString.startsWith "subject_" (dataField mapping) then
    let subjectName := String.substring 8 (String.length (dataField mapping) - 8)
                                        (dataField mapping) in
    match prop transformed "marks" with
    | Obj marks =>
        Ok (<["marks" := Obj (JSObject.set marks subjectName v)]> transformed)
    | Cell VUndefined => Throw "Cannot set properties of undefined"
    | Cell VNull => Throw "Cannot set properties of null"
    | Cell _ =>
        if String.eqb subjectName "__proto__" then Ok transformed
        else Throw "Cannot create property on a primitive value"
    end
  else if String.eqb (dataField mapping) "__proto__" then Ok transformed
  else Ok (<[dataField mapping := Cell v]> transformed).

Definition transformRowsForValidation (rows : list ExcelRow)
    (mappings : list ColumnMapping) : result (list Row) :=
  mapR (λ row, foldR (applyMapping row) {["marks" := Obj JSMap.empty]} mappings)
       rows.

(** [result.message] is truthy *)
Definition hasMessage (r : ValidationResult) : option string :=
  match vr_message r with
  | Some m => if String.eqb m "" then None else Some m
  | None => None
  end.

(** One rule applied to one row: what it appends to [errors] and to
    [warnings]. *)
Definition applyRule (row : Row) (allRows : list Row)
    (acc : list Issue * list Issue) (rule : ValidationRule)
  : list Issue * list Issue :=
  match rule_validator rule (prop row (rule_field rule)) row allRows with
  | Ok result =>
      match vr_isValid result, hasMessage result with
      | false, Some message =>
          let issue := mkIssue (rule_field rule) (rule_name rule) message in
          match rule_severity rule with
          | error => ((acc.1 ++ [issue])%list, acc.2)
          | warning => (acc.1, (acc.2 ++ [issue])%list)
          end
      | _, _ => acc
      end
  | Throw msg =>
      ((acc.1 ++ [mkIssue (rule_field rule) (rule_name rule)
                          ("Validation error: " +:+ msg)])%list, acc.2)
  end.

Definition validateRow (row : Row) (rowIndex : nat)
    (rules : list ValidationRule) (allRows : list Row) : RowValidationResult :=
  let '(errors, warnings) := foldl (applyRule row allRows) ([], []) rules in
  {| rowIndex := rowIndex;
     isValid := (length errors =? 0)%nat;
     errors := errors;
     warnings := warnings |}.

(** ** Duplicates *)

(** [if (!map[key]) map[key] = []; map[key].push(index)].  The two maps of
    [analyzeDuplicates] are plain objects: under a key that they inherit,
    [map[key]] is truthy and has no [push], and the call is a
    [TypeError]. *)
Definition track (map : JSMap.t (list nat)) (key : string) (index : nat)
  : result (JSMap.t (list nat)) :=
  match JSObject.get (JSMap.get map key) key with
  | JSObject.Own indexes => Ok (JSMap.set map key (indexes ++ [index])%list)
  | JSObject.Inherited => Throw "map[key].push is not a function"
  | JSObject.Undefined => Ok (JSMap.set map key [index])
  end.

Definition normalize (f : field) : string :=
  JSString.toLowerCase (JSString.trim (Field.toString f)).

Definition trackField (name : string) (map : JSMap.t (list nat))
    (indexed : nat * Row) : result (JSMap.t (list nat)) :=
  let '(index, row) := indexed in
  if Field.truthy (prop row name)
  then track map (normalize (prop row name)) index
  else Ok map.

(** One row of the loop: its roll number is tracked, then its name. *)
Definition trackRow (maps : JSMap.t (list nat) * JSMap.t (list nat))
    (indexed : nat * Row) : result (JSMap.t (list nat) * JSMap.t (list nat)) :=
  rollNumberMap ← trackField "rollNumber" maps.1 indexed;
  nameMap ← trackField "studentName" maps.2 indexed;
  Ok (rollNumberMap, nameMap).

Definition duplicatesOf (map : JSMap.t (list nat)) : list Duplicate :=
  (λ e : string * list nat, mkDuplicate e.1 e.2)
    <$> filter (λ e, 1 < length e.2) (JSObject.entries map).

Definition analyzeDuplicates (rows : list Row) : result DuplicateAnalysis :=
  let indexed := imap (λ index row, (index, row)) rows in
  maps ← foldR trackRow (JSMap.empty, JSMap.empty) indexed;
  Ok {| duplicateRollNumbers := duplicatesOf maps.1;
        duplicateNames := duplicatesOf maps.2 |}.

(** ** The batch *)

Definition validateData (rows : list ExcelRow) (mappings : list ColumnMapping)
    (customRules : list ValidationRule) : result DataValidationResult :=
  let allRules := (DEFAULT_RULES ++ customRules)%list in
  (* Transform data based on mappings *)
  transformedRows ← transformRowsForValidation rows mappings;
  (* Validate each row *)
  let rowResults :=
    imap (λ index row, validateRow row index allRules transformedRows)
         transformedRows in
  (* Global validations *)
  duplicateAnalysis ← analyzeDuplicates transformedRows;
  let globalErrors :=
    if (0 <? length (duplicateRollNumbers duplicateAnalysis))%nat
    then ["Found duplicate roll numbers: "
            +:+ JSString.join ", " (dup_key <$> duplicateRollNumbers duplicateAnalysis)]
    else [] in
  let globalWarnings :=
    if (0 <? length (duplicateNames duplicateAnalysis))%nat
    then ["Found duplicate names: "
            +:+ JSString.join ", " (dup_key <$> duplicateNames duplicateAnalysis)]
    else [] in
  (* Summary *)
  let validRows := length (filter (λ r, isValid r = true) rowResults) in
  let invalidRows := length (filter (λ r, isValid r = false) rowResults) in
  let warningRows := length (filter (λ r, 0 < length (warnings r)) rowResults) in
  Ok {| data_isValid := (length globalErrors =? 0)%nat && (invalidRows =? 0)%nat;
        summary := {| totalRows := length transformedRows;
                      validRows := validRows;
                      invalidRows := invalidRows;
                      warningRows := warningRows |};
        rowResults := rowResults;
        globalErrors := globalErrors;
        globalWarnings := globalWarnings;
        duplicateAnalysis := duplicateAnalysis |}.

(** ** The structure of a sheet *)

(** The fields of [ParsedExcelData] that [validateStructure] reads. *)
Record ParsedExcelData : Type := mkParsedExcelData {
  headers : list string;
  rows : list ExcelRow
}.

Record StructureValidationResult : Type := mkStructureValidationResult {
  structure_isValid : bool;
  structure_errors : list string;
  structure_warnings : list string;
  recommendations : list string
}.

(** [acc[header] = (acc[header] || 0) + 1], on a plain object. *)
Definition countHeader (acc : JSMap.t JSObject.tally) (header : string)
  : JSMap.t JSObject.tally :=
  JSObject.increment acc header.

(** The rows that lack more than half of the headers. *)
Definition findInconsistentRows (rows : list ExcelRow) (headers : list string)
  : list nat :=
  (filter (λ indexed : nat * ExcelRow,
             let missingColumns :=
               List.filter (λ header, negb (JSObject.has (indexed.2 !! header) header))
                           headers in
             (length headers < 2 * length missingColumns)%nat)
          (imap (λ index row, (index, row)) rows)).*1.

(** The patterns [/name/i], [/student/i] and [/full.*name/i]. *)
Definition hasLikelyStudentNameColumn (headers : list string) : bool :=
  existsb (λ header,
             let h := JSString.toLowerCase header in
             JSString.includes "name" h || JSString.includes "student" h
             || JSString.includesAround "full" "name" h)
          headers.

(** The patterns [/roll/i], [/id/i], [/number/i] and [/no/i]. *)
Definition hasLikelyRollNumberColumn (headers : list string) : bool :=
  existsb (λ header,
             let h := JSString.toLowerCase header in
             JSString.includes "roll" h || JSString.includes "id" h
             || JSString.includes "number" h || JSString.includes "no" h)
          headers.

Definition validateStructure (data : ParsedExcelData) : StructureValidationResult :=
  (* Check minimum requirements *)
  let noHeaders :=
    if (length (headers data) =? 0)%nat then ["No headers found in the file"] else [] in
  let noRows :=
    if (length (rows data) =? 0)%nat then ["No data rows found in the file"] else [] in
  (* Check for reasonable number of columns *)
  let fewColumns :=
    if (length (headers data) <? 3)%nat
    then ["Very few columns detected - ensure file contains student name, roll number, and at least one subject"]
    else [] in
  let manyColumns :=
    if (50 <? length (headers data))%nat
    then ["Large number of columns detected - this may slow down processing"]
    else [] in
  (* Check for reasonable number of rows *)
  let manyRows :=
    if (1000 <? length (rows data))%nat
    then ["Large dataset detected - processing may take longer"]
    else [] in
  (* Check for empty headers *)
  let emptyHeaders :=
    List.filter (λ h, String.eqb h "" || (String.length (JSString.trim h) =? 0)%nat)
                (headers data) in
  let hasEmpty := (0 <? length emptyHeaders)%nat in
  (* Check for duplicate headers *)
  let headerCounts := foldl countHeader JSMap.empty (headers data) in
  let duplicateHeaders :=
    (List.filter (λ e : string * JSObject.tally, JSObject.moreThanOnce e.2)
                 (JSObject.entries headerCounts)).*1 in
  let hasDuplicates := (0 <? length duplicateHeaders)%nat in
  (* Check data consistency across rows *)
  let inconsistentRows := findInconsistentRows (rows data) (headers data) in
  let errors :=
    (noHeaders ++ noRows ++
     if hasDuplicates
     then ["Duplicate column headers found: " +:+ JSString.join ", " duplicateHeaders]
     else [])%list in
  {| structure_isValid := (length errors =? 0)%nat;
     structure_errors := errors;
     structure_warnings :=
       (fewColumns ++ manyColumns ++ manyRows ++
        (if hasEmpty
         then [pretty (length emptyHeaders) +:+ " empty column headers found"]
         else []) ++
        if (0 <? length inconsistentRows)%nat
        then [pretty (length inconsistentRows)
                +:+ " rows have inconsistent data structure"]
        else [])%list;
     recommendations :=
       ((if hasEmpty
         then ["Consider removing empty columns or providing proper headers"]
         else []) ++
        (if hasDuplicates then ["Ensure all column headers are unique"] else []) ++
        (* Recommendations based on analysis *)
        (if (length (rows data) <? 5)%nat
         then ["Consider adding more sample data for better analysis"]
         else []) ++
        (if negb (hasLikelyStudentNameColumn (headers data))
         then ["Ensure file contains a student name column"]
         else []) ++
        if negb (hasLikelyRollNumberColumn (headers data))
        then ["Ensure file contains a roll number column"]
        else [])%list |}.

End ValidationService.

(* ===================================================================== *)
(** * Notions used in the statements *)
(* ===================================================================== *)

Definition countIf {A} (f : A → bool) (l : list A) : nat :=
  length (List.filter f l).

(** [x] goes before [y], or may stay before it, when an array is sorted
    with the comparator: [compare(x, y) <= 0]. *)
Definition goesBefore {A} (compare : A → A → Q) (x y : A) : Prop :=
  Qle_bool (compare x y) 0 = true.

(** ** The marks transformer *)

(** The text the marks transformer inspects: [String(v)], lower-cased and
    trimmed. *)
Definition marksText (v : value) : string :=
  JSString.trim (JSString.toLowerCase (Value.toString v)).

(** The words the transformer reads as an absence or a failure, and as a
    pass. *)
Definition isZeroWord (str : string) : bool :=
  existsb (String.eqb str) ["absent"; "ab"; "a"; "fail"; "f"].

Definition isPassWord (str : string) : bool :=
  existsb (String.eqb str) ["pass"; "p"].

(** [q] clamped into [0, 100]. *)
Definition clamp100 (q : Q) : Q :=
  if Qlt_bool q 0 then 0%Q else if Qlt_bool 100 q then 100%Q else q.

(** The transformer in terms of the inspected text alone. *)
Definition transformText (str : string) : number :=
  if isZeroWord str then Num 0
  else if isPassWord str then Num 40
  else match JSString.parseFloat str with
       | NaN => Num 0
       | Num q => Number.max (Num 0) (Number.min (Num 100) (Num q))
       end.

(** ** Student results *)

(** The percentage, the total marks and the roll number of a student
    result. *)
Definition pct (sr : StudentResult) : Q := Percentage.getValue (percentage sr).

Definition total (sr : StudentResult) : Q := Marks.getValue (totalMarks sr).

Definition rollOf (sr : StudentResult) : string :=
  Student.getRollNumber (student sr).

(** The student results have the listed percentages, in the order of the
    map. *)
Definition havePercentages (l : list StudentResult) (ps : list Q) : Prop :=
  Forall2 (λ sr p, (pct sr == p)%Q) l ps.

(** Two student results that differ in their rank at most. *)
Definition sameButRank (a b : StudentResult) : Prop :=
  setRank a None = setRank b None.

(** ** The marks distribution *)

(** [lo <= pct sr < hi] *)
Definition inBucket (lo hi : Q) (sr : StudentResult) : bool :=
  Qle_bool lo (pct sr) && Qlt_bool (pct sr) hi.

(** The distribution [d] holds the count [n] under the key [k]. *)
Definition tallies (d : gmap string number) (k : string) (n : nat) : Prop :=
  ∃ q, d !! k = Some (Num q) ∧ (q == inject_Z (Z.of_nat n))%Q.

(** The keys one student's percentage increments, in order: the bucket the
    loop finds, then the last bucket if the percentage is exactly 100. *)
Definition hitsOf (ranges : list number) (sr : StudentResult) : list string :=
  (match find (ResultCalculator.inRange ranges (pct sr))
               (ResultCalculator.rangeIndices ranges) with
   | Some i => [ResultCalculator.rangeKey ranges (Z.of_nat i)]
   | None => []
   end ++
   if Qeq_bool (pct sr) 100
   then [ResultCalculator.rangeKey ranges (Z.of_nat (length ranges) - 2)]
   else [])%list.

(** How many times [k] occurs in [ks]. *)
Definition occurrences (k : string) (ks : list string) : nat :=
  countIf (String.eqb k) ks.

(** ** The Result aggregate *)

(** A student result carries marks for every one of the subjects. *)
Definition covers (subjects : list Subject.t) (sr : StudentResult) : Prop :=
  ∀ s, s ∈ subjects → Subject.getName s ∈ JSMap.keys (marks sr).

(** The Results a program can hold: made by the constructor, then changed
    by [addStudentResult] and [calculateRanks] only (the map is private, and
    no other operation of the class writes to the student results it
    holds). *)
Inductive constructed : Result.t → Prop :=
  | constructed_new id title subjects studentResults r :
      Result.new id title subjects studentResults = Ok r → constructed r
  | constructed_add r studentResult r' :
      constructed r → Result.addStudentResult r studentResult = Ok r' →
      constructed r'
  | constructed_ranks r :
      constructed r → constructed (Result.calculateRanks r).

(** Every key of the map is the roll number of the result stored under it,
    and no key occurs twice. *)
Definition keyedByRoll (r : Result.t) : Prop :=
  NoDup (JSMap.keys (Result.studentResults r)) ∧
  Forall (λ e : string * StudentResult, e.1 = rollOf e.2) (Result.studentResults r).

(** What holds of every Result a program can hold: each student result
    covers the subjects, under its roll number as the key. *)
Definition invariant (r : Result.t) : Prop :=
  Forall (covers (Result.subjects r)) (Result.getStudentResults r)
  ∧ keyedByRoll r.

(** The raw data with every missing mark of a declared subject written out
    as the number 0; the subjects named like a property that every object
    inherits are left as they are. *)
Definition fillMarks (subjectNames : list string) (m : gmap string RawMark)
  : gmap string RawMark :=
  foldr (λ name m, match JSObject.get (m !! JSString.trim name) (JSString.trim name) with
                   | JSObject.Undefined => <[JSString.trim name := RNumber (Num 0)]> m
                   | _ => m
                   end) m subjectNames.

Definition fillMissing (data : RawData) : RawData :=
  {| raw_id := raw_id data; raw_title := raw_title data;
     raw_subjects := raw_subjects data;
     raw_studentData :=
       (λ sd, {| raw_name := raw_name sd; raw_rollNumber := raw_rollNumber sd;
                 raw_class := raw_class sd; raw_section := raw_section sd;
                 raw_marks := fillMarks (raw_subjects data) (raw_marks sd) |})
         <$> raw_studentData data |}.

(** Some declared subject has no entry in the marks of some student. *)
Definition hasMissingMarks (data : RawData) : Prop :=
  ∃ sd name, sd ∈ raw_studentData data ∧ name ∈ raw_subjects data
             ∧ raw_marks sd !! JSString.trim name = None.

(** ** Ranking *)

(** How many of [l] have a percentage strictly above that of [x]. *)
Definition higherCount (x : StudentResult) (l : list StudentResult) : nat :=
  countIf (λ y, Qlt_bool (pct x) (pct y)) l.

(** [a] may stand before [b] in the ranking order: a higher percentage, or
    the same percentage and total marks that are not lower. *)
Definition ordered (a b : StudentResult) : Prop :=
  (pct b < pct a)%Q ∨ ((pct b == pct a)%Q ∧ (total b <= total a)%Q).

(** What [calculateRanks] leaves in the map for the entry [e], given the
    sorted array after the loop. *)
Definition writeBack (ranked : list (string * StudentResult))
    (e : string * StudentResult) : string * StudentResult :=
  (e.1, match JSMap.get ranked e.1 with
        | Some written => setRank e.2 (rank written)
        | None => e.2
        end).

(** ** Duplicates *)


(** No mapped column is named like a property that every object inherits:
    what a mapping reads from a row is a cell of the row, or is missing. *)
Definition ownColumns (mappings : list ValidationService.ColumnMapping) : Prop :=
  Forall (λ m, JSObject.inherits (ValidationService.excelColumn m) = false)
         mappings.

(** The row has the field [name] (a truthy value) and its text, trimmed
    and lower-cased, names a property that every object inherits. *)
Definition collidesOn (name : string) (row : gmap string field) : bool :=
  Field.truthy (ValidationService.prop row name)
  && JSObject.inherits (ValidationService.normalize (ValidationService.prop row name)).

Definition collides (row : gmap string field) : bool :=
  collidesOn "rollNumber" row || collidesOn "studentName" row.



(** ** Sample data, for the instances of the theorems *)

(** A student result with the given roll number, percentage and total
    marks, in the one subject "Math"; the Result that holds the given
    student results; a student result without marks. *)
Definition sampleStudent (roll : string) (percent tot : Q) : StudentResult :=
  {| student := Student.mk "Sample Student" roll None None;
     marks := [("Math", Marks.mk tot)];
     totalMarks := Marks.mk tot;
     percentage := Percentage.mk percent;
     rank := None |}.

Definition sampleResult (l : list StudentResult) : Result.t :=
  {| Result.id := "sample"; Result.title := "Sample";
     Result.subjects := [Subject.mk "Math" (Num 100) false];
     Result.studentResults := (λ sr, (rollOf sr, sr)) <$> l;
     Result.maxTotalMarks := Num 100 |}.

Definition sampleUncovered : StudentResult :=
  {| student := Student.mk "Sample Student" "7" None None;
     marks := [];
     totalMarks := Marks.mk 0;
     percentage := Percentage.mk 0;
     rank := None |}.

(** Raw data in which the one student has no entry for the one subject. *)
Definition sampleMissing : RawData :=
  {| raw_id := "r1"; raw_title := "Term 1"; raw_subjects := ["Math"];
     raw_studentData := [mkRawStudent "Asha Rao" "1" None None ∅] |}.

(** Raw data of three students in one subject, two of them tied at the
    top. *)
Definition sampleTied : RawData :=
  {| raw_id := "tied-test"; raw_title := "Tied Test"; raw_subjects := ["Math"];
     raw_studentData :=
       [mkRawStudent "Student A" "001" None None {["Math" := RNumber (Num 85)]};
        mkRawStudent "Student B" "002" None None {["Math" := RNumber (Num 85)]};
        mkRawStudent "Student C" "003" None None {["Math" := RNumber (Num 75)]}] |}.

(** A transformed row with the given name, roll number and marks. *)
Definition sampleRow (name roll : value) (subjectMarks : list (string * value))
  : gmap string field :=
  {[ "marks" := Obj subjectMarks;
     "studentName" := Cell name;
     "rollNumber" := Cell roll ]}.

(** A student whose only mark is 5, and one whose only mark is 98. *)
Definition sampleLowRow : gmap string field :=
  sampleRow (VString "Asha Rao") (VString "12") [("math", VNumber (Num 5))].

Definition sampleHighRow : gmap string field :=
  sampleRow (VString "Ravi Kumar") (VString "13") [("math", VNumber (Num 98))].

(** The sheet these two rows come from. *)
Definition sampleExtremes : list (gmap string value) :=
  [ {[ "Name" := VString "Asha Rao"; "Roll" := VString "12";
       "Math" := VNumber (Num 5) ]};
    {[ "Name" := VString "Ravi Kumar"; "Roll" := VString "13";
       "Math" := VNumber (Num 98) ]} ].

(** A sheet of three rows, the first two with the same roll number up to
    case and white space; the mappings of its columns; its rows once
    transformed. *)
Definition sampleSheet : list (gmap string value) :=
  [ {[ "Name" := VString "Asha Rao"; "Roll" := VString "A1";
       "Math" := VNumber (Num 72) ]};
    {[ "Name" := VString "Ravi Kumar"; "Roll" := VString " a1";
       "Math" := VNumber (Num 64) ]};
    {[ "Name" := VString "Meena Iyer"; "Roll" := VNumber (Num 7);
       "Math" := VNumber (Num 81) ]} ].


(** A sheet whose one roll number reads, lower-cased, as a property that
    every object inherits. *)
Definition sampleInherited : list (gmap string value) :=
  [ {[ "Name" := VString "Asha Rao"; "Roll" := VString "Constructor";
       "Math" := VNumber (Num 72) ]} ].

Definition sampleMappings : list ValidationService.ColumnMapping :=
  [ ValidationService.mkColumnMapping "Name" "studentName";
    ValidationService.mkColumnMapping "Roll" "rollNumber";
    ValidationService.mkColumnMapping "Math" "subject_math" ].

Definition sampleTransformed : list (gmap string field) :=
  [ sampleRow (VString "Asha Rao") (VString "A1") [("math", VNumber (Num 72))];
    sampleRow (VString "Ravi Kumar") (VString " a1") [("math", VNumber (Num 64))];
    sampleRow (VString "Meena Iyer") (VNumber (Num 7)) [("math", VNumber (Num 81))] ].


(** ** Names *)

(** A text of ASCII characters only; on such a text the case conversions
    of JavaScript change the letters a-z and A-Z and nothing else. *)
Definition asciiOnly (s : string) : Prop :=
  JSString.forallChars (λ c, (N_of_ascii c <? 128)%N) s = true.

(** ** Totals and extremes *)




(** The student result holds marks for the subject, and they equal [q]. *)
Definition scored (name : string) (q : Q) (sr : StudentResult) : bool :=
  match JSMap.get (marks sr) name with
  | Some m => Qeq_bool (Marks.getValue m) q
  | None => false
  end.

(** What the loop of [findLowestMarksInSubject] has found once it has seen
    the students [l]. *)
Definition lowestFound (name : string) (l : list StudentResult)
    (out : option Marks.t * list StudentResult) : Prop :=
  match out.1 with
  | None =>
      Forall (λ sr, JSMap.get (marks sr) name = None) l ∧ out.2 = []
  | Some lowest =>
      (∀ sr m, sr ∈ l → JSMap.get (marks sr) name = Some m →
               (Marks.value lowest <= Marks.value m)%Q) ∧
      out.2 = List.filter (scored name (Marks.value lowest)) l ∧
      ∃ sr, sr ∈ l ∧ JSMap.get (marks sr) name = Some lowest
  end.


(** The rank of a student result as a number, 0 when it has none. *)
Definition rankOf (sr : StudentResult) : nat := default 0%nat (rank sr).

(** The letter grades, and how many of the student results have the
    grade [g]. *)
Definition letterGrades : list string := ["A+"; "A"; "B"; "C"; "D"; "E"; "F"].

Definition gradeCount (g : string) (l : list StudentResult) : nat :=
  countIf (λ sr, String.eqb (Percentage.getLetterGrade (percentage sr)) g) l.


(** ** More sample data *)

(** A class of three, two of them tied at the top. *)
Definition sampleClass : Result.t :=
  sampleResult [sampleStudent "001" 85 85; sampleStudent "002" 85 85;
                sampleStudent "003" 75 75].

(** The keys of the default ranges, and the student results counted under
    each of them. *)
Definition defaultKeys : list string :=
  ["0-40%"; "40-60%"; "60-75%"; "75-90%"; "90-100%"].

Definition defaultBuckets : list (StudentResult → bool) :=
  [inBucket 0 40; inBucket 40 60; inBucket 60 75; inBucket 75 90;
   λ sr, inBucket 90 100 sr || Qeq_bool (pct sr) 100].

(** ** Mappings *)

(** Some mapping to the field "marks" comes before a mapping to a subject:
    the first replaces the marks object of the row under construction by a
    cell value, on which the second cannot set a property. *)
Definition marksClobbered (mappings : list ValidationService.ColumnMapping) : Prop :=
  ∃ (i j : nat) mi mj,
    (i < j)%nat ∧ mappings !! i = Some mi ∧ mappings !! j = Some mj
    ∧ ValidationService.dataField mi = "marks"
    ∧ JSString.startsWith "subject_" (ValidationService.dataField mj) = true.


(** The keys that a plain object does not inherit, in order. *)
Definition notInherited (keys : list string) : list string :=
  List.filter (λ key, negb (JSObject.inherits key)) keys.

(** The count that a counter holds under [key], 0 when it holds none or
    holds a text. *)
Definition countOf (acc : JSMap.t JSObject.tally) (key : string) : nat :=
  match JSMap.get acc key with
  | Some (JSObject.Times n) => n
  | _ => 0%nat
  end.

(** A counter as the increments leave it: it holds counts under the keys
    that it does not inherit, and texts under those that it inherits. *)
Definition counted (acc : JSMap.t JSObject.tally) : Prop :=
  ∀ key, match JSMap.get acc key with
         | None => True
         | Some (JSObject.Times _) => JSObject.inherits key = false
         | Some JSObject.Text => JSObject.inherits key = true
         end.

(** A character of a normalized subject name: a lower-case letter, a
    digit or an underscore. *)
Definition isSubjectNameChar (c : ascii) : bool :=
  JSString.isLower c || JSString.isDigit c || Ascii.eqb c "_".

(** The subject name that [applyMappings] and the validation read off a
    data field: [dataField.replace('subject_', '')] on a field that starts
    with "subject_". *)
Definition subjectNameOf (dataField : string) : string :=
  String.substring 8 (String.length dataField - 8) dataField.

(** ** Automatic mappings *)

(** The fields that have patterns. *)
Definition knownFields : list string := ColumnMapper.FIELD_PATTERNS.*1.

(** The mappings to a field, and the mappings to a subject. *)
Definition fieldMappings (ms : list ColumnMapper.ColumnMapping)
  : list ColumnMapper.ColumnMapping :=
  List.filter (λ m, negb (ColumnMapper.isSubjectMapping m)) ms.

Definition subjectMappings (ms : list ColumnMapper.ColumnMapping)
  : list ColumnMapper.ColumnMapping :=
  List.filter ColumnMapper.isSubjectMapping ms.

(** The transformer given to the subject columns. *)
Definition marksTransformer (v : value) : result value :=
  Ok (VNumber (ColumnMapper.getMarksTransformer v)).

(** What [autoMapColumns] makes of a mapping: a subject mapping is named
    after its normalized column, is not required and has the marks
    transformer; a field mapping is to a field that has patterns, is
    required exactly when the field is, and has the transformer of the
    field. *)
Definition wellFormedMapping (m : ColumnMapper.ColumnMapping) : Prop :=
  if ColumnMapper.isSubjectMapping m
  then ColumnMapper.dataField m
       = "subject_" +:+ ColumnMapper.normalizeSubjectName (ColumnMapper.excelColumn m)
       ∧ ColumnMapper.isRequired m = false
       ∧ ColumnMapper.transformer m = Some marksTransformer
  else ColumnMapper.dataField m ∈ knownFields
       ∧ ColumnMapper.isRequired m
         = JSArray.includes ColumnMapper.REQUIRED_FIELDS (ColumnMapper.dataField m)
       ∧ ColumnMapper.transformer m
         = ColumnMapper.getFieldTransformer (ColumnMapper.dataField m).

(** What holds of the state of the loop of [autoMapColumns] once it has
    seen the headers [hs]. *)
Definition autoMapInvariant (hs : list string) (st : ColumnMapper.AutoMapState)
  : Prop :=
  hs ≡ₚ ((ColumnMapper.excelColumn <$> ColumnMapper.st_mappings st)
         ++ ColumnMapper.st_unmappedColumns st)%list
  ∧ ColumnMapper.st_mappedFields st
    = ColumnMapper.dataField <$> fieldMappings (ColumnMapper.st_mappings st)
  ∧ NoDup (ColumnMapper.st_mappedFields st)
  ∧ Forall wellFormedMapping (ColumnMapper.st_mappings st)
  ∧ ColumnMapper.st_suggestions st = [].

(** ** Transformed rows *)

(** A row that [applyMappings] keeps has a student name and a roll
    number. *)
Definition hasRequiredData (row : gmap string ColumnMapper.property) : Prop :=
  ColumnMapper.truthy (ColumnMapper.prop row "studentName") = true
  ∧ ColumnMapper.truthy (ColumnMapper.prop row "rollNumber") = true.

(** A mark as the marks transformer leaves it: a number in [0, 100]. *)
Definition isMark (v : value) : Prop :=
  ∃ q, v = VNumber (Num q) ∧ (0 <= q <= 100)%Q.

(** The [marks] of a row are an object that holds marks only. *)
Definition hasMarks (row : gmap string ColumnMapper.property) : Prop :=
  ∃ o, ColumnMapper.prop row "marks" = ColumnMapper.MarksObject o
       ∧ Forall isMark (JSMap.values o).

(* ===================================================================== *)
(** * Comparisons on rationals *)
(* ===================================================================== *)

Lemma Qle_bool_false (x y : Q) : Qle_bool x y = false ↔ (y < x)%Q.
Proof.
  split; intros H.
  - apply Qnot_le_lt. intros Hle. apply Qle_bool_iff in Hle. congruence.
  - destruct (Qle_bool x y) eqn:E; [|done].
    apply Qle_bool_iff in E. exfalso. by apply (Qlt_not_le y x).
Qed.

Lemma Qlt_bool_true (x y : Q) : Qlt_bool x y = true ↔ (x < y)%Q.
Proof. unfold Qlt_bool. rewrite negb_true_iff. apply Qle_bool_false. Qed.

Lemma Qlt_bool_false (x y : Q) : Qlt_bool x y = false ↔ (y <= x)%Q.
Proof. unfold Qlt_bool. rewrite negb_false_iff. apply Qle_bool_iff. Qed.

Lemma Qeq_bool_false (x y : Q) : Qeq_bool x y = false ↔ ¬ (x == y)%Q.
Proof.
  split; [apply Qeq_bool_neq|]. intros H.
  destruct (Qeq_bool x y) eqn:E; [|done]. by apply Qeq_bool_iff in E.
Qed.

(** Turns the boolean comparisons among the hypotheses into propositions. *)
Ltac qprop :=
  repeat match goal with
    | H : Qle_bool _ _ = true |- _ => apply Qle_bool_iff in H
    | H : Qle_bool _ _ = false |- _ => apply Qle_bool_false in H
    | H : Qlt_bool _ _ = true |- _ => apply Qlt_bool_true in H
    | H : Qlt_bool _ _ = false |- _ => apply Qlt_bool_false in H
    | H : Qeq_bool _ _ = true |- _ => apply Qeq_bool_iff in H
    | H : Qeq_bool _ _ = false |- _ => apply Qeq_bool_false in H
    end.

(* ===================================================================== *)
(** * Percentage *)
(* ===================================================================== *)

Lemma Percentage_new_inv (x : number) (p : Percentage.t) :
  Percentage.new x = Ok p →
  x = Num (Percentage.value p) ∧ (0 <= Percentage.value p <= 100)%Q.
Proof.
  unfold Percentage.new, Percentage.validatePercentage.
  destruct x as [|q]; simpl; [done|].
  destruct (Qlt_bool q 0) eqn:E0; simpl; [done|].
  destruct (Qlt_bool 100 q) eqn:E1; simpl; [done|].
  intros [= <-]. simpl. qprop. done.
Qed.


(** C6.  Every successfully constructed Percentage, by the constructor or by
    [fromMarks], has a value between 0 and 100 inclusive; [fromMarks] fails
    for every total that is at most 0, and fails whenever the computed ratio
    [(obtained / total) * 100] exceeds 100. *)
Theorem C6_percentage_bounds :
  (∀ (x : number) (p : Percentage.t),
     Percentage.new x = Ok p → (0 <= Percentage.getValue p <= 100)%Q) ∧
  (∀ (obtained total : number) (p : Percentage.t),
     Percentage.fromMarks obtained total = Ok p →
     (0 <= Percentage.getValue p <= 100)%Q) ∧
  (∀ (obtained : number) (total : Q),
     (total <= 0)%Q →
     Percentage.fromMarks obtained (Num total)
       = Throw "Total marks must be greater than zero") ∧
  (∀ obtained total : number,
     Number.gt (Number.mul (Number.div obtained total) (Num 100)) (Num 100) = true →
     throws (Percentage.fromMarks obtained total)).
Proof.
  split; [|split; [|split]].
  - intros x p H. by apply Percentage_new_inv in H as [_ ?].
  - intros obtained total p H. unfold Percentage.fromMarks in H.
    destruct (Number.le total (Num 0)); [done|].
    by apply Percentage_new_inv in H as [_ ?].
  - intros obtained total Hle. unfold Percentage.fromMarks. simpl.
    apply Qle_bool_iff in Hle. by rewrite Hle.
  - intros obtained total Hgt. unfold Percentage.fromMarks.
    destruct (Number.le total (Num 0)); [by eexists|].
    destruct (Number.mul (Number.div obtained total) (Num 100)) as [|q]; [done|].
    unfold Number.gt, Number.lt in Hgt.
    unfold Percentage.new, Percentage.validatePercentage.
    destruct (Qlt_bool q 0); simpl; [by eexists|].
    rewrite Hgt. simpl. by eexists.
Qed.

(** Instances: 42.5 is accepted; a total of 0 and the ratio 125 are refused. *)
Lemma C6_percentage_bounds_witness :
  (0 <= 42.5 <= 100)%Q ∧
  Percentage.fromMarks (Num 10) (Num 0)
    = Throw "Total marks must be greater than zero" ∧
  throws (Percentage.fromMarks (Num 250) (Num 200)).
Proof.
  destruct C6_percentage_bounds as (Hnew & _ & Hzero & Hratio).
  split; [|split].
  - apply (Hnew (Num 42.5) (Percentage.mk 42.5)). reflexivity.
  - apply (Hzero (Num 10) 0%Q). unfold Qle. simpl. lia.
  - apply (Hratio (Num 250) (Num 200)). vm_compute. reflexivity.
Defined.

(* ===================================================================== *)
(** * ColumnMapper: the marks transformer *)
(* ===================================================================== *)

Lemma getMarksTransformer_text (v : value) :
  ColumnMapper.getMarksTransformer v = transformText (marksText v).
Proof.
  assert (Hgen : ∀ str,
    (if String.eqb str "absent" || String.eqb str "ab" || String.eqb str "a"
     then Num 0
     else if String.eqb str "pass" || String.eqb str "p" then Num 40
     else if String.eqb str "fail" || String.eqb str "f" then Num 0
     else let num := JSString.parseFloat str in
          if Number.isNaN num then Num 0
          else Number.max (Num 0) (Number.min (Num 100) num))
    = transformText str).
  { intros str. unfold transformText, isZeroWord, isPassWord. simpl.
    repeat match goal with
      | |- context [String.eqb str ?w] =>
          let E := fresh "E" in
          destruct (String.eqb str w) eqn:E;
            [apply String.eqb_eq in E; subst str; reflexivity|]
      end.
    simpl. destruct (JSString.parseFloat str); reflexivity. }
  destruct v as [| |b|n|s]; try reflexivity.
  - apply Hgen.
  - apply Hgen.
  - destruct s; [reflexivity|]. apply Hgen.
Qed.

Lemma clamp_bounds (q : Q) :
  ∃ q', Number.max (Num 0) (Number.min (Num 100) (Num q)) = Num q'
        ∧ (q' == clamp100 q)%Q ∧ (0 <= q' <= 100)%Q.
Proof.
  unfold Number.max, Number.min, clamp100. eexists. split; [reflexivity|].
  destruct (Qle_bool 100 q) eqn:E1; destruct (Qlt_bool q 0) eqn:E2;
    destruct (Qlt_bool 100 q) eqn:E3; simpl;
    try (destruct (Qle_bool 0 q) eqn:E4); simpl; qprop; split; lra.
Qed.

(** C7 (amended).  For every input value the marks transformer returns a
    number in [0, 100].  On the trimmed, lower-cased text of the input:
    "absent", "ab", "a", "fail" and "f" give 0; "pass" and "p" give 40; any
    other text that does not start with a number gives 0 (the empty text
    included); any other text that starts with a number gives that number
    clamped into [0, 100]. *)
Theorem C7_marks_transformer (v : value) :
  let str := marksText v in
  let out := ColumnMapper.getMarksTransformer v in
  (∃ q, out = Num q ∧ (0 <= q <= 100)%Q) ∧
  (isZeroWord str = true → out = Num 0) ∧
  (isPassWord str = true → out = Num 40) ∧
  (isZeroWord str = false → isPassWord str = false →
   JSString.parseFloat str = NaN → out = Num 0) ∧
  (∀ q, isZeroWord str = false → isPassWord str = false →
        JSString.parseFloat str = Num q →
        ∃ q', out = Num q' ∧ (q' == clamp100 q)%Q).
Proof.
  intros str out. subst out. rewrite getMarksTransformer_text. fold str.
  unfold transformText.
  split; [|split; [|split; [|split]]].
  - destruct (isZeroWord str); [exists 0%Q; split; [done|lra]|].
    destruct (isPassWord str); [exists 40%Q; split; [done|lra]|].
    destruct (JSString.parseFloat str) as [|q]; [exists 0%Q; split; [done|lra]|].
    destruct (clamp_bounds q) as (q' & -> & _ & Hb). by exists q'.
  - by intros ->.
  - intros Hp. destruct (isZeroWord str) eqn:Hz; [|by rewrite Hp].
    exfalso. revert Hz Hp. unfold isZeroWord, isPassWord. simpl.
    destruct (String.eqb str "pass") eqn:E1;
      [apply String.eqb_eq in E1; by rewrite E1|].
    destruct (String.eqb str "p") eqn:E2;
      [apply String.eqb_eq in E2; by rewrite E2|done].
  - by intros -> -> ->.
  - intros q -> -> ->. destruct (clamp_bounds q) as (q' & -> & Hq & _).
    by exists q'.
Qed.

(** Instances of the four cases. *)
Lemma C7_marks_transformer_witness :
  ColumnMapper.getMarksTransformer (VString " Absent ") = Num 0 ∧
  ColumnMapper.getMarksTransformer (VString "PASS") = Num 40 ∧
  ColumnMapper.getMarksTransformer (VString "n/a") = Num 0 ∧
  (∃ q', ColumnMapper.getMarksTransformer (VNumber (Num 120)) = Num q'
         ∧ (q' == clamp100 120)%Q).
Proof.
  split; [|split; [|split]].
  - pose proof (C7_marks_transformer (VString " Absent ")) as H.
    cbv zeta in H. destruct H as (_ & H & _). apply H. reflexivity.
  - pose proof (C7_marks_transformer (VString "PASS")) as H.
    cbv zeta in H. destruct H as (_ & _ & H & _). apply H. reflexivity.
  - pose proof (C7_marks_transformer (VString "n/a")) as H.
    cbv zeta in H. destruct H as (_ & _ & _ & H & _). apply H; reflexivity.
  - pose proof (C7_marks_transformer (VNumber (Num 120))) as H.
    cbv zeta in H. destruct H as (_ & _ & _ & _ & H). apply H; reflexivity.
Defined.

(** C7 as stated fails: the text "p" is none of the words the claim lists
    and does not start with a number, yet it is transformed to 40, not 0. *)
Lemma C7_counterexample :
  existsb (String.eqb (marksText (VString "p"))) ["absent"; "ab"; "pass"; "fail"]
    = false ∧
  JSString.parseFloat (marksText (VString "p")) = NaN ∧
  ColumnMapper.getMarksTransformer (VString "p") = Num 40 ∧
  Num 40 ≠ Num 0.
Proof. repeat split; try reflexivity. discriminate. Qed.

(* ===================================================================== *)
(** * ResultCalculator: the marks distribution *)
(* ===================================================================== *)

Lemma countStudent_hits ranges d sr :
  ResultCalculator.countStudent ranges d sr
  = foldl ResultCalculator.increment d (hitsOf ranges sr).
Proof.
  unfold ResultCalculator.countStudent, hitsOf, pct.
  destruct (find _ _); destruct (Qeq_bool _ _); reflexivity.
Qed.

Lemma increment_lookup d k' k :
  ResultCalculator.increment d k' !! k
  = if String.eqb k k'
    then Some (Number.add (default NaN (d !! k)) (Num 1))
    else d !! k.
Proof.
  unfold ResultCalculator.increment.
  destruct (String.eqb k k') eqn:E.
  - apply String.eqb_eq in E. subst. by rewrite lookup_insert_eq.
  - apply String.eqb_neq in E. by rewrite lookup_insert_ne.
Qed.

Lemma foldl_increment_lookup (ks : list string) :
  ∀ (d : gmap string number) (k : string) (q : Q),
    d !! k = Some (Num q) →
    ∃ q', foldl ResultCalculator.increment d ks !! k = Some (Num q')
          ∧ (q' == q + inject_Z (Z.of_nat (occurrences k ks)))%Q.
Proof.
  induction ks as [|k' ks IH]; intros d k q Hd; simpl.
  - exists q. split; [done|]. unfold occurrences, countIf. simpl.
    change (inject_Z (Z.of_nat 0)) with 0%Q. lra.
  - unfold occurrences, countIf in *. simpl.
    pose proof (increment_lookup d k' k) as Hinc.
    destruct (String.eqb k k') eqn:E.
    + rewrite Hd in Hinc. simpl in Hinc.
      destruct (IH _ _ _ Hinc) as (q' & Hq' & Heq).
      exists q'. split; [done|]. rewrite Heq. simpl length.
      rewrite Nat2Z.inj_succ, <- Z.add_1_r, inject_Z_plus.
      change (inject_Z 1) with 1%Q. lra.
    + rewrite Hd in Hinc. by apply IH.
Qed.

Lemma foldl_countStudent_lookup ranges (l : list StudentResult) :
  ∀ (d : gmap string number) (k : string) (q : Q),
    d !! k = Some (Num q) →
    ∃ q', foldl (ResultCalculator.countStudent ranges) d l !! k = Some (Num q')
          ∧ (q' == q + inject_Z (Z.of_nat
                     (sum_list ((λ sr, occurrences k (hitsOf ranges sr)) <$> l))))%Q.
Proof.
  induction l as [|sr l IH]; intros d k q Hd; csimpl.
  - exists q. split; [done|]. change (inject_Z (Z.of_nat 0)) with 0%Q. lra.
  - rewrite countStudent_hits.
    destruct (foldl_increment_lookup (hitsOf ranges sr) d k q Hd) as (q1 & H1 & E1).
    destruct (IH _ _ _ H1) as (q2 & H2 & E2).
    exists q2. split; [done|]. rewrite E2, E1.
    rewrite Nat2Z.inj_add, inject_Z_plus. lra.
Qed.

Lemma sum_indicator {A} (f : A → bool) (g : A → nat) (l : list A) :
  (∀ x, g x = if f x then 1 else 0) →
  sum_list (g <$> l) = countIf f l.
Proof.
  intros Hg. unfold countIf. induction l as [|x l IH]; csimpl; [done|].
  rewrite Hg, IH. by destruct (f x).
Qed.

(** The keys a percentage increments under the default ranges. *)
Lemma hitsOf_default (sr : StudentResult) :
  hitsOf ResultCalculator.defaultRanges sr
  = ((if inBucket 0 40 sr then ["0-40%"]
      else if inBucket 40 60 sr then ["40-60%"]
      else if inBucket 60 75 sr then ["60-75%"]
      else if inBucket 75 90 sr then ["75-90%"]
      else if inBucket 90 100 sr then ["90-100%"]
      else []) ++
     if Qeq_bool (pct sr) 100 then ["90-100%"] else [])%list.
Proof.
  unfold hitsOf, inBucket. simpl.
  unfold ResultCalculator.inRange, Number.ge, Number.le, Number.lt. simpl.
  repeat (destruct (Qle_bool _ (pct sr) && Qlt_bool (pct sr) _); [reflexivity|]).
  reflexivity.
Qed.

Lemma inBucket_spec lo hi sr :
  inBucket lo hi sr = true ↔ (lo <= pct sr)%Q ∧ (pct sr < hi)%Q.
Proof.
  unfold inBucket. rewrite andb_true_iff, Qle_bool_iff, Qlt_bool_true. done.
Qed.

(** Turns the bucket tests of the context into inequalities. *)
Ltac bucket_cases sr :=
  repeat match goal with
    | |- context [inBucket ?lo ?hi sr] =>
        let E := fresh "E" in
        destruct (inBucket lo hi sr) eqn:E;
        [apply inBucket_spec in E
        |apply not_true_iff_false in E; rewrite inBucket_spec in E]
    | |- context [Qeq_bool (pct sr) ?x] =>
        let E := fresh "E" in
        destruct (Qeq_bool (pct sr) x) eqn:E; qprop
    end.

Lemma occurrences_default (sr : StudentResult) :
  occurrences "0-40%" (hitsOf ResultCalculator.defaultRanges sr)
    = (if inBucket 0 40 sr then 1 else 0) ∧
  occurrences "40-60%" (hitsOf ResultCalculator.defaultRanges sr)
    = (if inBucket 40 60 sr then 1 else 0) ∧
  occurrences "60-75%" (hitsOf ResultCalculator.defaultRanges sr)
    = (if inBucket 60 75 sr then 1 else 0) ∧
  occurrences "75-90%" (hitsOf ResultCalculator.defaultRanges sr)
    = (if inBucket 75 90 sr then 1 else 0) ∧
  occurrences "90-100%" (hitsOf ResultCalculator.defaultRanges sr)
    = (if inBucket 90 100 sr || Qeq_bool (pct sr) 100 then 1 else 0).
Proof.
  rewrite hitsOf_default.
  bucket_cases sr; simpl; repeat split; try reflexivity; exfalso; lra.
Qed.

(** Finds an element in a list that is written out. *)
Ltac find_elem := first [ by left | right; find_elem ].

(** C8.  Under the default ranges [0, 40, 60, 75, 90, 100], the marks
    distribution of every Result counts, under each range key, the students
    whose percentage lies in that half-open range, and the top key
    "90-100%" counts in addition the students at exactly 100. *)
Theorem C8_marks_distribution (r : Result.t) :
  let d := ResultCalculator.calculateMarksDistribution r
             ResultCalculator.defaultRanges in
  let l := Result.getStudentResults r in
  tallies d "0-40%" (countIf (inBucket 0 40) l) ∧
  tallies d "40-60%" (countIf (inBucket 40 60) l) ∧
  tallies d "60-75%" (countIf (inBucket 60 75) l) ∧
  tallies d "75-90%" (countIf (inBucket 75 90) l) ∧
  tallies d "90-100%"
    (countIf (λ sr, inBucket 90 100 sr || Qeq_bool (pct sr) 100) l).
Proof.
  intros d l. subst d l. unfold ResultCalculator.calculateMarksDistribution.
  set (l := Result.getStudentResults r).
  set (d0 := foldl _ ∅ _).
  assert (Hinit : ∀ k, k ∈ ["0-40%"; "40-60%"; "60-75%"; "75-90%"; "90-100%"] →
                       d0 !! k = Some (Num 0)).
  { intros k Hk. subst d0. repeat (apply elem_of_cons in Hk as [->|Hk];
      [vm_compute; reflexivity|]). by apply elem_of_nil in Hk. }
  assert (Hkey : ∀ k (f : StudentResult → bool),
            k ∈ ["0-40%"; "40-60%"; "60-75%"; "75-90%"; "90-100%"] →
            (∀ sr, occurrences k (hitsOf ResultCalculator.defaultRanges sr)
                   = if f sr then 1 else 0) →
            tallies (foldl (ResultCalculator.countStudent
                              ResultCalculator.defaultRanges) d0 l) k (countIf f l)).
  { intros k f Hk Hocc.
    destruct (foldl_countStudent_lookup ResultCalculator.defaultRanges l d0 k 0
                (Hinit k Hk)) as (q & Hq & Heq).
    exists q. split; [done|]. rewrite Heq.
    rewrite (sum_indicator f) by done. lra. }
  repeat split; apply Hkey; try find_elem; intros sr;
    destruct (occurrences_default sr) as (H1 & H2 & H3 & H4 & H5); done.
Qed.

(** The edge case of the tests: one student at exactly 100 per cent. *)
Example distribution_of_perfect_student :
  match Result.fromRawData
          (mkRawData "test" "Test" ["Math"]
             [mkRawStudent "Perfect Student" "001" None None
                           {["Math" := RNumber (Num 100)]}]) with
  | Ok r => ResultCalculator.calculateMarksDistribution r
              ResultCalculator.defaultRanges !! "90-100%"
  | Throw _ => None
  end = Some (Num 1).
Proof. vm_compute. reflexivity. Qed.

(* ===================================================================== *)
(** * Maps in insertion order *)
(* ===================================================================== *)

Section JSMapFacts.
Context {V : Type}.
Implicit Types (m : JSMap.t V) (k : string) (v : V).

Lemma JSMap_get_set_eq m k v : JSMap.get (JSMap.set m k v) k = Some v.
Proof.
  induction m as [|[k' v'] m IH]; simpl.
  - by rewrite String.eqb_refl.
  - destruct (String.eqb k' k) eqn:E; simpl; rewrite E; done.
Qed.

Lemma JSMap_get_set_ne m k k' v :
  k ≠ k' → JSMap.get (JSMap.set m k v) k' = JSMap.get m k'.
Proof.
  intros Hne. induction m as [|[k0 v0] m IH]; simpl.
  - apply String.eqb_neq in Hne. by rewrite Hne.
  - destruct (String.eqb k0 k) eqn:E; simpl.
    + apply String.eqb_eq in E. subst k0.
      apply String.eqb_neq in Hne. by rewrite Hne.
    + by rewrite IH.
Qed.

Lemma JSMap_get_Some_elem m k v : JSMap.get m k = Some v → (k, v) ∈ m.
Proof.
  induction m as [|[k' v'] m IH]; simpl; [done|].
  destruct (String.eqb k' k) eqn:E.
  - apply String.eqb_eq in E. intros Hv. injection Hv as ->. subst k'. left.
  - intros H. right. by apply IH.
Qed.

Lemma JSMap_get_None m k : JSMap.get m k = None ↔ k ∉ JSMap.keys m.
Proof.
  unfold JSMap.keys. induction m as [|[k' v'] m IH]; csimpl.
  - split; [intros _; apply not_elem_of_nil|done].
  - rewrite not_elem_of_cons. destruct (String.eqb k' k) eqn:E.
    + apply String.eqb_eq in E. subst. split; [done|]. by intros [? _].
    + apply String.eqb_neq in E. rewrite IH.
      split; [intros H; split; [congruence|done]|by intros [_ ?]].
Qed.

Lemma JSMap_get_is_Some m k : is_Some (JSMap.get m k) ↔ k ∈ JSMap.keys m.
Proof.
  destruct (JSMap.get m k) eqn:E.
  - split; [intros _|by eauto].
    apply JSMap_get_Some_elem in E. unfold JSMap.keys.
    apply list_elem_of_fmap. by exists (k, v).
  - apply JSMap_get_None in E. split; [by intros [? ?]|done].
Qed.

Lemma JSMap_keys_set_present m k v :
  k ∈ JSMap.keys m → JSMap.keys (JSMap.set m k v) = JSMap.keys m.
Proof.
  unfold JSMap.keys. induction m as [|[k' v'] m IH]; csimpl.
  - by intros ?%elem_of_nil.
  - intros Hin. destruct (String.eqb k' k) eqn:E; csimpl; [done|].
    apply String.eqb_neq in E. f_equal. apply IH.
    by apply elem_of_cons in Hin as [->|?].
Qed.

Lemma JSMap_keys_set_absent m k v :
  k ∉ JSMap.keys m → JSMap.keys (JSMap.set m k v) = (JSMap.keys m ++ [k])%list.
Proof.
  unfold JSMap.keys. induction m as [|[k' v'] m IH]; csimpl; [done|].
  rewrite not_elem_of_cons. intros [Hne Hnin].
  destruct (String.eqb k' k) eqn:E; csimpl.
  - apply String.eqb_eq in E. by subst.
  - f_equal. by apply IH.
Qed.

Lemma JSMap_size_set_present m k v :
  k ∈ JSMap.keys m → JSMap.size (JSMap.set m k v) = JSMap.size m.
Proof.
  intros Hin. pose proof (JSMap_keys_set_present m k v Hin) as H.
  apply (f_equal length) in H.
  unfold JSMap.size, JSMap.keys in *. by rewrite !length_fmap in H.
Qed.

Lemma JSMap_size_set_absent m k v :
  k ∉ JSMap.keys m → JSMap.size (JSMap.set m k v) = S (JSMap.size m).
Proof.
  intros Hnin. pose proof (JSMap_keys_set_absent m k v Hnin) as H.
  apply (f_equal length) in H.
  unfold JSMap.size, JSMap.keys in *.
  rewrite length_app, !length_fmap in H. simpl in H. lia.
Qed.

Lemma JSMap_NoDup_set m k v :
  NoDup (JSMap.keys m) → NoDup (JSMap.keys (JSMap.set m k v)).
Proof.
  intros Hnd. destruct (decide (k ∈ JSMap.keys m)) as [Hin|Hnin].
  - by rewrite JSMap_keys_set_present.
  - rewrite JSMap_keys_set_absent by done.
    apply NoDup_app. split; [done|]. split; [|apply NoDup_singleton].
    intros x Hx ->%list_elem_of_singleton. done.
Qed.

Lemma JSMap_elem_set m k v e :
  e ∈ JSMap.set m k v → e = (k, v) ∨ e ∈ m.
Proof.
  induction m as [|[k' v'] m IH]; simpl.
  - intros ->%list_elem_of_singleton. by left.
  - destruct (String.eqb k' k) eqn:E.
    + apply String.eqb_eq in E. subst k'.
      intros [->|?]%elem_of_cons; [by left|right; by right].
    + intros [->|?]%elem_of_cons; [right; left|].
      destruct (IH H) as [?|?]; [by left|right; by right].
Qed.

Lemma JSMap_get_NoDup m k v :
  NoDup (JSMap.keys m) → (k, v) ∈ m → JSMap.get m k = Some v.
Proof.
  unfold JSMap.keys. induction m as [|[k' v'] m IH]; csimpl.
  - by intros _ ?%elem_of_nil.
  - intros [Hnin Hnd]%NoDup_cons. intros [[= <- <-]|Hin]%elem_of_cons.
    + by rewrite String.eqb_refl.
    + destruct (String.eqb k' k) eqn:E; [|by apply IH].
      apply String.eqb_eq in E. subst k'. exfalso. apply Hnin.
      apply list_elem_of_fmap. by exists (k, v).
Qed.

End JSMapFacts.

(* ===================================================================== *)
(** * Result: adding student results *)
(* ===================================================================== *)

Lemma includes_spec (l : list string) (x : string) :
  JSArray.includes l x = true ↔ x ∈ l.
Proof.
  unfold JSArray.includes. rewrite existsb_exists. split.
  - intros (y & Hy & ->%String.eqb_eq). by apply list_elem_of_In.
  - intros Hx. exists x. split; [by apply list_elem_of_In|apply String.eqb_refl].
Qed.

(** The subject check succeeds when every expected name is a key, and
    otherwise throws for a name that is not. *)
Lemma check_names (keys names : list string) :
  let body := λ (_ : unit) expectedSubject,
    if negb (JSArray.includes keys expectedSubject)
    then Throw ("Missing marks for subject: " +:+ expectedSubject)
    else Ok () in
  (Forall (λ n, n ∈ keys) names ∧ foldR body () names = Ok ()) ∨
  (∃ n, n ∈ names ∧ (n ∉ keys) ∧
        foldR body () names = Throw ("Missing marks for subject: " +:+ n)).
Proof.
  intros body. induction names as [|n names IH].
  - left. by split.
  - change (foldR body () (n :: names))
      with (body () n ≫= λ s', foldR body s' names).
    destruct (JSArray.includes keys n) eqn:E.
    + assert (Hn : body () n = Ok ()) by (unfold body; by rewrite E).
      rewrite Hn. simpl. apply includes_spec in E.
      destruct IH as [[Hall Hok]|(n' & Hin & Hnin & Hthrow)].
      * left. split; [by constructor|done].
      * right. exists n'. split; [by right|done].
    + assert (Hn : body () n = Throw ("Missing marks for subject: " +:+ n))
        by (unfold body; by rewrite E).
      rewrite Hn. simpl. right. exists n. split; [left|]. split; [|done].
      intros Hin%includes_spec. congruence.
Qed.

Lemma validateStudentResult_covers (r : Result.t) (s : StudentResult) :
  covers (Result.subjects r) s → Result.validateStudentResult r s = Ok ().
Proof.
  intros Hc. unfold Result.validateStudentResult.
  destruct (check_names (JSMap.keys (marks s)) (Subject.getName <$> Result.subjects r))
    as [[_ Hok]|(n & Hin & Hnin & _)]; [done|].
  apply list_elem_of_fmap in Hin as (subj & -> & Hsubj). by apply Hc in Hsubj.
Qed.

Lemma validateStudentResult_inv (r : Result.t) (s : StudentResult) :
  Result.validateStudentResult r s = Ok () → covers (Result.subjects r) s.
Proof.
  unfold Result.validateStudentResult. intros Hok.
  destruct (check_names (JSMap.keys (marks s)) (Subject.getName <$> Result.subjects r))
    as [[Hall _]|(n & _ & _ & Hthrow)]; [|congruence].
  intros subj Hsubj. rewrite Forall_forall in Hall. apply Hall.
  apply list_elem_of_fmap. by exists subj.
Qed.

Lemma validateStudentResult_missing (r : Result.t) (s : StudentResult) :
  ¬ covers (Result.subjects r) s →
  ∃ subj, subj ∈ Result.subjects r
          ∧ (Subject.getName subj ∉ JSMap.keys (marks s))
          ∧ Result.validateStudentResult r s
            = Throw ("Missing marks for subject: " +:+ Subject.getName subj).
Proof.
  intros Hnc. unfold Result.validateStudentResult.
  destruct (check_names (JSMap.keys (marks s)) (Subject.getName <$> Result.subjects r))
    as [[Hall _]|(n & Hin & Hnin & Hthrow)].
  - exfalso. apply Hnc. intros subj Hsubj. rewrite Forall_forall in Hall.
    apply Hall. apply list_elem_of_fmap. by exists subj.
  - apply list_elem_of_fmap in Hin as (subj & -> & Hsubj). by exists subj.
Qed.

Lemma addStudentResult_inv (r r' : Result.t) (s : StudentResult) :
  Result.addStudentResult r s = Ok r' →
  covers (Result.subjects r) s ∧
  Result.subjects r' = Result.subjects r ∧
  Result.studentResults r'
    = JSMap.set (Result.studentResults r) (rollOf s) s.
Proof.
  unfold Result.addStudentResult.
  destruct (Result.validateStudentResult r s) as [[]|msg] eqn:E; simpl; [|done].
  intros [= <-]. simpl. split; [by apply validateStudentResult_inv|done].
Qed.

Lemma addStudentResult_ok (r : Result.t) (s : StudentResult) :
  covers (Result.subjects r) s →
  ∃ r', Result.addStudentResult r s = Ok r' ∧
        Result.subjects r' = Result.subjects r ∧
        Result.studentResults r'
          = JSMap.set (Result.studentResults r) (rollOf s) s.
Proof.
  intros Hc. unfold Result.addStudentResult.
  rewrite validateStudentResult_covers by done. simpl. by eexists.
Qed.

(* ===================================================================== *)
(** * Result: the invariant *)
(* ===================================================================== *)

Lemma JSMap_values_set {V} (P : V → Prop) (m : JSMap.t V) k v :
  Forall P (JSMap.values m) → P v → Forall P (JSMap.values (JSMap.set m k v)).
Proof.
  unfold JSMap.values. rewrite !Forall_fmap, !Forall_forall.
  intros Hm Hv e [->|He]%JSMap_elem_set; [done|by apply Hm].
Qed.

Lemma addStudentResult_invariant (r r' : Result.t) (s : StudentResult) :
  invariant r → Result.addStudentResult r s = Ok r' → invariant r'.
Proof.
  intros (Hcov & Hnd & Hkey) (Hs & Hsub & Hmap)%addStudentResult_inv.
  unfold invariant, keyedByRoll, Result.getStudentResults. rewrite Hsub, Hmap.
  split; [by apply JSMap_values_set|]. split; [by apply JSMap_NoDup_set|].
  rewrite Forall_forall in *. intros e [->|He]%JSMap_elem_set; [done|by apply Hkey].
Qed.

Lemma foldR_addStudentResult_invariant (l : list StudentResult) :
  ∀ r r', invariant r → foldR Result.addStudentResult r l = Ok r' → invariant r'.
Proof.
  induction l as [|s l IH]; intros r r' Hinv; simpl.
  - by intros [= <-].
  - destruct (Result.addStudentResult r s) as [r1|] eqn:E; simpl; [|done].
    apply IH. by eapply addStudentResult_invariant.
Qed.

Lemma new_invariant id title subjects studentResults r :
  Result.new id title subjects studentResults = Ok r → invariant r.
Proof.
  unfold Result.new. destruct (Result.validateResult id title subjects); simpl; [|done].
  apply foldR_addStudentResult_invariant.
  split; [constructor|]. split; [apply NoDup_nil_2|constructor].
Qed.

Lemma calculateRanks_keys (r : Result.t) :
  JSMap.keys (Result.studentResults (Result.calculateRanks r))
  = JSMap.keys (Result.studentResults r).
Proof.
  unfold Result.calculateRanks, JSMap.keys. simpl.
  rewrite <- list_fmap_compose. by apply list_fmap_ext.
Qed.

Lemma calculateRanks_invariant (r : Result.t) :
  invariant r → invariant (Result.calculateRanks r).
Proof.
  intros (Hcov & Hnd & Hkey). split; [|split].
  - revert Hcov. unfold Result.getStudentResults, JSMap.values. simpl.
    rewrite !Forall_fmap. intros Hcov. eapply Forall_impl; [exact Hcov|].
    intros [k sr] Hc. simpl in *. by destruct (JSMap.get _ k).
  - by rewrite calculateRanks_keys.
  - simpl. rewrite Forall_fmap. eapply Forall_impl; [exact Hkey|].
    intros [k sr] Hk. simpl in *. by destruct (JSMap.get _ k).
Qed.

Lemma constructed_invariant (r : Result.t) : constructed r → invariant r.
Proof.
  induction 1 as [id title subjects srs r Hnew|r s r' _ IH Hadd|r _ IH].
  - by eapply new_invariant.
  - by eapply addStudentResult_invariant.
  - by apply calculateRanks_invariant.
Qed.

(** C10.  A Student's roll number is the trimmed constructor argument, and
    a Result holds each student result under its roll number as the key.
    [addStudentResult] keys entries by it exactly: adding a student result
    that covers the subjects succeeds, stores it under its roll number and
    leaves every other key alone; if the roll number was already a key the
    old entry is replaced and the student count is unchanged, otherwise the
    count grows by one.  In particular an entry whose key differs from the
    new roll number only by letter case stays, next to the new one. *)
Theorem C10_addStudentResult_keys :
  (∀ name roll cls sec st,
     Student.new name roll cls sec = Ok st →
     Student.getRollNumber st = JSString.trim roll) ∧
  (∀ r old,
     constructed r → old ∈ Result.getStudentResults r →
     Result.getStudentResult r (rollOf old) = Some old) ∧
  (∀ (r : Result.t) (s : StudentResult),
     covers (Result.subjects r) s →
     ∃ r', Result.addStudentResult r s = Ok r' ∧
       Result.getStudentResult r' (rollOf s) = Some s ∧
       (∀ k, k ≠ rollOf s →
             Result.getStudentResult r' k = Result.getStudentResult r k) ∧
       (is_Some (Result.getStudentResult r (rollOf s)) →
        Result.getStudentCount r' = Result.getStudentCount r) ∧
       (Result.getStudentResult r (rollOf s) = None →
        Result.getStudentCount r' = S (Result.getStudentCount r)) ∧
       (∀ k old,
          JSString.toLowerCase k = JSString.toLowerCase (rollOf s) →
          k ≠ rollOf s →
          Result.getStudentResult r k = Some old →
          Result.getStudentResult r' k = Some old
          ∧ Result.getStudentResult r' (rollOf s) = Some s)).
Proof.
  split; [|split].
  - intros name roll cls sec st. unfold Student.new.
    destruct (Student.validateStudent name roll); simpl; [|done].
    by intros [= <-].
  - intros r old (_ & Hnd & Hkey)%constructed_invariant Hold.
    unfold Result.getStudentResults, JSMap.values in Hold.
    apply list_elem_of_fmap in Hold as ([k sr] & -> & Hin). simpl.
    rewrite Forall_forall in Hkey. specialize (Hkey _ Hin). simpl in Hkey.
    subst k. by apply JSMap_get_NoDup.
  - intros r s Hc. destruct (addStudentResult_ok r s Hc) as (r' & Hadd & _ & Hmap).
    exists r'. unfold Result.getStudentResult, Result.getStudentCount.
    rewrite Hmap. split; [done|].
    split; [apply JSMap_get_set_eq|].
    split; [intros k Hk; by apply JSMap_get_set_ne|].
    split; [intros ?%JSMap_get_is_Some; by apply JSMap_size_set_present|].
    split; [intros ?%JSMap_get_None; by apply JSMap_size_set_absent|].
    intros k old _ Hk Hold. split; [|apply JSMap_get_set_eq].
    by rewrite JSMap_get_set_ne.
Qed.

(** An instance: "A1" is added to a Result that holds "a1". *)
Lemma C10_addStudentResult_keys_witness :
  Student.getRollNumber (Student.mk "Asha Rao" "A1" None None) = JSString.trim " A1 " ∧
  ∃ r', Result.addStudentResult (sampleResult [sampleStudent "a1" 80 80])
                                (sampleStudent "A1" 90 90) = Ok r' ∧
        Result.getStudentResult r' "a1" = Some (sampleStudent "a1" 80 80) ∧
        Result.getStudentResult r' "A1" = Some (sampleStudent "A1" 90 90) ∧
        Result.getStudentCount r' = 2.
Proof.
  destruct C10_addStudentResult_keys as (Hroll & _ & Hadd).
  split.
  - apply (Hroll "Asha Rao" " A1 " None None). reflexivity.
  - destruct (Hadd (sampleResult [sampleStudent "a1" 80 80])
                   (sampleStudent "A1" 90 90))
      as (r' & Hr' & Hget & Hother & _ & Hnew & Hcase).
    + intros subj ->%list_elem_of_singleton. simpl. left.
    + exists r'. split; [done|].
      destruct (Hcase "a1" (sampleStudent "a1" 80 80)) as [H1 H2];
        [reflexivity|discriminate|reflexivity|].
      split; [done|]. split; [done|]. by apply Hnew.
Defined.

(* ===================================================================== *)
(** * Result: the factory and missing marks *)
(* ===================================================================== *)

Lemma mapR_Forall2 {A B} (f : A → result B) (l : list A) (k : list B) :
  mapR f l = Ok k → Forall2 (λ x y, f x = Ok y) l k.
Proof.
  revert k. induction l as [|x l IH]; intros k; simpl.
  - intros [= <-]. constructor.
  - destruct (f x) as [y|] eqn:E; simpl; [|done].
    destruct (mapR f l) as [ys|]; simpl; [|done].
    intros [= <-]. constructor; [done|by apply IH].
Qed.

Lemma mapR_throws {A B} (f : A → result B) (l : list A) :
  throws (mapR f l) ↔ Exists (λ x, throws (f x)) l.
Proof.
  induction l as [|x l IH]; simpl.
  - split; [by intros [? ?]|by intros ?%Exists_nil].
  - rewrite Exists_cons. destruct (f x) as [y|e]; simpl.
    + destruct (mapR f l) as [ys|e'] eqn:E; simpl.
      * split; [by intros [? ?]|]. intros [[? ?]|H]; [done|].
        apply IH in H as [? ?]. done.
      * split; [intros _; right; apply IH; by eexists|intros _; by eexists].
    + split; [intros _; left; by eexists|intros _; by eexists].
Qed.

Lemma mapR_ext {A B} (f g : A → result B) (l : list A) :
  Forall (λ x, f x = g x) l → mapR f l = mapR g l.
Proof. induction 1 as [|x l Hx _ IH]; simpl; [done|]. by rewrite Hx, IH. Qed.

Lemma foldR_ext {A S} (f g : S → A → result S) (l : list A) (s : S) :
  Forall (λ x, ∀ s, f s x = g s x) l → foldR f s l = foldR g s l.
Proof.
  intros H. revert s. induction H as [|x l Hx _ IH]; intros s; simpl; [done|].
  rewrite Hx. destruct (g s x); simpl; [apply IH|done].
Qed.

Lemma newDefault_name name subj :
  Subject.newDefault name = Ok subj → Subject.getName subj = JSString.trim name.
Proof.
  unfold Subject.newDefault, Subject.new.
  destruct (Subject.validateSubject name (Num 100)); simpl; [|done].
  by intros [= <-].
Qed.

Lemma decide_elem_cons {B} (k t : string) (l : list string) (x y : B) :
  (if decide (k ∈ t :: l) then x else y)
  = if decide (k = t) then x else if decide (k ∈ l) then x else y.
Proof.
  destruct (decide (k = t)) as [->|Hne].
  - by rewrite decide_True by left.
  - destruct (decide (k ∈ l)) as [Hin|Hnin].
    + by rewrite decide_True by by right.
    + rewrite decide_False; [done|]. by intros [?|?]%elem_of_cons.
Qed.

Lemma fillMarks_lookup (names : list string) (m : gmap string RawMark) (k : string) :
  fillMarks names m !! k
  = match m !! k with
    | Some x => Some x
    | None => if decide (k ∈ JSString.trim <$> names)
              then if JSObject.inherits k then None else Some (RNumber (Num 0))
              else None
    end.
Proof.
  induction names as [|n names IH]; csimpl.
  - by destruct (m !! k).
  - rewrite decide_elem_cons.
    destruct (decide (k = JSString.trim n)) as [->|Hne].
    + unfold JSObject.get.
      destruct (fillMarks names m !! JSString.trim n) eqn:En.
      * rewrite En. rewrite IH in En.
        destruct (m !! JSString.trim n); [done|].
        destruct (decide _); [|done].
        by destruct (JSObject.inherits (JSString.trim n)).
      * rewrite IH in En.
        destruct (JSObject.inherits (JSString.trim n)) eqn:Ei.
        -- rewrite IH. destruct (m !! JSString.trim n); [done|].
           by destruct (decide _).
        -- rewrite lookup_insert_eq. by destruct (m !! JSString.trim n).
    + assert (Hk : (match JSObject.get (fillMarks names m !! JSString.trim n)
                                       (JSString.trim n) with
                    | JSObject.Undefined =>
                        <[JSString.trim n := RNumber (Num 0)]> (fillMarks names m)
                    | _ => fillMarks names m
                    end) !! k = fillMarks names m !! k).
      { destruct (JSObject.get _ _); [done|done|].
        by rewrite lookup_insert_ne. }
      by rewrite Hk, IH.
Qed.

Lemma processSubject_fill names m acc subj :
  Subject.getName subj ∈ JSString.trim <$> names →
  Result.processSubject (fillMarks names m) acc subj
  = Result.processSubject m acc subj.
Proof.
  intros Hin. unfold Result.processSubject. rewrite fillMarks_lookup.
  unfold JSObject.get.
  destruct (m !! Subject.getName subj); [done|]. rewrite decide_True by done.
  by destruct (JSObject.inherits (Subject.getName subj)).
Qed.

Lemma fromRawData_fillMissing (data : RawData) :
  Result.fromRawData (fillMissing data) = Result.fromRawData data.
Proof.
  unfold Result.fromRawData. simpl.
  destruct (mapR Subject.newDefault (raw_subjects data)) as [subjects|] eqn:Es;
    simpl; [|done].
  assert (Hnames : Forall (λ subj, Subject.getName subj
                                   ∈ JSString.trim <$> raw_subjects data) subjects).
  { apply mapR_Forall2 in Es. clear -Es.
    induction Es as [|n subj names subjects Hn _ IH]; [constructor|].
    constructor.
    - rewrite (newDefault_name _ _ Hn). csimpl. left.
    - eapply Forall_impl; [exact IH|]. intros s Hs. csimpl. by right. }
  assert (Hsrs : mapR (Result.buildStudentResult subjects)
                   ((λ sd, {| raw_name := raw_name sd;
                              raw_rollNumber := raw_rollNumber sd;
                              raw_class := raw_class sd;
                              raw_section := raw_section sd;
                              raw_marks := fillMarks (raw_subjects data) (raw_marks sd) |})
                      <$> raw_studentData data)
                 = mapR (Result.buildStudentResult subjects) (raw_studentData data)).
  { induction (raw_studentData data) as [|sd sds IH]; csimpl; [done|].
    rewrite IH. f_equal. unfold Result.buildStudentResult. simpl.
    rewrite (foldR_ext _ (Result.processSubject (raw_marks sd))); [done|].
    eapply Forall_impl; [exact Hnames|]. intros subj Hsubj acc.
    by apply processSubject_fill. }
  by rewrite Hsrs.
Qed.

Lemma processSubject_inv m acc subj acc' :
  Result.processSubject m acc subj = Ok acc' →
  ∃ mark, acc'.1 = JSMap.set acc.1 (Subject.getName subj) mark
          ∧ (m !! Subject.getName subj = None →
             JSObject.inherits (Subject.getName subj) = false
             ∧ mark = Marks.mk 0).
Proof.
  unfold Result.processSubject, JSObject.get.
  destruct (m !! Subject.getName subj) as [[n|s]|]; simpl.
  - destruct (Marks.new _ false) as [mark|]; simpl; [|done].
    intros [= <-]. by exists mark.
  - destruct (Marks.fromString s) as [mark|]; simpl; [|done].
    intros [= <-]. by exists mark.
  - destruct (JSObject.inherits (Subject.getName subj)); simpl; [done|].
    intros [= <-]. by eexists.
Qed.

(** A subject that the record of the student does not hold, under a name
    that the record inherits, stops the factory. *)
Lemma processSubject_inherited m acc subj :
  m !! Subject.getName subj = None →
  JSObject.inherits (Subject.getName subj) = true →
  Result.processSubject m acc subj = Throw "Marks must be a number".
Proof.
  intros Hm Hi. unfold Result.processSubject, JSObject.get. by rewrite Hm, Hi.
Qed.

Lemma foldR_throws_elem {A S} (f : S → A → result S) (l : list A) (x : A) :
  x ∈ l → (∀ s, throws (f s x)) → ∀ s, throws (foldR f s l).
Proof.
  intros Hin Hx. induction l as [|y l IH]; intros s; [by apply elem_of_nil in Hin|].
  simpl. apply elem_of_cons in Hin as [<-|Hin].
  - destruct (Hx s) as [msg ->]. by exists msg.
  - destruct (f s y) as [s'|msg]; simpl; [by apply IH|by exists msg].
Qed.

Lemma buildStudentResult_inherited subjects sd subj :
  subj ∈ subjects →
  raw_marks sd !! Subject.getName subj = None →
  JSObject.inherits (Subject.getName subj) = true →
  throws (Result.buildStudentResult subjects sd).
Proof.
  intros Hin Hm Hi. unfold Result.buildStudentResult.
  destruct (Student.fromRawData _ _ _ _) as [st|msg]; simpl; [|by exists msg].
  destruct (foldR_throws_elem (Result.processSubject (raw_marks sd)) subjects subj Hin)
    with (s := (JSMap.empty (V := Marks.t), 0%Q)) as [msg Hmsg].
  - intros s. rewrite processSubject_inherited by done. by eexists.
  - rewrite Hmsg. by exists msg.
Qed.

Lemma fromRawData_inherited (data : RawData) (sd : RawStudent) (name : string) :
  sd ∈ raw_studentData data → name ∈ raw_subjects data →
  raw_marks sd !! JSString.trim name = None →
  JSObject.inherits (JSString.trim name) = true →
  throws (Result.fromRawData data).
Proof.
  intros Hsd Hname Hm Hi. unfold Result.fromRawData.
  destruct (mapR Subject.newDefault (raw_subjects data)) as [subjects|msg] eqn:Es;
    simpl; [|by exists msg].
  assert (Hsubj : ∃ subj, subj ∈ subjects ∧ Subject.getName subj = JSString.trim name).
  { apply mapR_Forall2 in Es.
    destruct (proj1 (list_elem_of_lookup _ _) Hname) as [i Hi'].
    destruct (Forall2_lookup_l _ _ _ _ _ Es Hi') as (subj & Hl & Hn).
    exists subj. split; [by eapply list_elem_of_lookup_2|].
    by apply newDefault_name. }
  destruct Hsubj as (subj & Hin & Hn).
  assert (Ht : throws (mapR (Result.buildStudentResult subjects) (raw_studentData data))).
  { apply mapR_throws, Exists_exists. exists sd. split; [done|].
    apply (buildStudentResult_inherited _ _ subj); [done|by rewrite Hn..]. }
  destruct Ht as [msg ->]. by exists msg.
Qed.

(** After the subjects of a student are processed, each of them is a key of
    the marks, bound to 0 if the raw record has no entry for it. *)
Lemma foldR_processSubject_marks m (subjects : list Subject.t) :
  ∀ acc acc',
    foldR (Result.processSubject m) acc subjects = Ok acc' →
    ∀ k, (k ∈ JSMap.keys acc.1 ∧
          (m !! k = None → JSMap.get acc.1 k = Some (Marks.mk 0))
          ∨ k ∈ Subject.getName <$> subjects) →
         k ∈ JSMap.keys acc'.1 ∧
         (m !! k = None → JSMap.get acc'.1 k = Some (Marks.mk 0)).
Proof.
  induction subjects as [|subj subjects IH]; intros acc acc'; simpl.
  - intros [= <-] k [H|H%elem_of_nil]; done.
  - destruct (Result.processSubject m acc subj) as [acc1|] eqn:E; simpl; [|done].
    intros Hrest k Hk. apply (IH _ _ Hrest).
    apply processSubject_inv in E as (mark & Hset & Hzero).
    destruct (decide (k = Subject.getName subj)) as [->|Hne].
    + left. rewrite Hset. split.
      * apply JSMap_get_is_Some. rewrite JSMap_get_set_eq. by eexists.
      * intros Hnone. rewrite JSMap_get_set_eq. f_equal. by apply Hzero.
    + destruct Hk as [[Hin Hz]|Hin].
      * left. rewrite Hset. split.
        -- apply JSMap_get_is_Some. rewrite JSMap_get_set_ne by done.
           by apply JSMap_get_is_Some.
        -- intros Hnone. rewrite JSMap_get_set_ne by done. by apply Hz.
      * right. csimpl in Hin. by apply elem_of_cons in Hin as [?|?].
Qed.

Lemma buildStudentResult_marks subjects sd sr :
  Result.buildStudentResult subjects sd = Ok sr →
  covers subjects sr ∧
  ∀ subj, subj ∈ subjects →
          raw_marks sd !! Subject.getName subj = None →
          JSObject.inherits (Subject.getName subj) = false
          ∧ JSMap.get (marks sr) (Subject.getName subj) = Some (Marks.mk 0).
Proof.
  intros Hsr.
  assert (Hni : ∀ subj, subj ∈ subjects →
                  raw_marks sd !! Subject.getName subj = None →
                  JSObject.inherits (Subject.getName subj) = false).
  { intros subj Hin Hm.
    destruct (JSObject.inherits (Subject.getName subj)) eqn:Hi; [|done].
    destruct (buildStudentResult_inherited subjects sd subj Hin Hm Hi) as [msg Hmsg].
    congruence. }
  revert Hsr. unfold Result.buildStudentResult.
  destruct (Student.fromRawData _ _ _ _) as [st|]; simpl; [|done].
  destruct (foldR _ _ subjects) as [[mk tot]|] eqn:E; simpl; [|done].
  destruct (Marks.total (Num tot)) as [tm|]; simpl; [|done].
  destruct (Percentage.fromMarks _ _) as [p|]; simpl; [|done].
  intros [= <-]. simpl.
  pose proof (foldR_processSubject_marks _ _ _ _ E) as H. simpl in H.
  split.
  - intros subj Hsubj. apply H. right. apply list_elem_of_fmap. by exists subj.
  - intros subj Hsubj Hm. split; [by apply Hni|].
    apply H; [|done]. right. apply list_elem_of_fmap. by exists subj.
Qed.

(** C1 (amended).  [Result.fromRawData] does not fail for a missing marks
    entry, unless the subject is named like a property that every object
    inherits ("constructor", "toString", ...): for any other subject it
    proceeds exactly as if the entry were the number 0, and the student
    result it builds has marks 0 for that subject; for a subject with an
    inherited name and no entry it throws.  Every StudentResult held by a
    Result carries marks for all of the Result's subjects, and adding a
    StudentResult whose marks map lacks some subject of the Result
    throws. *)
Theorem C1_marks_for_all_subjects :
  (∀ data, Result.fromRawData (fillMissing data) = Result.fromRawData data) ∧
  (∀ subjects sd sr,
     Result.buildStudentResult subjects sd = Ok sr →
     covers subjects sr ∧
     ∀ subj, subj ∈ subjects →
             raw_marks sd !! Subject.getName subj = None →
             JSObject.inherits (Subject.getName subj) = false
             ∧ JSMap.get (marks sr) (Subject.getName subj) = Some (Marks.mk 0)) ∧
  (∀ data sd name,
     sd ∈ raw_studentData data → name ∈ raw_subjects data →
     raw_marks sd !! JSString.trim name = None →
     JSObject.inherits (JSString.trim name) = true →
     throws (Result.fromRawData data)) ∧
  (∀ data r,
     Result.fromRawData data = Ok r →
     Forall (covers (Result.subjects r)) (Result.getStudentResults r)) ∧
  (∀ r, constructed r →
        Forall (covers (Result.subjects r)) (Result.getStudentResults r)) ∧
  (∀ r s,
     ¬ covers (Result.subjects r) s →
     ∃ subj, subj ∈ Result.subjects r
             ∧ (Subject.getName subj ∉ JSMap.keys (marks s))
             ∧ Result.addStudentResult r s
               = Throw ("Missing marks for subject: " +:+ Subject.getName subj)).
Proof.
  split; [apply fromRawData_fillMissing|].
  split; [apply buildStudentResult_marks|].
  split; [apply fromRawData_inherited|].
  split; [|split].
  - intros data r. unfold Result.fromRawData.
    destruct (mapR Subject.newDefault _) as [subjects|]; simpl; [|done].
    destruct (mapR _ (raw_studentData data)) as [srs|]; simpl; [|done].
    destruct (Result.new _ _ subjects srs) as [r0|] eqn:E; simpl; [|done].
    intros [= <-]. apply new_invariant, calculateRanks_invariant in E.
    by destruct E.
  - intros r Hr. by apply constructed_invariant in Hr as [? _].
  - intros r s Hnc.
    destruct (validateStudentResult_missing r s Hnc) as (subj & Hin & Hnin & Hthrow).
    exists subj. split; [done|]. split; [done|].
    unfold Result.addStudentResult. by rewrite Hthrow.
Qed.

(** Instances: the factory on [sampleMissing], and a student result
    without marks added to a Result with the subject "Math". *)
Lemma C1_marks_for_all_subjects_witness :
  (∃ r, Result.fromRawData sampleMissing = Ok r
        ∧ Forall (covers (Result.subjects r)) (Result.getStudentResults r)) ∧
  (∃ subj, subj ∈ Result.subjects (sampleResult [])
           ∧ (Subject.getName subj ∉ JSMap.keys (marks sampleUncovered))
           ∧ Result.addStudentResult (sampleResult []) sampleUncovered
             = Throw ("Missing marks for subject: " +:+ Subject.getName subj)).
Proof.
  destruct C1_marks_for_all_subjects as (_ & _ & _ & Hfrom & _ & Hadd).
  split.
  - destruct (Result.fromRawData sampleMissing) as [r|] eqn:E; [|discriminate E].
    exists r. split; [done|]. by apply (Hfrom sampleMissing).
  - apply Hadd. intros Hc.
    specialize (Hc (Subject.mk "Math" (Num 100) false)).
    simpl in Hc. apply (not_elem_of_nil "Math"), Hc. left.
Defined.

(** C1 as stated fails: the student of [sampleMissing] has no entry for the
    declared subject "Math", and the factory returns a Result. *)
Lemma C1_counterexample :
  hasMissingMarks sampleMissing ∧
  ∃ r, Result.fromRawData sampleMissing = Ok r
       ∧ (marks <$> Result.getStudentResults r) = [[("Math", Marks.mk 0)]].
Proof.
  split.
  - exists (mkRawStudent "Asha Rao" "1" None None ∅), "Math".
    split; [left|]. split; [left|]. reflexivity.
  - eexists. split; [vm_compute; reflexivity|]. reflexivity.
Qed.

(** An inherited name: the one student has no entry for the declared
    subject "constructor", and the factory throws; with an entry of his
    own it returns a Result. *)
Example fromRawData_inherited_subject :
  Result.fromRawData
    (mkRawData "r1" "Term 1" ["constructor"]
               [mkRawStudent "Asha Rao" "1" None None ∅])
  = Throw "Marks must be a number"
  ∧ isOk (Result.fromRawData
            (mkRawData "r1" "Term 1" ["constructor"]
                       [mkRawStudent "Asha Rao" "1" None None
                                     {["constructor" := RNumber (Num 55)]}]))
    = true.
Proof. split; vm_compute; reflexivity. Qed.

(* ===================================================================== *)
(** * Sorting *)
(* ===================================================================== *)

Section Sort.
Context {A : Type} (compare : A → A → Q).

Lemma insert_Permutation (x : A) (l : list A) :
  JSArray.insert compare x l ≡ₚ x :: l.
Proof.
  induction l as [|y l IH]; simpl; [done|].
  destruct (Qle_bool (compare x y) 0); [done|].
  rewrite IH. apply Permutation_swap.
Qed.

Lemma sort_Permutation (l : list A) : JSArray.sort compare l ≡ₚ l.
Proof.
  unfold JSArray.sort. induction l as [|x l IH]; simpl; [done|].
  by rewrite insert_Permutation, IH.
Qed.

Hypothesis goesBefore_total :
  ∀ x y, ¬ goesBefore compare x y → goesBefore compare y x.

Lemma insert_Sorted (x : A) (l : list A) :
  Sorted (goesBefore compare) l →
  Sorted (goesBefore compare) (JSArray.insert compare x l).
Proof.
  induction l as [|y l IH]; simpl; intros Hs.
  - by repeat constructor.
  - destruct (Qle_bool (compare x y) 0) eqn:E.
    + constructor; [done|]. by constructor.
    + apply Sorted_inv in Hs as [Hs Hhd]. constructor; [by apply IH|].
      assert (Hyx : goesBefore compare y x).
      { apply goesBefore_total. unfold goesBefore. by rewrite E. }
      destruct l as [|z l]; simpl.
      * by constructor.
      * destruct (Qle_bool (compare x z) 0); constructor; [done|].
        by apply HdRel_inv in Hhd.
Qed.

Lemma sort_Sorted (l : list A) :
  Sorted (goesBefore compare) (JSArray.sort compare l).
Proof.
  unfold JSArray.sort. induction l as [|x l IH]; simpl; [constructor|].
  by apply insert_Sorted.
Qed.

End Sort.

Lemma sort_fmap {A B} (compare : A → A → Q) (compare' : B → B → Q)
    (g : A → B) (l : list A) :
  (∀ a b, compare' (g a) (g b) = compare a b) →
  JSArray.sort compare' (g <$> l) = g <$> JSArray.sort compare l.
Proof.
  intros Hg. unfold JSArray.sort.
  induction l as [|x l IH]; csimpl; [done|]. rewrite IH.
  generalize (foldr (JSArray.insert compare) [] l). clear IH.
  intros s. induction s as [|y s IH]; csimpl; [done|].
  rewrite Hg. destruct (Qle_bool (compare x y) 0); csimpl; [done|].
  by rewrite IH.
Qed.

(* ===================================================================== *)
(** * Plain objects: the order of enumeration *)
(* ===================================================================== *)

Lemma filter_partition_Permutation {A} (f : A → bool) (l : list A) :
  (List.filter f l ++ List.filter (λ x, negb (f x)) l)%list ≡ₚ l.
Proof.
  induction l as [|x l IH]; simpl; [done|].
  destruct (f x); simpl.
  - by rewrite IH.
  - by rewrite <- Permutation_middle, IH.
Qed.

(** [Object.entries] lists the own properties, each once. *)
Lemma entries_Permutation {V} (own : JSMap.t V) : JSObject.entries own ≡ₚ own.
Proof.
  unfold JSObject.entries. rewrite sort_Permutation.
  apply filter_partition_Permutation.
Qed.



(** Without keys that are array indices, the order is that of creation. *)
Lemma entries_plain {V} (own : JSMap.t V) :
  Forall (λ e, JSObject.isIndexed e = false) own → JSObject.entries own = own.
Proof.
  intros H. unfold JSObject.entries.
  assert (H12 : List.filter JSObject.isIndexed own = []
                ∧ List.filter (λ e, negb (JSObject.isIndexed e)) own = own).
  { induction H as [|e l He _ [IH1 IH2]]; simpl; [done|].
    rewrite He. simpl. by rewrite IH2. }
  destruct H12 as [-> ->]. done.
Qed.

(* ===================================================================== *)
(** * Result: ranking *)
(* ===================================================================== *)

Lemma compareResults_ordered (a b : StudentResult) :
  Qle_bool (Result.compareResults a b) 0 = true ↔ ordered a b.
Proof.
  unfold Result.compareResults, ordered, pct, total.
  set (pa := Percentage.getValue (percentage a)).
  set (pb := Percentage.getValue (percentage b)).
  set (ta := Marks.getValue (totalMarks a)).
  set (tb := Marks.getValue (totalMarks b)).
  rewrite Qle_bool_iff.
  destruct (Qeq_bool (pb - pa) 0) eqn:E; simpl; qprop.
  - split; [intros H; right; split; lra|intros [H|[_ H]]; lra].
  - split; [intros H; left; lra|intros [H|[H _]]; [lra|]].
    exfalso. apply E. lra.
Qed.

Lemma ordered_total (a b : StudentResult) : ¬ ordered a b → ordered b a.
Proof.
  unfold ordered. intros H.
  destruct (Qlt_le_dec (pct b) (pct a)) as [Hlt|Hle]; [exfalso; apply H; by left|].
  destruct (Qlt_le_dec (pct a) (pct b)) as [Hlt'|Hle']; [by left|].
  assert (Heq : (pct b == pct a)%Q) by lra.
  destruct (Qlt_le_dec (total a) (total b)) as [Ht|Ht].
  - right. split; lra.
  - exfalso. apply H. right. split; lra.
Qed.

Lemma ordered_pct (a b : StudentResult) : ordered a b → (pct b <= pct a)%Q.
Proof. intros [H|[H _]]; lra. Qed.

Lemma ordered_trans (a b c : StudentResult) :
  ordered a b → ordered b c → ordered a c.
Proof.
  unfold ordered. intros [H1|[H1 H1']] [H2|[H2 H2']].
  - left. lra.
  - left. lra.
  - left. lra.
  - right. split; lra.
Qed.

Lemma Sorted_weaken {A} (R1 R2 : A → A → Prop) (l : list A) :
  (∀ a b, R1 a b → R2 a b) → Sorted R1 l → Sorted R2 l.
Proof.
  intros HR. induction 1 as [|x l _ IH Hhd]; constructor; [done|].
  destruct Hhd; constructor. by apply HR.
Qed.

Lemma sortedResults_Permutation (r : Result.t) :
  Result.sortedResults r ≡ₚ Result.studentResults r.
Proof. apply sort_Permutation. Qed.

Lemma sortedResults_Sorted (r : Result.t) :
  StronglySorted (λ a b : string * StudentResult, ordered a.2 b.2)
                 (Result.sortedResults r).
Proof.
  apply Sorted_StronglySorted.
  - intros a b c. apply ordered_trans.
  - eapply Sorted_weaken; [|apply sort_Sorted].
    + intros a b Hab. apply compareResults_ordered. exact Hab.
    + intros a b Hab. apply compareResults_ordered, ordered_total.
      intros Ho. apply Hab. by apply compareResults_ordered.
Qed.

Lemma sameButRank_fields (a b : StudentResult) :
  sameButRank a b →
  student a = student b ∧ marks a = marks b
  ∧ totalMarks a = totalMarks b ∧ percentage a = percentage b.
Proof. destruct a, b. unfold sameButRank, setRank. simpl. by intros [= -> -> -> ->]. Qed.

Lemma sameButRank_setRank (a b : StudentResult) (rk : option nat) :
  sameButRank a b → setRank a rk = setRank b rk.
Proof.
  intros (H1 & H2 & H3 & H4)%sameButRank_fields.
  unfold setRank. by rewrite H1, H2, H3, H4.
Qed.

Lemma sameButRank_setRank_l (a : StudentResult) (rk : option nat) :
  sameButRank (setRank a rk) a.
Proof. reflexivity. Qed.

Lemma writeBack_same ranked e :
  (writeBack ranked e).1 = e.1 ∧ sameButRank (writeBack ranked e).2 e.2.
Proof.
  unfold writeBack. simpl. split; [done|].
  destruct (JSMap.get ranked e.1); [apply sameButRank_setRank_l|reflexivity].
Qed.

Lemma writeBack_idem ranked e :
  writeBack ranked (writeBack ranked e) = writeBack ranked e.
Proof.
  unfold writeBack. simpl. by destruct (JSMap.get ranked e.1).
Qed.

Lemma calculateRanks_studentResults (r : Result.t) :
  Result.studentResults (Result.calculateRanks r)
  = writeBack (Result.rankedResults r) <$> Result.studentResults r.
Proof. reflexivity. Qed.

Lemma compareResults_sameButRank (a a' b b' : StudentResult) :
  sameButRank a' a → sameButRank b' b →
  Result.compareResults a' b' = Result.compareResults a b.
Proof.
  intros (_ & _ & Ha1 & Ha2)%sameButRank_fields (_ & _ & Hb1 & Hb2)%sameButRank_fields.
  unfold Result.compareResults. by rewrite Ha1, Ha2, Hb1, Hb2.
Qed.

(** The loop reads nothing of the rank fields it overwrites. *)
Lemma assignRanks_sameButRank (g : string * StudentResult → string * StudentResult)
    (l : list (string * StudentResult)) :
  (∀ e, (g e).1 = e.1 ∧ sameButRank (g e).2 e.2) →
  ∀ prev prev' i currentRank,
    option_Forall2 sameButRank prev' prev →
    Result.assignRanks prev' i currentRank (g <$> l)
    = Result.assignRanks prev i currentRank l.
Proof.
  intros Hg. induction l as [|[k ri] l IH]; intros prev prev' i cr Hprev; csimpl;
    [done|].
  destruct (Hg (k, ri)) as [Hk Hs]. destruct (g (k, ri)) as [k' ri'].
  simpl in Hk, Hs. subst k'.
  pose proof (sameButRank_fields _ _ Hs) as (_ & _ & _ & Hp).
  assert (Hcr :
    match prev' with
    | Some rp =>
        if negb (Qeq_bool (Percentage.getValue (percentage ri'))
                          (Percentage.getValue (percentage rp)))
        then i + 1 else cr
    | None => cr
    end
    = match prev with
      | Some rp =>
          if negb (Qeq_bool (Percentage.getValue (percentage ri))
                            (Percentage.getValue (percentage rp)))
          then i + 1 else cr
      | None => cr
      end).
  { destruct Hprev as [rp' rp Hrp|]; [|done].
    apply sameButRank_fields in Hrp as (_ & _ & _ & Hrp). by rewrite Hp, Hrp. }
  rewrite Hcr. f_equal.
  - f_equal. by apply sameButRank_setRank.
  - apply IH. by constructor.
Qed.

Lemma rankedResults_calculateRanks (r : Result.t) :
  Result.rankedResults (Result.calculateRanks r) = Result.rankedResults r.
Proof.
  unfold Result.rankedResults, Result.sortedResults.
  rewrite calculateRanks_studentResults.
  rewrite (sort_fmap (λ a b : string * StudentResult, Result.compareResults a.2 b.2)).
  - apply assignRanks_sameButRank; [apply writeBack_same|constructor].
  - intros a b. apply compareResults_sameButRank; apply writeBack_same.
Qed.

(** C9.  [calculateRanks] is idempotent: invoking it twice leaves the
    Result, and so the rank of every StudentResult, as invoking it once. *)
Theorem C9_calculateRanks_idempotent (r : Result.t) :
  Result.calculateRanks (Result.calculateRanks r) = Result.calculateRanks r.
Proof.
  unfold Result.calculateRanks at 1.
  rewrite rankedResults_calculateRanks.
  change (Result.studentResults (Result.calculateRanks r))
    with (writeBack (Result.rankedResults r) <$> Result.studentResults r).
  unfold Result.calculateRanks. simpl. f_equal.
  rewrite <- list_fmap_compose. apply list_fmap_ext.
  intros _ e _. apply (writeBack_idem (Result.rankedResults r) e).
Qed.

(* ===================================================================== *)
(** * Result: the rank as a count *)
(* ===================================================================== *)

Lemma countIf_app {A} (f : A → bool) (l1 l2 : list A) :
  countIf f (l1 ++ l2) = countIf f l1 + countIf f l2.
Proof. unfold countIf. by rewrite List.filter_app, length_app. Qed.

Lemma countIf_cons {A} (f : A → bool) (x : A) (l : list A) :
  countIf f (x :: l) = (if f x then 1 else 0) + countIf f l.
Proof. unfold countIf. simpl. by destruct (f x). Qed.

Lemma countIf_all {A} (f : A → bool) (l : list A) :
  Forall (λ y, f y = true) l → countIf f l = length l.
Proof.
  induction 1 as [|y l Hy _ IH]; [done|]. rewrite countIf_cons, Hy, IH. done.
Qed.

Lemma countIf_none {A} (f : A → bool) (l : list A) :
  Forall (λ y, f y = false) l → countIf f l = 0.
Proof.
  induction 1 as [|y l Hy _ IH]; [done|]. rewrite countIf_cons, Hy, IH. done.
Qed.

Lemma countIf_ext {A} (f g : A → bool) (l : list A) :
  (∀ y, f y = g y) → countIf f l = countIf g l.
Proof.
  intros Hfg. induction l as [|y l IH]; [done|].
  by rewrite !countIf_cons, Hfg, IH.
Qed.

Lemma countIf_Permutation {A} (f : A → bool) (l1 l2 : list A) :
  l1 ≡ₚ l2 → countIf f l1 = countIf f l2.
Proof.
  induction 1 as [|x l1 l2 _ IH|x y l|l1 l2 l3 _ IH1 _ IH2]; [done|..].
  - by rewrite !countIf_cons, IH.
  - rewrite !countIf_cons. lia.
  - congruence.
Qed.

Lemma higherCount_Permutation (x : StudentResult) (l1 l2 : list StudentResult) :
  l1 ≡ₚ l2 → higherCount x l1 = higherCount x l2.
Proof. apply countIf_Permutation. Qed.

Lemma higherCount_pct (x y : StudentResult) (l : list StudentResult) :
  (pct x == pct y)%Q → higherCount x l = higherCount y l.
Proof.
  intros Hxy. apply countIf_ext. intros z. unfold Qlt_bool. by rewrite Hxy.
Qed.

(** In a list sorted by falling percentage, the loop writes to every
    element one more than the number of elements above it. *)
Lemma assignRanks_after (L : list (string * StudentResult)) :
  StronglySorted (λ a b : string * StudentResult, (pct b.2 <= pct a.2)%Q) L →
  ∀ suf pre kp p currentRank,
    L = (pre ++ (kp, p) :: suf)%list →
    currentRank = 1 + higherCount p L.*2 →
    Result.assignRanks (Some p) (S (length pre)) currentRank suf
    = (λ e : string * StudentResult,
         (e.1, setRank e.2 (Some (1 + higherCount e.2 L.*2)))) <$> suf.
Proof.
  intros Hsorted. induction suf as [|[k x] rest IH];
    intros pre kp p cr HL Hcr; csimpl; [done|].
  assert (Hxp : (pct x <= pct p)%Q).
  { rewrite HL in Hsorted. apply StronglySorted_app in Hsorted as (_ & _ & Hs).
    apply StronglySorted_cons in Hs as [Hall _].
    apply Forall_cons in Hall as [H _]. exact H. }
  assert (Hrank :
    (if negb (Qeq_bool (Percentage.getValue (percentage x))
                       (Percentage.getValue (percentage p)))
     then S (length pre) + 1 else cr) = 1 + higherCount x L.*2).
  { fold (pct x) (pct p). destruct (Qeq_bool (pct x) (pct p)) eqn:E; simpl; qprop.
    - rewrite Hcr. f_equal. symmetry. by apply higherCount_pct.
    - assert (Hlt : (pct x < pct p)%Q) by lra.
      rewrite HL in Hsorted |- *.
      apply StronglySorted_app in Hsorted as (Hpre & _ & Hs).
      apply StronglySorted_cons in Hs as [_ Hs].
      apply StronglySorted_cons in Hs as [Hrest _].
      unfold higherCount. rewrite fmap_app, countIf_app. csimpl.
      rewrite !countIf_cons.
      rewrite (countIf_all _ pre.*2), (countIf_none _ rest.*2).
      + assert (Hp : Qlt_bool (pct x) (pct p) = true) by by apply Qlt_bool_true.
        assert (Hx : Qlt_bool (pct x) (pct x) = false) by (apply Qlt_bool_false; lra).
        rewrite Hp, Hx, length_fmap. lia.
      + rewrite Forall_fmap. eapply Forall_impl; [exact Hrest|].
        intros z Hz. simpl in *. by apply Qlt_bool_false.
      + rewrite Forall_fmap. rewrite Forall_forall. intros y Hy. simpl.
        apply Qlt_bool_true. specialize (Hpre y (kp, p) Hy).
        simpl in Hpre. assert ((pct p <= pct y.2)%Q) by (apply Hpre; left). lra. }
  simpl in Hrank. rewrite Hrank. f_equal.
  replace (S (S (length pre))) with (S (length (pre ++ [(kp, p)])))
    by (rewrite length_app; simpl; lia).
  apply (IH (pre ++ [(kp, p)])%list k x); [|done]. by rewrite <- app_assoc.
Qed.

Lemma StronglySorted_weaken {A} (R1 R2 : A → A → Prop) (l : list A) :
  (∀ a b, R1 a b → R2 a b) → StronglySorted R1 l → StronglySorted R2 l.
Proof.
  intros HR. induction 1 as [|x l _ IH Hall]; constructor; [done|].
  eapply Forall_impl; [exact Hall|]. intros y. apply HR.
Qed.

Lemma rankedResults_higherCount (r : Result.t) :
  Result.rankedResults r
  = (λ e : string * StudentResult,
       (e.1, setRank e.2 (Some (1 + higherCount e.2 (Result.getStudentResults r)))))
      <$> Result.sortedResults r.
Proof.
  unfold Result.rankedResults.
  pose proof (sortedResults_Sorted r) as Hs.
  apply (StronglySorted_weaken _
           (λ a b : string * StudentResult, (pct b.2 <= pct a.2)%Q)) in Hs;
    [|intros a b; apply ordered_pct].
  assert (Hperm : (Result.sortedResults r).*2 ≡ₚ Result.getStudentResults r).
  { unfold Result.getStudentResults, JSMap.values.
    by rewrite sortedResults_Permutation. }
  assert (Hcount : ∀ x, higherCount x (Result.getStudentResults r)
                        = higherCount x (Result.sortedResults r).*2).
  { intros x. symmetry. by apply higherCount_Permutation. }
  erewrite list_fmap_ext; [|intros ? e _; rewrite Hcount; reflexivity].
  destruct (Result.sortedResults r) as [|[k x] rest] eqn:E; [done|].
  assert (Hfirst : higherCount x ((k, x) :: rest).*2 = 0).
  { apply countIf_none. csimpl. constructor.
    - apply Qlt_bool_false. lra.
    - apply StronglySorted_cons in Hs as [Hall _]. rewrite Forall_fmap.
      eapply Forall_impl; [exact Hall|]. intros z Hz. simpl in *.
      by apply Qlt_bool_false. }
  change (Result.assignRanks None 0 1 ((k, x) :: rest))
    with ((k, setRank x (Some 1)) :: Result.assignRanks (Some x) 1 1 rest).
  rewrite fmap_cons. cbn [fst snd]. rewrite Hfirst. f_equal.
  apply (assignRanks_after ((k, x) :: rest) Hs rest [] k x 1); [done|].
  by rewrite Hfirst.
Qed.

Lemma rankedResults_keys (r : Result.t) :
  (Result.rankedResults r).*1 = (Result.sortedResults r).*1.
Proof.
  rewrite rankedResults_higherCount, <- list_fmap_compose.
  by apply list_fmap_ext.
Qed.

(** [calculateRanks] gives every student one more than the number of
    students with a strictly higher percentage. *)
Lemma calculateRanks_higherCount (r : Result.t) :
  NoDup (JSMap.keys (Result.studentResults r)) →
  Result.studentResults (Result.calculateRanks r)
  = (λ e : string * StudentResult,
       (e.1, setRank e.2 (Some (1 + higherCount e.2 (Result.getStudentResults r)))))
      <$> Result.studentResults r.
Proof.
  intros Hnd. rewrite calculateRanks_studentResults.
  apply list_fmap_ext. intros i [k sr] Hi. unfold writeBack. simpl.
  assert (Hget : JSMap.get (Result.rankedResults r) k
                 = Some (setRank sr (Some (1 + higherCount sr
                                             (Result.getStudentResults r))))).
  { apply JSMap_get_NoDup.
    - unfold JSMap.keys. rewrite rankedResults_keys.
      by rewrite sortedResults_Permutation.
    - rewrite rankedResults_higherCount. apply list_elem_of_fmap.
      exists (k, sr). split; [done|]. rewrite sortedResults_Permutation.
      by eapply list_elem_of_lookup_2. }
  by rewrite Hget.
Qed.

Lemma getStudentResults_calculateRanks (r : Result.t) :
  NoDup (JSMap.keys (Result.studentResults r)) →
  Result.getStudentResults (Result.calculateRanks r)
  = (λ sr, setRank sr (Some (1 + higherCount sr (Result.getStudentResults r))))
      <$> Result.getStudentResults r.
Proof.
  intros Hnd. unfold Result.getStudentResults at 1 3, JSMap.values.
  rewrite calculateRanks_higherCount by done.
  rewrite <- !list_fmap_compose. by apply list_fmap_ext.
Qed.

(** Decides the comparisons of percentages in the goal from the
    hypotheses. *)
Ltac decide_percentages :=
  repeat match goal with
    | |- context [Qlt_bool ?x ?y] =>
        first [ rewrite (proj2 (Qlt_bool_true x y)) by lra
              | rewrite (proj2 (Qlt_bool_false x y)) by lra ]
    end.

(** The ranks of a list of student results whose percentages are known. *)
Ltac ranks_by_count :=
  unfold higherCount, countIf;
  cbn [fmap list_fmap rank setRank List.filter];
  decide_percentages; reflexivity.

(** C2 (amended).  For three students with percentages [85, 85, 75],
    [calculateRanks] assigns the ranks [1, 1, 3]: the tied pair at the top
    share rank 1 and the third student takes its position, 3. *)
Theorem C2_tied_ranks (r : Result.t) :
  constructed r →
  havePercentages (Result.getStudentResults r) [85; 85; 75]%Q →
  rank <$> Result.getStudentResults (Result.calculateRanks r)
  = [Some 1; Some 1; Some 3].
Proof.
  intros Hr Hp. apply constructed_invariant in Hr as (_ & Hnd & _).
  rewrite getStudentResults_calculateRanks by done.
  unfold havePercentages in Hp.
  pose proof (Forall2_length _ _ _ Hp) as Hlen.
  destruct (Result.getStudentResults r) as [|a [|b [|c [|d l]]]];
    try discriminate Hlen.
  apply Forall2_cons in Hp as [Ha Hp]. apply Forall2_cons in Hp as [Hb Hp].
  apply Forall2_cons in Hp as [Hc _].
  ranks_by_count.
Qed.

(** An instance with three sample students. *)
Lemma C2_tied_ranks_witness :
  rank <$> Result.getStudentResults
             (Result.calculateRanks
                (sampleResult [sampleStudent "001" 85 85; sampleStudent "002" 85 85;
                               sampleStudent "003" 75 75]))
  = [Some 1; Some 1; Some 3].
Proof.
  apply C2_tied_ranks.
  - apply (constructed_new "sample" "Sample" [Subject.mk "Math" (Num 100) false]
             [sampleStudent "001" 85 85; sampleStudent "002" 85 85;
              sampleStudent "003" 75 75]).
    vm_compute. reflexivity.
  - repeat constructor.
Defined.

(** C2 as stated fails: built from raw marks 85, 85 and 75 in one subject,
    the Result has the percentages [85, 85, 75] and the ranks [1, 1, 3], not
    [2, 2, 1]. *)
Lemma C2_counterexample :
  ∃ r, Result.fromRawData sampleTied = Ok r
       ∧ havePercentages (Result.getStudentResults r) [85; 85; 75]%Q
       ∧ rank <$> Result.getStudentResults r = [Some 1; Some 1; Some 3]
       ∧ rank <$> Result.getStudentResults r ≠ [Some 2; Some 2; Some 1].
Proof.
  eexists. split; [vm_compute; reflexivity|].
  split; [repeat constructor|]. split; [reflexivity|discriminate].
Qed.

(* ===================================================================== *)
(** * Result: the ranks along the sorted sequence *)
(* ===================================================================== *)

(** Every rank the loop writes is between 1 and the 1-based position. *)
Lemma assignRanks_bound (l : list (string * StudentResult)) :
  ∀ prev (i currentRank j : nat) a,
    (1 ≤ currentRank ≤ i + 1)%nat →
    Result.assignRanks prev i currentRank l !! j = Some a →
    ∃ c : nat, rank a.2 = Some c ∧ (1 ≤ c ≤ i + j + 1)%nat.
Proof.
  induction l as [|[k ri] l IH]; intros prev i cr j a Hcr; [done|].
  cbn [Result.assignRanks].
  set (cr' := match prev with
              | Some rp => if negb (Qeq_bool _ _) then i + 1 else cr
              | None => cr
              end).
  assert (Hcr' : (1 ≤ cr' ≤ i + 1)%nat).
  { subst cr'. destruct prev; [destruct (negb _)|]; lia. }
  destruct j as [|j]; simpl.
  - intros [= <-]. exists cr'. split; [done|lia].
  - intros Hj. destruct (IH (Some ri) (S i) cr' j a) as (c & Hc & Hb); [lia|done|].
    exists c. split; [done|lia].
Qed.

(** Two neighbours of the sequence: the later one repeats the rank of the
    earlier one if their percentages are equal, and takes its 1-based
    position otherwise. *)
Lemma assignRanks_step (l : list (string * StudentResult)) :
  ∀ prev (i currentRank j : nat) a b,
    Result.assignRanks prev i currentRank l !! j = Some a →
    Result.assignRanks prev i currentRank l !! S j = Some b →
    ((pct b.2 == pct a.2)%Q → rank b.2 = rank a.2) ∧
    (¬ (pct b.2 == pct a.2)%Q → rank b.2 = Some (i + S j + 1)).
Proof.
  induction l as [|[k ri] l IH]; intros prev i cr j a b; [done|].
  cbn [Result.assignRanks].
  set (cr' := match prev with
              | Some rp => if negb (Qeq_bool _ _) then i + 1 else cr
              | None => cr
              end).
  destruct j as [|j]; simpl.
  - intros [= <-]. destruct l as [|[k2 r2] l]; [done|].
    cbn [Result.assignRanks]. simpl. intros [= <-]. simpl.
    fold (pct r2) (pct ri).
    destruct (Qeq_bool (pct r2) (pct ri)) eqn:E; simpl; qprop.
    + split; [done|]. intros Hne. by destruct Hne.
    + split; [intros Heq; by destruct E|]. intros _. f_equal. lia.
  - intros Ha Hb. destruct (IH (Some ri) (S i) cr' j a b Ha Hb) as [H1 H2].
    split; [done|]. intros Hne. rewrite (H2 Hne). f_equal. lia.
Qed.

Lemma rankedResults_Forall2 (r : Result.t) :
  Forall2 (λ a b : string * StudentResult, b.1 = a.1 ∧ sameButRank b.2 a.2)
          (Result.sortedResults r) (Result.rankedResults r).
Proof.
  rewrite rankedResults_higherCount. apply Forall2_fmap_r, Forall_Forall2_diag.
  apply Forall_forall. intros e _. split; [done|]. apply sameButRank_setRank_l.
Qed.

(** C3.  For a Result that holds at least one student result,
    [calculateRanks] orders the student results by falling percentage,
    ties broken by falling total marks; the first record of that sequence
    gets rank 1; each later record gets the rank of its predecessor exactly
    when their percentages are equal, and its 1-based position otherwise;
    the map then shows these ranks.  In particular students with the
    percentages [95, 88, 82, 78] get the ranks [1, 2, 3, 4]. *)
Theorem C3_calculateRanks_order (r : Result.t) :
  constructed r →
  Result.getStudentResults r ≠ [] →
  let sorted := Result.sortedResults r in
  let ranked := Result.rankedResults r in
  sorted ≡ₚ Result.studentResults r ∧
  StronglySorted (λ a b : string * StudentResult, ordered a.2 b.2) sorted ∧
  Forall2 (λ a b : string * StudentResult, b.1 = a.1 ∧ sameButRank b.2 a.2)
          sorted ranked ∧
  Result.studentResults (Result.calculateRanks r) ≡ₚ ranked ∧
  (∃ first, ranked !! 0 = Some first ∧ rank first.2 = Some 1) ∧
  (∀ i a b,
     ranked !! i = Some a → ranked !! S i = Some b →
     (rank b.2 = rank a.2 ↔ (pct b.2 == pct a.2)%Q) ∧
     (¬ (pct b.2 == pct a.2)%Q → rank b.2 = Some (S i + 1))) ∧
  (havePercentages (Result.getStudentResults r) [95; 88; 82; 78]%Q →
   rank <$> Result.getStudentResults (Result.calculateRanks r)
   = [Some 1; Some 2; Some 3; Some 4]).
Proof.
  intros Hr Hne sorted ranked.
  apply constructed_invariant in Hr as (_ & Hnd & _).
  split; [apply sortedResults_Permutation|].
  split; [apply sortedResults_Sorted|].
  split; [apply rankedResults_Forall2|].
  split; [|split; [|split]].
  - rewrite calculateRanks_higherCount by done. subst ranked.
    rewrite rankedResults_higherCount. apply fmap_Permutation.
    symmetry. apply sortedResults_Permutation.
  - subst ranked. unfold Result.rankedResults.
    assert (Hs : Result.sortedResults r ≠ []).
    { intros Hnil. apply Hne. unfold Result.getStudentResults, JSMap.values.
      pose proof (sortedResults_Permutation r) as Hp. rewrite Hnil in Hp.
      apply Permutation_nil_l in Hp. by rewrite <- Hp. }
    destruct (Result.sortedResults r) as [|[k x] rest]; [done|].
    eexists. split; [reflexivity|done].
  - intros i a b Ha Hb. subst ranked. unfold Result.rankedResults in Ha, Hb.
    destruct (assignRanks_step _ _ _ _ _ _ _ Ha Hb) as [Heq Hneq].
    split; [|intros H; by rewrite (Hneq H)].
    split; [|done]. intros Hrank.
    destruct (Qeq_dec (pct b.2) (pct a.2)) as [|Hd]; [done|exfalso].
    destruct (assignRanks_bound (Result.sortedResults r) None 0 1 i a)
      as (c & Hc & Hb'); [lia|done|].
    rewrite (Hneq Hd), Hc in Hrank. injection Hrank. lia.
  - intros Hp. rewrite getStudentResults_calculateRanks by done.
    unfold havePercentages in Hp.
    pose proof (Forall2_length _ _ _ Hp) as Hlen.
    destruct (Result.getStudentResults r) as [|a [|b [|c [|d [|e l]]]]];
      try discriminate Hlen.
    apply Forall2_cons in Hp as [Ha Hp]. apply Forall2_cons in Hp as [Hb Hp].
    apply Forall2_cons in Hp as [Hc Hp]. apply Forall2_cons in Hp as [Hd _].
    ranks_by_count.
Qed.

(** An instance with four sample students. *)
Lemma C3_calculateRanks_order_witness :
  rank <$> Result.getStudentResults
             (Result.calculateRanks
                (sampleResult [sampleStudent "001" 95 275; sampleStudent "002" 88 263;
                               sampleStudent "003" 82 236; sampleStudent "004" 78 205]))
  = [Some 1; Some 2; Some 3; Some 4].
Proof.
  apply C3_calculateRanks_order.
  - apply (constructed_new "sample" "Sample" [Subject.mk "Math" (Num 100) false]
             [sampleStudent "001" 95 275; sampleStudent "002" 88 263;
              sampleStudent "003" 82 236; sampleStudent "004" 78 205]).
    vm_compute. reflexivity.
  - discriminate.
  - repeat constructor.
Defined.

(* ===================================================================== *)
(** * ValidationService: rows *)
(* ===================================================================== *)

(** A rule whose result is valid leaves nothing in the row result,
    whatever message it carries. *)
Lemma applyRule_valid row allRows acc rule result :
  ValidationService.rule_validator rule
    (ValidationService.prop row (ValidationService.rule_field rule)) row allRows
  = Ok result →
  ValidationService.vr_isValid result = true →
  ValidationService.applyRule row allRows acc rule = acc.
Proof.
  intros Hv Hvalid. unfold ValidationService.applyRule. by rewrite Hv, Hvalid.
Qed.

(** A rule of severity "error" adds nothing to the warnings. *)
Lemma applyRule_error_warnings row allRows acc rule :
  ValidationService.rule_severity rule = ValidationService.error →
  (ValidationService.applyRule row allRows acc rule).2 = acc.2.
Proof.
  intros Hs. unfold ValidationService.applyRule. rewrite Hs.
  destruct (ValidationService.rule_validator rule _ row allRows) as [res|]; [|done].
  destruct (ValidationService.vr_isValid res); [done|].
  by destruct (ValidationService.hasMessage res).
Qed.

Lemma name_consistency_valid (v : field) :
  ValidationService.vr_isValid (ValidationService.name_consistency v) = true.
Proof.
  unfold ValidationService.name_consistency.
  repeat match goal with |- context [if ?b then _ else _] => destruct b end;
    reflexivity.
Qed.

(** With at least one positive mark the consistency rule answers "valid",
    with or without a message. *)
Lemma marks_consistency_valid (row : gmap string field) (subjectMarks : JSMap.t value) :
  ValidationService.prop row "marks" = Obj subjectMarks →
  filter (λ m, ValidationService.isValidMark m) (JSObject.values subjectMarks) ≠ [] →
  ValidationService.vr_isValid (ValidationService.marks_consistency row) = true.
Proof.
  intros Hm Hne. unfold ValidationService.marks_consistency. rewrite Hm.
  destruct (filter _ _) as [|m ms]; [done|]. simpl.
  repeat match goal with |- context [if ?b then _ else _] => destruct b end;
    reflexivity.
Qed.

(** Under the default rules no warning is recorded for a row that has a
    positive mark, whatever its average. *)
Lemma default_rules_no_warning (row : gmap string field) (subjectMarks : JSMap.t value)
    (rowIndex : nat) (allRows : list (gmap string field)) :
  ValidationService.prop row "marks" = Obj subjectMarks →
  filter (λ m, ValidationService.isValidMark m) (JSObject.values subjectMarks) ≠ [] →
  ValidationService.warnings
    (ValidationService.validateRow row rowIndex ValidationService.DEFAULT_RULES allRows)
  = [].
Proof.
  intros Hm Hne. unfold ValidationService.validateRow.
  assert (Hw : ∀ acc,
    (foldl (ValidationService.applyRule row allRows) acc
           ValidationService.DEFAULT_RULES).2 = acc.2).
  { intros acc. unfold ValidationService.DEFAULT_RULES.
    cbn [foldl].
    rewrite (applyRule_valid row allRows _ _
               (ValidationService.name_consistency
                  (ValidationService.prop row "studentName")))
      by (done || apply name_consistency_valid).
    rewrite (applyRule_valid row allRows _ _ (ValidationService.marks_consistency row))
      by (done || by eapply marks_consistency_valid).
    by rewrite !applyRule_error_warnings. }
  specialize (Hw ([], [])).
  destruct (foldl _ _ _) as [errs warns]. simpl in *. done.
Qed.

(** C4.  The code at a failing input.  A row whose only mark is 5 has the
    average 5, below 10, and a row whose only mark is 98 has the average 98,
    above 95; for both the consistency rule answers with its "please
    verify" message, yet the row result records no warning (and no error:
    the row stays valid), and the batch of the two rows counts no row with
    warnings. *)
Theorem C4_average_warning_dropped :
  ValidationService.marks_consistency sampleLowRow
    = ValidationService.validWith "Very low average marks - please verify data" ∧
  ValidationService.marks_consistency sampleHighRow
    = ValidationService.validWith "Very high average marks - please verify data" ∧
  ValidationService.validateRow sampleLowRow 0 ValidationService.DEFAULT_RULES
    [sampleLowRow; sampleHighRow]
    = ValidationService.mkRowValidationResult 0 true [] [] ∧
  ValidationService.validateRow sampleHighRow 1 ValidationService.DEFAULT_RULES
    [sampleLowRow; sampleHighRow]
    = ValidationService.mkRowValidationResult 1 true [] [] ∧
  (λ res, (ValidationService.warnings <$> ValidationService.rowResults res,
           ValidationService.warningRows (ValidationService.summary res),
           ValidationService.data_isValid res))
    <$> ValidationService.validateData sampleExtremes sampleMappings []
  = Ok ([[]; []], 0, true).
Proof. repeat split; vm_compute; reflexivity. Qed.

(* ===================================================================== *)
(** * ValidationService: duplicates *)
(* ===================================================================== *)

Lemma track_inv (m m' : JSMap.t (list nat)) (key : string) (i : nat) :
  ValidationService.track m key i = Ok m' →
  (∀ k, JSMap.get m' k
        = if String.eqb key k
          then Some (default [] (JSMap.get m key) ++ [i])%list
          else JSMap.get m k)
  ∧ (NoDup (JSMap.keys m) → NoDup (JSMap.keys m')).
Proof.
  unfold ValidationService.track, JSObject.get.
  assert (Hset : ∀ v k, JSMap.get (JSMap.set m key v) k
                        = if String.eqb key k then Some v else JSMap.get m k).
  { intros v k. destruct (String.eqb key k) eqn:E.
    - apply String.eqb_eq in E. subst. apply JSMap_get_set_eq.
    - apply String.eqb_neq in E. by apply JSMap_get_set_ne. }
  destruct (JSMap.get m key) as [indexes|] eqn:Eg.
  - intros [= <-]. split; [intros k; apply Hset|apply JSMap_NoDup_set].
  - destruct (JSObject.inherits key); [done|].
    intros [= <-]. split; [intros k; apply Hset|apply JSMap_NoDup_set].
Qed.

(** Tracking a key fails exactly when the map inherits it and does not
    hold it. *)
Lemma track_throws (m : JSMap.t (list nat)) (key : string) (i : nat) :
  throws (ValidationService.track m key i)
  ↔ JSMap.get m key = None ∧ JSObject.inherits key = true.
Proof.
  unfold ValidationService.track, JSObject.get.
  destruct (JSMap.get m key); [|destruct (JSObject.inherits key)].
  - split; [by intros [? ?]|by intros [? _]].
  - split; [intros _; done|intros _; by eexists].
  - split; [by intros [? ?]|by intros [_ ?]].
Qed.




Lemma trackRow_inv maps e maps' :
  ValidationService.trackRow maps e = Ok maps' →
  ValidationService.trackField "rollNumber" maps.1 e = Ok maps'.1
  ∧ ValidationService.trackField "studentName" maps.2 e = Ok maps'.2.
Proof.
  unfold ValidationService.trackRow.
  destruct (ValidationService.trackField "rollNumber" maps.1 e) as [m1|];
    simpl; [|done].
  destruct (ValidationService.trackField "studentName" maps.2 e) as [m2|];
    simpl; [|done].
  by intros [= <-].
Qed.










Lemma transform_sampleSheet :
  ValidationService.transformRowsForValidation sampleSheet sampleMappings
  = Ok sampleTransformed.
Proof. vm_compute. reflexivity. Qed.



(** The whole result for the sample sheet. *)
Example validateData_sampleSheet :
  (λ res, (ValidationService.data_isValid res,
           ValidationService.globalErrors res,
           ValidationService.globalWarnings res,
           ValidationService.isValid <$> ValidationService.rowResults res))
    <$> ValidationService.validateData sampleSheet sampleMappings []
  = Ok (false, ["Found duplicate roll numbers: a1"], [], [true; true; true]).
Proof. vm_compute. reflexivity. Qed.

(* ===================================================================== *)
(** * The scenario of the test suite *)
(* ===================================================================== *)

(** Three subjects and four students: Alice is first, Diana second, Bob
    third and Charlie fourth. *)
Example ranking_end_to_end :
  (λ r, (λ sr, (Student.getName (student sr), rank sr))
          <$> Result.getStudentResults r)
    <$> Result.fromRawData
          (mkRawData "test-result-1" "Test Result" ["Mathematics"; "Science"; "English"]
             [ mkRawStudent "Alice Top" "001" None None
                 {[ "Mathematics" := RNumber (Num 95); "Science" := RNumber (Num 92);
                    "English" := RNumber (Num 88) ]};
               mkRawStudent "Bob Middle" "002" None None
                 {[ "Mathematics" := RNumber (Num 78); "Science" := RNumber (Num 82);
                    "English" := RNumber (Num 76) ]};
               mkRawStudent "Charlie Low" "003" None None
                 {[ "Mathematics" := RNumber (Num 65); "Science" := RNumber (Num 68);
                    "English" := RNumber (Num 72) ]};
               mkRawStudent "Diana High" "004" None None
                 {[ "Mathematics" := RNumber (Num 88); "Science" := RNumber (Num 90);
                    "English" := RNumber (Num 85) ]} ])
  = Ok [("Alice Top", Some 1); ("Bob Middle", Some 3);
        ("Charlie Low", Some 4); ("Diana High", Some 2)].
Proof. vm_compute. reflexivity. Qed.

(** Marks read from text. *)
Example marks_fromString :
  Marks.fromString " 85.5 " = Ok (Marks.mk 85.5)
  ∧ Marks.fromString "AB" = Ok (Marks.mk 0)
  ∧ Marks.fromString "n/a" = Throw "Invalid marks format: n/a"
  ∧ Marks.fromString "101" = Throw "Marks cannot exceed 100".
Proof. repeat split; vm_compute; reflexivity. Qed.

(* ===================================================================== *)
(** * Value objects: grades, categories and bounds *)
(* ===================================================================== *)

(** X1.  The letter grade, the performance category and the pass mark of a
    percentage agree: a percentage passes at the default threshold of 40
    exactly when its grade is not "F"; its category is "Poor" exactly when
    its grade is "F", and "Excellent" exactly when its grade is "A+". *)
Theorem Percentage_grade_category (p : Percentage.t) :
  (Percentage.isPassing p 40 = true ↔ Percentage.getLetterGrade p ≠ "F") ∧
  (Percentage.getPerformanceCategory p = "Poor"
   ↔ Percentage.getLetterGrade p = "F") ∧
  (Percentage.getPerformanceCategory p = "Excellent"
   ↔ Percentage.getLetterGrade p = "A+").
Proof.
  unfold Percentage.isPassing, Percentage.getLetterGrade,
    Percentage.getPerformanceCategory.
  destruct (Qle_bool 90 (Percentage.value p)) eqn:E90;
    destruct (Qle_bool 80 (Percentage.value p)) eqn:E80;
    destruct (Qle_bool 75 (Percentage.value p)) eqn:E75;
    destruct (Qle_bool 70 (Percentage.value p)) eqn:E70;
    destruct (Qle_bool 60 (Percentage.value p)) eqn:E60;
    destruct (Qle_bool 50 (Percentage.value p)) eqn:E50;
    destruct (Qle_bool 40 (Percentage.value p)) eqn:E40;
    qprop; try (exfalso; lra);
    (split; [|split]); split; intros; congruence.
Qed.

Lemma Marks_new_inv (marks : number) (isTotal : bool) (m : Marks.t) :
  Marks.new marks isTotal = Ok m →
  marks = Num (Marks.value m) ∧ (0 <= Marks.value m)%Q
  ∧ (isTotal = false → (Marks.value m <= 100)%Q).
Proof.
  unfold Marks.new, Marks.validateMarks.
  destruct marks as [|q]; simpl; [done|].
  destruct (Qlt_bool q 0) eqn:E0; simpl; [done|].
  destruct isTotal; simpl.
  - intros [= <-]. simpl. qprop. done.
  - destruct (Qlt_bool 100 q) eqn:E1; simpl; [done|].
    intros [= <-]. simpl. qprop. done.
Qed.

Lemma Marks_new_ok (q : Q) (isTotal : bool) :
  (0 <= q)%Q → (isTotal = false → (q <= 100)%Q) →
  Marks.new (Num q) isTotal = Ok (Marks.mk q).
Proof.
  intros H0 H1. unfold Marks.new, Marks.validateMarks.
  apply Qlt_bool_false in H0. rewrite H0.
  destruct isTotal; simpl; [done|].
  specialize (H1 eq_refl). apply Qlt_bool_false in H1. by rewrite H1.
Qed.

(** X2.  Marks are never negative, and marks that are not a total never
    exceed 100: the constructor accepts exactly the numbers in range and
    stores them unchanged; whatever [fromString] reads lies in [0, 100];
    and the sum of two marks is always built, as a total, even past 100. *)
Theorem Marks_range :
  (∀ marks isTotal m,
     Marks.new marks isTotal = Ok m →
     marks = Num (Marks.getValue m) ∧ (0 <= Marks.getValue m)%Q
     ∧ (isTotal = false → (Marks.getValue m <= 100)%Q)) ∧
  (∀ q isTotal,
     (0 <= q)%Q → (isTotal = false → (q <= 100)%Q) →
     Marks.new (Num q) isTotal = Ok (Marks.mk q)) ∧
  (∀ marksString m,
     Marks.fromString marksString = Ok m → (0 <= Marks.getValue m <= 100)%Q) ∧
  (∀ a b,
     (0 <= Marks.getValue a)%Q → (0 <= Marks.getValue b)%Q →
     Marks.add a b = Ok (Marks.mk (Marks.getValue a + Marks.getValue b))).
Proof.
  split; [|split; [|split]].
  - apply Marks_new_inv.
  - apply Marks_new_ok.
  - intros s m. unfold Marks.fromString.
    destruct (_ || _ || _).
    + intros (_ & ? & ?)%Marks_new_inv. split; [done|]. by auto.
    + destruct (Number.isNaN _); [done|].
      intros (_ & ? & ?)%Marks_new_inv. split; [done|]. by auto.
  - intros a b Ha Hb. unfold Marks.add, Marks.getValue in *.
    apply Marks_new_ok; [lra|done].
Qed.

(** Instances: 85.5 is accepted as a mark, and 80 + 70 as a total. *)
Lemma Marks_range_witness :
  Marks.new (Num 85.5) false = Ok (Marks.mk 85.5) ∧
  Marks.add (Marks.mk 80) (Marks.mk 70) = Ok (Marks.mk (80 + 70)).
Proof.
  destruct Marks_range as (_ & Hnew & _ & Hadd). split.
  - apply (Hnew 85.5%Q false); [lra|intros _; lra].
  - apply (Hadd (Marks.mk 80) (Marks.mk 70)); simpl; lra.
Defined.

(* ===================================================================== *)
(** * Strings: case, trimming, splitting *)
(* ===================================================================== *)

Lemma lowerChar_upperChar (c : ascii) :
  JSString.lowerChar (JSString.upperChar c) = JSString.lowerChar c.
Proof. destruct c as [[] [] [] [] [] [] [] []]; reflexivity. Qed.

Lemma lowerChar_idem (c : ascii) :
  JSString.lowerChar (JSString.lowerChar c) = JSString.lowerChar c.
Proof. destruct c as [[] [] [] [] [] [] [] []]; reflexivity. Qed.

Lemma toLowerCase_idem (s : string) :
  JSString.toLowerCase (JSString.toLowerCase s) = JSString.toLowerCase s.
Proof.
  unfold JSString.toLowerCase.
  induction s as [|c s IH]; simpl; [done|]. by rewrite lowerChar_idem, IH.
Qed.

Lemma toLowerCase_app (s t : string) :
  JSString.toLowerCase (s +:+ t)
  = JSString.toLowerCase s +:+ JSString.toLowerCase t.
Proof.
  unfold JSString.toLowerCase.
  induction s as [|c s IH]; simpl; [done|]. by rewrite IH.
Qed.

Lemma toLowerCase_length (s : string) :
  String.length (JSString.toLowerCase s) = String.length s.
Proof.
  unfold JSString.toLowerCase.
  induction s as [|c s IH]; simpl; [done|]. by rewrite IH.
Qed.

Lemma toLowerCase_capitalize (w : string) :
  JSString.toLowerCase (JSString.capitalize w) = JSString.toLowerCase w.
Proof.
  destruct w as [|c w]; [done|]. unfold JSString.toLowerCase. simpl.
  rewrite lowerChar_upperChar. f_equal. apply toLowerCase_idem.
Qed.

Lemma toLowerCase_join (sep : string) (l : list string) :
  JSString.toLowerCase (JSString.join sep l)
  = JSString.join (JSString.toLowerCase sep) (JSString.toLowerCase <$> l).
Proof.
  induction l as [|x [|y l] IH]; [done..|].
  change (JSString.join sep (x :: y :: l))
    with (x +:+ sep +:+ JSString.join sep (y :: l)).
  rewrite !toLowerCase_app, IH. reflexivity.
Qed.

Lemma split_nonempty (sep : ascii) (s : string) : JSString.split sep s ≠ [].
Proof.
  destruct s as [|c s]; simpl; [done|].
  destruct (Ascii.eqb c sep); [done|]. by destruct (JSString.split sep s).
Qed.

(** Joining the pieces with the separator gives the string back. *)
Lemma join_split (sep : ascii) (s : string) :
  JSString.join (String sep "") (JSString.split sep s) = s.
Proof.
  induction s as [|c s IH]; simpl; [done|].
  destruct (Ascii.eqb c sep) eqn:E.
  - apply Ascii.eqb_eq in E. subst c.
    pose proof (split_nonempty sep s) as Hne.
    destruct (JSString.split sep s) as [|w ws]; [done|].
    change (JSString.join (String sep "") ("" :: w :: ws))
      with ("" +:+ String sep "" +:+ JSString.join (String sep "") (w :: ws)).
    by rewrite IH.
  - pose proof (split_nonempty sep s) as Hne.
    destruct (JSString.split sep s) as [|w [|w' ws]]; [done| |].
    + simpl in *. by rewrite IH.
    + change (JSString.join (String sep "") (String c w :: w' :: ws))
        with (String c (w +:+ String sep ""
                          +:+ JSString.join (String sep "") (w' :: ws))).
      by rewrite <- IH.
Qed.

Lemma trimEnd_idem (s : string) :
  JSString.trimEnd (JSString.trimEnd s) = JSString.trimEnd s.
Proof.
  induction s as [|c s IH]; simpl; [done|].
  destruct (JSString.trimEnd s) as [|d t] eqn:E.
  - destruct (JSString.isWhiteSpace c) eqn:Ec; simpl; [done|]. by rewrite Ec.
  - simpl. simpl in IH. by rewrite IH.
Qed.

Lemma trimStart_head (s : string) (c : ascii) (t : string) :
  JSString.trimStart s = String c t → JSString.isWhiteSpace c = false.
Proof.
  induction s as [|d s IH]; simpl; [done|].
  destruct (JSString.isWhiteSpace d) eqn:E; [done|]. by intros [= <- _].
Qed.

Lemma trim_idem (s : string) : JSString.trim (JSString.trim s) = JSString.trim s.
Proof.
  unfold JSString.trim.
  destruct (JSString.trimStart s) as [|c t] eqn:E; [done|].
  apply trimStart_head in E.
  assert (H : JSString.trimStart (JSString.trimEnd (String c t))
              = JSString.trimEnd (String c t)).
  { simpl. destruct (JSString.trimEnd t); [rewrite E|]; simpl; by rewrite E. }
  rewrite H. apply trimEnd_idem.
Qed.

Lemma length_zero_empty (s : string) : (String.length s =? 0)%nat = true ↔ s = "".
Proof. destruct s; simpl; split; done. Qed.

(* ===================================================================== *)
(** * Student and Subject *)
(* ===================================================================== *)

Lemma displayName_letters (name : string) :
  JSString.toLowerCase
    (JSString.join " " (JSString.capitalize <$> JSString.split " " name))
  = JSString.toLowerCase name.
Proof.
  rewrite toLowerCase_join, <- list_fmap_compose.
  rewrite (list_fmap_ext (JSString.toLowerCase ∘ JSString.capitalize)
             JSString.toLowerCase (JSString.split " " name))
    by (intros; apply toLowerCase_capitalize).
  rewrite <- toLowerCase_join. f_equal. apply join_split.
Qed.

(** X3.  For a name of ASCII characters, the display name of a student,
    and of a subject, is the stored name with the case of its letters
    changed and nothing else: once lower-cased the two are the same text,
    and they have the same length. *)
Theorem getDisplayName_letters :
  (∀ s : Student.t,
     asciiOnly (Student.getName s) →
     JSString.toLowerCase (Student.getDisplayName s)
       = JSString.toLowerCase (Student.getName s)
     ∧ String.length (Student.getDisplayName s) = String.length (Student.getName s)) ∧
  (∀ s : Subject.t,
     asciiOnly (Subject.getName s) →
     JSString.toLowerCase (Subject.getDisplayName s)
       = JSString.toLowerCase (Subject.getName s)
     ∧ String.length (Subject.getDisplayName s) = String.length (Subject.getName s)).
Proof.
  split; intros s _.
  - pose proof (displayName_letters (Student.name s)) as H. split; [exact H|].
    apply (f_equal String.length) in H. by rewrite !toLowerCase_length in H.
  - pose proof (displayName_letters (Subject.name s)) as H. split; [exact H|].
    apply (f_equal String.length) in H. by rewrite !toLowerCase_length in H.
Qed.

(** Instances: "asha RAO" is displayed as "Asha Rao", and "social
    STUDIES" as "Social Studies". *)
Lemma getDisplayName_letters_witness :
  (JSString.toLowerCase
     (Student.getDisplayName (Student.mk "asha RAO" "12" None None))
   = "asha rao"
   ∧ Student.getDisplayName (Student.mk "asha RAO" "12" None None) = "Asha Rao") ∧
  (JSString.toLowerCase
     (Subject.getDisplayName (Subject.mk "social STUDIES" (Num 100) false))
   = "social studies"
   ∧ Subject.getDisplayName (Subject.mk "social STUDIES" (Num 100) false)
     = "Social Studies").
Proof.
  destruct getDisplayName_letters as [Hstudent Hsubject]. split.
  - split; [|reflexivity].
    destruct (Hstudent (Student.mk "asha RAO" "12" None None)) as [H _];
      [reflexivity|]. exact H.
  - split; [|reflexivity].
    destruct (Hsubject (Subject.mk "social STUDIES" (Num 100) false)) as [H _];
      [reflexivity|]. exact H.
Defined.

Lemma Subject_new_iff (name : string) (maxMarks : number)
    (isOptional : bool) (s : Subject.t) :
  Subject.new name maxMarks isOptional = Ok s ↔
  JSString.trim name ≠ ""
  ∧ (maxMarks = NaN ∨ ∃ q, maxMarks = Num q ∧ (0 < q <= 1000)%Q)
  ∧ s = Subject.mk (JSString.trim name) maxMarks isOptional.
Proof.
  unfold Subject.new, Subject.validateSubject.
  destruct (String.length (JSString.trim name) =? 0)%nat eqn:El.
  - apply length_zero_empty in El. simpl. split; [done|]. by intros [? _].
  - assert (Hne : JSString.trim name ≠ "").
    { intros H. apply length_zero_empty in H. congruence. }
    destruct maxMarks as [|q]; simpl.
    + split; [intros [= <-]|intros (_ & _ & ->)]; [|done].
      split; [done|]. split; [by left|done].
    + unfold Number.gt, Number.lt.
      destruct (Qle_bool q 0) eqn:E0; simpl.
      * split; [done|]. intros (_ & [?|(q' & [= <-] & ? & ?)] & _); [done|].
        qprop. lra.
      * destruct (Qlt_bool 1000 q) eqn:E1; simpl.
        -- split; [done|]. intros (_ & [?|(q' & [= <-] & ? & ?)] & _); [done|].
           qprop. lra.
        -- split; [intros [= <-]|intros (_ & _ & ->)]; [|done].
           split; [done|]. split; [|done]. right. exists q. qprop. done.
Qed.

(** X4.  The Subject constructor accepts a name and maximum marks exactly
    when the trimmed name is not empty and the maximum is a number in
    (0, 1000] or is NaN, which passes both range tests; the subject built
    has the trimmed name and the maximum as given. *)
Theorem Subject_new_accepts (name : string) (maxMarks : number)
    (isOptional : bool) (s : Subject.t) :
  Subject.new name maxMarks isOptional = Ok s ↔
  JSString.trim name ≠ ""
  ∧ (maxMarks = NaN ∨ ∃ q, maxMarks = Num q ∧ (0 < q <= 1000)%Q)
  ∧ s = Subject.mk (JSString.trim name) maxMarks isOptional.
Proof. apply Subject_new_iff. Qed.

(** X5.  [Subject.fromString] builds the same subject as the constructor
    and fails on the same inputs; only the message for a blank name
    differs.  A name is valid exactly when it is not blank. *)
Theorem Subject_fromString_new (subjectString : string) (maxMarks : number) :
  (∀ s, Subject.fromString subjectString maxMarks = Ok s
        ↔ Subject.new subjectString maxMarks false = Ok s) ∧
  (JSString.trim subjectString = "" →
   Subject.fromString subjectString maxMarks = Throw "Subject name cannot be empty"
   ∧ Subject.new subjectString maxMarks false
     = Throw "Subject name must be a non-empty string") ∧
  Subject.isValidName subjectString
  = negb (String.eqb (JSString.trim subjectString) "").
Proof.
  split; [|split].
  - intros s. unfold Subject.fromString.
    destruct (String.length (JSString.trim subjectString) =? 0)%nat eqn:El.
    + apply length_zero_empty in El. split; [done|].
      intros (Hne & _)%Subject_new_iff. done.
    + rewrite !Subject_new_iff, trim_idem. done.
  - intros E. unfold Subject.fromString, Subject.new, Subject.validateSubject.
    rewrite E. done.
  - unfold Subject.isValidName, Subject.newDefault, Subject.new,
      Subject.validateSubject.
    destruct (String.length (JSString.trim subjectString) =? 0)%nat eqn:El.
    + apply length_zero_empty in El. by rewrite El.
    + destruct (String.eqb (JSString.trim subjectString) "") eqn:E; [|done].
      apply String.eqb_eq in E. rewrite E in El. done.
Qed.

(** Instances: a blank name fails in both, with different messages. *)
Lemma Subject_fromString_new_witness :
  Subject.fromString "   " (Num 100) = Throw "Subject name cannot be empty"
  ∧ Subject.new "   " (Num 100) false
    = Throw "Subject name must be a non-empty string".
Proof.
  destruct (Subject_fromString_new "   " (Num 100)) as (_ & H & _).
  apply H. reflexivity.
Defined.

(* ===================================================================== *)
(** * Result: what the constructor keeps *)
(* ===================================================================== *)

Lemma foldR_addStudentResult_get (l : list StudentResult) :
  ∀ r r', foldR Result.addStudentResult r l = Ok r' →
    Result.subjects r' = Result.subjects r ∧
    ∀ k, JSMap.get (Result.studentResults r') k
         = match last (filter (λ sr, rollOf sr = k) l) with
           | Some sr => Some sr
           | None => JSMap.get (Result.studentResults r) k
           end.
Proof.
  induction l as [|sr l IH]; intros r r'; simpl.
  - intros [= <-]. done.
  - destruct (Result.addStudentResult r sr) as [r1|] eqn:E1; simpl; [|done].
    intros H. apply IH in H as [Hs Hg].
    apply addStudentResult_inv in E1 as (_ & Hs1 & Hm1).
    split; [congruence|]. intros k. rewrite Hg, Hm1, filter_cons.
    destruct (decide (rollOf sr = k)) as [<-|Hne].
    + rewrite last_cons. destruct (last _); [done|]. apply JSMap_get_set_eq.
    + destruct (last _); [done|]. by apply JSMap_get_set_ne.
Qed.

Lemma foldR_addStudentResult_isOk (l : list StudentResult) :
  ∀ r, isOk (foldR Result.addStudentResult r l) = true
       ↔ Forall (covers (Result.subjects r)) l.
Proof.
  induction l as [|sr l IH]; intros r; simpl.
  - split; [by constructor|done].
  - rewrite Forall_cons. split.
    + destruct (Result.addStudentResult r sr) as [r1|] eqn:E1; simpl; [|done].
      apply addStudentResult_inv in E1 as (Hc & Hs & _).
      rewrite IH, Hs. done.
    + intros [Hc Hl].
      destruct (addStudentResult_ok r sr Hc) as (r1 & -> & Hs & _). simpl.
      apply IH. by rewrite Hs.
Qed.

Lemma length_remove_dups {A} `{EqDecision A} (l : list A) :
  (length (remove_dups l) ≤ length l)%nat.
Proof.
  induction l as [|x l IH]; simpl; [done|].
  destruct (decide_rel elem_of x l); simpl; lia.
Qed.

Lemma last_filter_is_Some {A} (P : A → Prop) `{∀ x, Decision (P x)} (l : list A) :
  is_Some (last (filter P l)) ↔ ∃ x, x ∈ l ∧ P x.
Proof.
  split.
  - intros [x Hx]. apply last_Some in Hx as [l' Hl'].
    assert (Hin : x ∈ filter P l) by (rewrite Hl'; set_solver).
    apply list_elem_of_filter in Hin as [? ?]. by exists x.
  - intros (x & Hx & HP).
    assert (Hin : x ∈ filter P l) by by apply list_elem_of_filter.
    destruct (filter P l) as [|y l'] using rev_ind; [by apply elem_of_nil in Hin|].
    rewrite last_snoc. by eexists.
Qed.

(** X6.  The constructor of a Result succeeds exactly when the id and the
    title are not blank, there is at least one subject, and every student
    result given holds marks for every subject. *)
Theorem Result_new_succeeds (id title : string) (subjects : list Subject.t)
    (studentResults : list StudentResult) :
  isOk (Result.new id title subjects studentResults) = true ↔
  JSString.trim id ≠ "" ∧ JSString.trim title ≠ "" ∧ subjects ≠ []
  ∧ Forall (covers subjects) studentResults.
Proof.
  unfold Result.new, Result.validateResult.
  destruct (String.length (JSString.trim id) =? 0)%nat eqn:E1.
  { apply length_zero_empty in E1. simpl. split; [done|]. by intros [? _]. }
  destruct (String.length (JSString.trim title) =? 0)%nat eqn:E2.
  { apply length_zero_empty in E2. simpl. split; [done|]. by intros (_ & ? & _). }
  destruct subjects as [|s subjects].
  { simpl. split; [done|]. by intros (_ & _ & ? & _). }
  simpl. rewrite foldR_addStudentResult_isOk. simpl.
  split.
  - intros H. repeat split; try done.
    + intros E. apply length_zero_empty in E. congruence.
    + intros E. apply length_zero_empty in E. congruence.
  - by intros (_ & _ & _ & ?).
Qed.

Lemma new_lookup (id title : string) (subjects : list Subject.t)
    (studentResults : list StudentResult) (r : Result.t) :
  Result.new id title subjects studentResults = Ok r →
  ∀ k, Result.getStudentResult r k
       = last (filter (λ sr, rollOf sr = k) studentResults).
Proof.
  unfold Result.new.
  destruct (Result.validateResult id title subjects); simpl; [|done].
  intros [_ Hget]%foldR_addStudentResult_get k. simpl in Hget.
  unfold Result.getStudentResult. rewrite Hget. by destruct (last _).
Qed.


(** X7.  When several student results given to the constructor have the
    same roll number, the Result keeps the last of them: looking a roll
    number up gives the last student result of the list with that roll
    number, and the number of students is the number of distinct roll
    numbers, which may be less than the number of student results given. *)
Theorem Result_new_last_wins (id title : string) (subjects : list Subject.t)
    (studentResults : list StudentResult) (r : Result.t) :
  Result.new id title subjects studentResults = Ok r →
  (∀ k, Result.getStudentResult r k
        = last (filter (λ sr, rollOf sr = k) studentResults)) ∧
  Result.getStudentCount r = length (remove_dups (rollOf <$> studentResults)) ∧
  (Result.getStudentCount r ≤ length studentResults)%nat.
Proof.
  intros Hnew. pose proof (new_invariant _ _ _ _ _ Hnew) as [_ [Hnd _]].
  pose proof (new_lookup _ _ _ _ _ Hnew) as Hlook.
  assert (Hcount : Result.getStudentCount r
                   = length (remove_dups (rollOf <$> studentResults))).
  { unfold Result.getStudentCount, JSMap.size.
    rewrite <- (length_fmap fst). apply Permutation_length.
    apply NoDup_Permutation; [exact Hnd|apply NoDup_remove_dups|].
    intros k. rewrite elem_of_remove_dups.
    change (Result.studentResults r).*1 with (JSMap.keys (Result.studentResults r)).
    rewrite <- JSMap_get_is_Some. fold (Result.getStudentResult r k).
    rewrite Hlook, last_filter_is_Some, list_elem_of_fmap.
    split; intros (sr & ? & ?); by exists sr. }
  split; [exact Hlook|]. split; [exact Hcount|].
  rewrite Hcount. etrans; [apply length_remove_dups|]. by rewrite length_fmap.
Qed.

(** An instance: of two student results with the roll number "7", the
    second is kept. *)
Lemma Result_new_last_wins_witness :
  ∃ r, Result.new "r1" "Term 1" [Subject.mk "Math" (Num 100) false]
         [sampleStudent "7" 40 40; sampleStudent "7" 90 90] = Ok r
       ∧ Result.getStudentResult r "7" = Some (sampleStudent "7" 90 90)
       ∧ Result.getStudentCount r = 1.
Proof.
  destruct (Result.new "r1" "Term 1" [Subject.mk "Math" (Num 100) false]
              [sampleStudent "7" 40 40; sampleStudent "7" 90 90]) as [r|] eqn:E;
    [|discriminate E].
  exists r. split; [reflexivity|].
  destruct (Result_new_last_wins _ _ _ _ _ E) as (Hlook & Hcount & _).
  split; [apply Hlook|apply Hcount].
Defined.

(* ===================================================================== *)
(** * Result: the factory, totals and percentages *)
(* ===================================================================== *)

(** X8.  Raw data without subjects is always refused, whatever the id, the
    title and the students are. *)
Theorem fromRawData_no_subjects (id title : string) (students : list RawStudent) :
  throws (Result.fromRawData (mkRawData id title [] students)).
Proof.
  unfold Result.fromRawData. simpl.
  destruct students as [|sd rest]; simpl.
  - unfold Result.new, Result.validateResult. simpl.
    destruct (_ =? 0)%nat; simpl; [by eexists|].
    destruct (_ =? 0)%nat; simpl; by eexists.
  - unfold Result.buildStudentResult.
    destruct (Student.fromRawData _ _ _ _); simpl; by eexists.
Qed.














(* ===================================================================== *)
(** * Result: ranks and the order of the percentages *)
(* ===================================================================== *)

Lemma countIf_mono {A} (f g : A → bool) (l : list A) :
  (∀ y, f y = true → g y = true) → (countIf f l ≤ countIf g l)%nat.
Proof.
  intros Hfg. induction l as [|y l IH]; [done|].
  rewrite !countIf_cons. specialize (Hfg y).
  destruct (f y), (g y); first [lia | by specialize (Hfg eq_refl)].
Qed.

Lemma countIf_mono_strict {A} (f g : A → bool) (l : list A) (x : A) :
  (∀ y, f y = true → g y = true) →
  x ∈ l → f x = false → g x = true → (countIf f l < countIf g l)%nat.
Proof.
  intros Hfg Hx Hf Hg. induction l as [|y l IH]; [by apply elem_of_nil in Hx|].
  rewrite !countIf_cons. apply elem_of_cons in Hx as [<-|Hx].
  - rewrite Hf, Hg. pose proof (countIf_mono f g l Hfg). lia.
  - specialize (IH Hx). specialize (Hfg y).
    destruct (f y), (g y); first [lia | by specialize (Hfg eq_refl)].
Qed.

Lemma countIf_length {A} (f : A → bool) (l : list A) :
  (countIf f l ≤ length l)%nat.
Proof.
  induction l as [|y l IH]; [done|]. rewrite countIf_cons. simpl.
  destruct (f y); lia.
Qed.

Lemma higherCount_lt (x y : StudentResult) (l : list StudentResult) :
  x ∈ l → (pct y < pct x)%Q → (higherCount x l < higherCount y l)%nat.
Proof.
  intros Hx Hlt. unfold higherCount. apply (countIf_mono_strict _ _ l x).
  - intros z Hz. qprop. apply Qlt_bool_true. lra.
  - done.
  - apply Qlt_bool_false. lra.
  - by apply Qlt_bool_true.
Qed.

Lemma higherCount_bound (x : StudentResult) (l : list StudentResult) :
  x ∈ l → (higherCount x l < length l)%nat.
Proof.
  intros Hx. unfold higherCount.
  pose proof (countIf_mono_strict (λ y, Qlt_bool (pct x) (pct y)) (λ _, true) l x
                (λ _ _, eq_refl) Hx) as H.
  rewrite (countIf_all (λ _, true)) in H by by apply Forall_forall.
  apply H; [|done]. apply Qlt_bool_false. lra.
Qed.

Lemma highest_exists (l : list StudentResult) :
  l ≠ [] → ∃ x, x ∈ l ∧ Forall (λ y, (pct y <= pct x)%Q) l.
Proof.
  induction l as [|a l IH]; [done|]. intros _.
  destruct l as [|b l].
  - exists a. split; [left|]. constructor; [lra|constructor].
  - destruct IH as (x & Hx & Hall); [done|].
    destruct (Qlt_le_dec (pct x) (pct a)) as [Hlt|Hle].
    + exists a. split; [left|]. constructor; [lra|].
      eapply Forall_impl; [exact Hall|]. simpl. intros y Hy. lra.
    + exists x. split; [by right|]. by constructor.
Qed.

(** What [calculateRanks] leaves for the students of a Result whose keys
    are distinct. *)
Lemma ranked_elem (r : Result.t) (a : StudentResult) :
  NoDup (JSMap.keys (Result.studentResults r)) →
  a ∈ Result.getStudentResults (Result.calculateRanks r) →
  ∃ a0, a0 ∈ Result.getStudentResults r ∧ pct a = pct a0
        ∧ rank a = Some (1 + higherCount a0 (Result.getStudentResults r)).
Proof.
  intros Hnd Ha. rewrite getStudentResults_calculateRanks in Ha by done.
  apply list_elem_of_fmap in Ha as (a0 & -> & Ha0). by exists a0.
Qed.

(** X10.  After [calculateRanks] every student of the Result has a rank,
    between 1 and the number of students, and, when there are students,
    some student has rank 1. *)
Theorem calculateRanks_range (r : Result.t) :
  constructed r →
  let r' := Result.calculateRanks r in
  Forall (λ sr, ∃ k : nat, rank sr = Some k
                           ∧ (1 ≤ k ≤ Result.getStudentCount r')%nat)
         (Result.getStudentResults r') ∧
  (Result.getStudentResults r ≠ [] →
   ∃ sr, sr ∈ Result.getStudentResults r' ∧ rank sr = Some 1).
Proof.
  intros Hr r'. apply constructed_invariant in Hr as (_ & Hnd & _).
  assert (Hcount : Result.getStudentCount r' = length (Result.getStudentResults r)).
  { unfold Result.getStudentCount, JSMap.size. subst r'.
    rewrite <- (length_fmap snd).
    change (length (Result.getStudentResults (Result.calculateRanks r))
            = length (Result.getStudentResults r)).
    rewrite getStudentResults_calculateRanks by done. apply length_fmap. }
  split.
  - apply Forall_forall. intros a Ha.
    apply ranked_elem in Ha as (a0 & Ha0 & _ & Hrk); [|done].
    eexists. split; [exact Hrk|]. rewrite Hcount.
    pose proof (higherCount_bound a0 _ Ha0). lia.
  - intros Hne. destruct (highest_exists _ Hne) as (x & Hx & Hall).
    exists (setRank x (Some (1 + higherCount x (Result.getStudentResults r)))).
    split.
    + subst r'. rewrite getStudentResults_calculateRanks by done.
      apply list_elem_of_fmap. by exists x.
    + simpl. do 2 f_equal. unfold higherCount. apply countIf_none.
      eapply Forall_impl; [exact Hall|]. simpl. intros y Hy.
      by apply Qlt_bool_false.
Qed.

Lemma sampleClass_constructed : constructed sampleClass.
Proof.
  apply (constructed_new "sample" "Sample" [Subject.mk "Math" (Num 100) false]
           [sampleStudent "001" 85 85; sampleStudent "002" 85 85;
            sampleStudent "003" 75 75]).
  vm_compute. reflexivity.
Defined.

(** An instance: the class of three. *)
Lemma calculateRanks_range_witness :
  ∃ sr, sr ∈ Result.getStudentResults (Result.calculateRanks sampleClass)
        ∧ rank sr = Some 1.
Proof.
  pose proof (calculateRanks_range sampleClass sampleClass_constructed) as H.
  cbv zeta in H. destruct H as [_ H]. apply H. discriminate.
Defined.

Lemma ranked_follows (r : Result.t) (a b : StudentResult)
    (ka kb : nat) :
  constructed r →
  a ∈ Result.getStudentResults (Result.calculateRanks r) →
  b ∈ Result.getStudentResults (Result.calculateRanks r) →
  rank a = Some ka → rank b = Some kb →
  ((ka < kb)%nat ↔ (pct b < pct a)%Q) ∧ (ka = kb ↔ (pct a == pct b)%Q).
Proof.
  intros Hr Ha Hb Hka Hkb. apply constructed_invariant in Hr as (_ & Hnd & _).
  apply ranked_elem in Ha as (a0 & Ha0 & Hpa & Hra); [|done].
  apply ranked_elem in Hb as (b0 & Hb0 & Hpb & Hrb); [|done].
  rewrite Hka in Hra. rewrite Hkb in Hrb.
  injection Hra as ->. injection Hrb as ->. rewrite Hpa, Hpb.
  set (l := Result.getStudentResults r) in *.
  assert (Hlt : ∀ x y, x ∈ l → (pct y < pct x)%Q →
                       (higherCount x l < higherCount y l)%nat)
    by (intros; by apply higherCount_lt).
  assert (Heq : ∀ x y, (pct x == pct y)%Q → higherCount x l = higherCount y l)
    by (intros; by apply higherCount_pct).
  destruct (Q_dec (pct a0) (pct b0)) as [[H|H]|H].
  - pose proof (Hlt b0 a0 Hb0 H). split; split; intros; try lia; try lra.
  - pose proof (Hlt a0 b0 Ha0 H). split; split; intros; try lia; try lra.
  - pose proof (Heq a0 b0 H). split; split; intros; try lia; try lra.
Qed.

(** X11.  The ranks that [calculateRanks] assigns follow the percentages:
    of two students the one with the strictly higher percentage has the
    strictly smaller rank, and two students have the same rank exactly when
    their percentages are equal. *)
Theorem calculateRanks_follows_percentage (r : Result.t) (a b : StudentResult)
    (ka kb : nat) :
  constructed r →
  a ∈ Result.getStudentResults (Result.calculateRanks r) →
  b ∈ Result.getStudentResults (Result.calculateRanks r) →
  rank a = Some ka → rank b = Some kb →
  ((ka < kb)%nat ↔ (pct b < pct a)%Q) ∧ (ka = kb ↔ (pct a == pct b)%Q).
Proof. apply ranked_follows. Qed.

(** An instance: in the class of three, the students at 85 come before
    the student at 75. *)
Lemma calculateRanks_follows_percentage_witness :
  ((1 < 3)%nat ↔ (pct (setRank (sampleStudent "003" 75 75) (Some 3%nat))
                  < pct (setRank (sampleStudent "001" 85 85) (Some 1%nat)))%Q).
Proof.
  apply (calculateRanks_follows_percentage sampleClass
           (setRank (sampleStudent "001" 85 85) (Some 1))
           (setRank (sampleStudent "003" 75 75) (Some 3)) 1 3).
  - exact sampleClass_constructed.
  - vm_compute. left.
  - vm_compute. right. right. left.
  - reflexivity.
  - reflexivity.
Defined.

(* ===================================================================== *)
(** * Result: the students by rank *)
(* ===================================================================== *)

Lemma StronglySorted_weaken_elem {A} (R1 R2 : A → A → Prop) (l : list A) :
  (∀ a b, a ∈ l → b ∈ l → R1 a b → R2 a b) →
  StronglySorted R1 l → StronglySorted R2 l.
Proof.
  intros HR Hs. induction Hs as [|a l Hs IH Hall]; constructor.
  - apply IH. intros x y Hx Hy. apply HR; by right.
  - apply Forall_forall. intros b Hb. rewrite Forall_forall in Hall.
    apply HR; [left|by right|by apply Hall].
Qed.

Lemma filter_all {A} (P : A → Prop) `{∀ x, Decision (P x)} (l : list A) :
  Forall P l → filter P l = l.
Proof.
  induction 1 as [|x l Hx _ IH]; [done|]. rewrite filter_cons_True by done.
  by rewrite IH.
Qed.

(** The comparator of [getStudentsByRank] orders by the rank. *)
Lemma byRank_goesBefore (a b : StudentResult) :
  goesBefore (λ a b, (inject_Z (Z.of_nat (default 0%nat (rank a)))
                      - inject_Z (Z.of_nat (default 0%nat (rank b))))%Q) a b
  ↔ (rankOf a ≤ rankOf b)%nat.
Proof.
  unfold goesBefore, rankOf. rewrite Qle_bool_iff.
  split.
  - intros H. apply Nat2Z.inj_le. rewrite Zle_Qle. lra.
  - intros H. apply Nat2Z.inj_le in H. rewrite Zle_Qle in H. lra.
Qed.

Lemma getStudentsByRank_Sorted (r : Result.t) :
  StronglySorted (λ a b, (rankOf a ≤ rankOf b)%nat) (Result.getStudentsByRank r).
Proof.
  apply Sorted_StronglySorted; [intros a b c; lia|].
  eapply Sorted_weaken; [|apply sort_Sorted].
  - intros a b. apply byRank_goesBefore.
  - intros a b Hab. apply byRank_goesBefore.
    rewrite byRank_goesBefore in Hab. lia.
Qed.

Lemma getStudentsByRank_ranked (r : Result.t) :
  constructed r →
  Result.getStudentsByRank (Result.calculateRanks r)
    ≡ₚ Result.getStudentResults (Result.calculateRanks r)
  ∧ StronglySorted (λ a b, (pct b <= pct a)%Q)
      (Result.getStudentsByRank (Result.calculateRanks r)).
Proof.
  intros Hr. pose proof (constructed_invariant _ Hr) as (_ & Hnd & _).
  assert (Hperm : Result.getStudentsByRank (Result.calculateRanks r)
                    ≡ₚ Result.getStudentResults (Result.calculateRanks r)).
  { unfold Result.getStudentsByRank. rewrite sort_Permutation.
    rewrite filter_all; [done|].
    apply Forall_forall. intros a Ha.
    apply ranked_elem in Ha as (a0 & _ & _ & ->); done. }
  split; [exact Hperm|].
  eapply StronglySorted_weaken_elem; [|apply getStudentsByRank_Sorted].
  intros a b Ha Hb Hab. rewrite Hperm in Ha, Hb.
  pose proof Ha as (a0 & _ & _ & Hka)%ranked_elem; [|done].
  pose proof Hb as (b0 & _ & _ & Hkb)%ranked_elem; [|done].
  destruct (ranked_follows r b a _ _ Hr Hb Ha Hkb Hka) as [Hlt _].
  unfold rankOf in Hab. rewrite Hka, Hkb in Hab. simpl in Hab.
  apply Qnot_lt_le. intros H. apply Hlt in H. lia.
Qed.

(** X12.  [getStudentsByRank] returns the students that have a rank, each
    once, in ascending order of rank, and leaves out those without one.
    Right after [calculateRanks] these are all the students of the Result,
    in descending order of percentage. *)
Theorem getStudentsByRank_sorted :
  (∀ r,
     Result.getStudentsByRank r
       ≡ₚ filter (λ sr, rank sr ≠ None) (Result.getStudentResults r)
     ∧ StronglySorted (λ a b, (rankOf a ≤ rankOf b)%nat)
                      (Result.getStudentsByRank r)) ∧
  (∀ r,
     constructed r →
     Result.getStudentsByRank (Result.calculateRanks r)
       ≡ₚ Result.getStudentResults (Result.calculateRanks r)
     ∧ StronglySorted (λ a b, (pct b <= pct a)%Q)
                      (Result.getStudentsByRank (Result.calculateRanks r))).
Proof.
  split.
  - intros r. split; [apply sort_Permutation|apply getStudentsByRank_Sorted].
  - apply getStudentsByRank_ranked.
Qed.

(** An instance: the class of three, once ranked. *)
Lemma getStudentsByRank_sorted_witness :
  StronglySorted (λ a b, (pct b <= pct a)%Q)
                 (Result.getStudentsByRank (Result.calculateRanks sampleClass)).
Proof.
  destruct getStudentsByRank_sorted as [_ H].
  apply (H sampleClass sampleClass_constructed).
Defined.

(** X13.  [getTopStudents] returns the first [count] of the students by
    rank, all of them when there are fewer; right after [calculateRanks]
    no student left out has a higher percentage than a student returned.
    A negative [count] leaves out that many students from the end. *)
Theorem getTopStudents_best :
  (∀ r (count : Z),
     constructed r → (0 ≤ count)%Z →
     let r' := Result.calculateRanks r in
     let top := Result.getTopStudents r' count in
     ∃ rest,
       Result.getStudentsByRank r' = (top ++ rest)%list ∧
       length top = Nat.min (Z.to_nat count) (Result.getStudentCount r) ∧
       ∀ a b, a ∈ top → b ∈ rest → (pct b <= pct a)%Q) ∧
  (∀ r (count : Z),
     (count < 0)%Z →
     Result.getTopStudents r count
     = take (length (Result.getStudentsByRank r) - Z.to_nat (- count))
            (Result.getStudentsByRank r)).
Proof.
  split.
  - intros r count Hr Hcount r' top.
    destruct (getStudentsByRank_ranked r Hr) as [Hperm Hsorted].
    fold r' in Hperm, Hsorted.
    assert (Htop : top = take (Z.to_nat count) (Result.getStudentsByRank r')).
    { subst top. unfold Result.getTopStudents, JSArray.sliceTo.
      destruct (count <? 0)%Z eqn:E; [lia|done]. }
    exists (drop (Z.to_nat count) (Result.getStudentsByRank r')).
    split; [by rewrite Htop, take_drop|]. split.
    + rewrite Htop, length_take, Hperm. f_equal.
      pose proof (constructed_invariant _ Hr) as (_ & Hnd & _).
      subst r'. rewrite getStudentResults_calculateRanks by done.
      rewrite length_fmap. unfold Result.getStudentCount, JSMap.size,
        Result.getStudentResults, JSMap.values. by rewrite length_fmap.
    + intros a b Ha Hb. rewrite <- (take_drop (Z.to_nat count)) in Hsorted.
      rewrite <- Htop in Hsorted.
      by apply (StronglySorted_app_1_elem_of _ _ _ a b Hsorted).
  - intros r count Hcount. unfold Result.getTopStudents, JSArray.sliceTo.
    destruct (count <? 0)%Z eqn:E; [|lia]. f_equal. lia.
Qed.

(** An instance: the best two of the class of three. *)
Lemma getTopStudents_best_witness :
  ∃ rest,
    Result.getStudentsByRank (Result.calculateRanks sampleClass)
    = (Result.getTopStudents (Result.calculateRanks sampleClass) 2 ++ rest)%list
    ∧ length (Result.getTopStudents (Result.calculateRanks sampleClass) 2)
      = Nat.min (Z.to_nat 2) (Result.getStudentCount sampleClass).
Proof.
  destruct getTopStudents_best as [H _].
  destruct (H sampleClass 2%Z sampleClass_constructed) as (rest & H1 & H2 & _);
    [lia|].
  exists rest. split; [exact H1|exact H2].
Defined.

(* ===================================================================== *)
(** * ResultCalculator: averages *)
(* ===================================================================== *)

Lemma count_positive (n : nat) : (0 < inject_Z (Z.of_nat (S n)))%Q.
Proof.
  change 0%Q with (inject_Z 0). rewrite <- Zlt_Qlt. lia.
Qed.










(* ===================================================================== *)
(** * ResultCalculator: the highest and the lowest marks *)
(* ===================================================================== *)

Lemma filter_scored_cons name q sr l :
  List.filter (scored name q) (sr :: l)
  = ((if scored name q sr then [sr] else []) ++ List.filter (scored name q) l)%list.
Proof. simpl. by destruct (scored name q sr). Qed.

(** One step of the loop of [findHighestMarksInSubject]. *)
Lemma highestStep_spec name h t sr h1 t1 :
  ResultCalculator.highestStep name (h, t) sr = (h1, t1) →
  (Marks.value h <= Marks.value h1)%Q ∧
  (∀ m, JSMap.get (marks sr) name = Some m → (Marks.value m <= Marks.value h1)%Q) ∧
  t1 = ((if Qeq_bool (Marks.value h1) (Marks.value h) then t else [])
        ++ (if scored name (Marks.value h1) sr then [sr] else []))%list ∧
  (h1 = h ∨ JSMap.get (marks sr) name = Some h1).
Proof.
  unfold ResultCalculator.highestStep, scored, Marks.isGreaterThan,
    Marks.isEqualTo, Marks.getValue.
  destruct (JSMap.get (marks sr) name) as [m|].
  - destruct (Qlt_bool (Marks.value h) (Marks.value m)) eqn:Egt;
      [|destruct (Qeq_bool (Marks.value m) (Marks.value h)) eqn:Eeq];
      intros [= <- <-]; qprop.
    + split; [lra|]. split; [by intros ? [= <-]; lra|]. split; [|by right].
      rewrite (proj2 (Qeq_bool_false _ _)) by lra.
      by rewrite (proj2 (Qeq_bool_iff _ _)) by lra.
    + split; [lra|]. split; [by intros ? [= <-]; lra|]. split; [|by left].
      rewrite (proj2 (Qeq_bool_iff (Marks.value h) (Marks.value h))) by lra.
      by rewrite (proj2 (Qeq_bool_iff _ _) Eeq).
    + split; [lra|]. split; [by intros ? [= <-]; lra|]. split; [|by left].
      rewrite (proj2 (Qeq_bool_iff (Marks.value h) (Marks.value h))) by lra.
      rewrite (proj2 (Qeq_bool_false _ _) Eeq). by rewrite app_nil_r.
  - intros [= <- <-]. split; [lra|]. split; [done|]. split; [|by left].
    rewrite (proj2 (Qeq_bool_iff (Marks.value h) (Marks.value h))) by lra.
    by rewrite app_nil_r.
Qed.

(** The loop of [findHighestMarksInSubject], from any state: the highest
    marks do not go down, they bound the marks of the students seen, and
    the students kept are those kept before, if the highest marks are still
    the same, followed by the students seen that have these marks. *)
Lemma foldl_highestStep (name : string) (l : list StudentResult) :
  ∀ (h : Marks.t) (t : list StudentResult) (h' : Marks.t) (t' : list StudentResult),
    foldl (ResultCalculator.highestStep name) (h, t) l = (h', t') →
    (Marks.value h <= Marks.value h')%Q ∧
    (∀ sr m, sr ∈ l → JSMap.get (marks sr) name = Some m →
             (Marks.value m <= Marks.value h')%Q) ∧
    t' = ((if Qeq_bool (Marks.value h') (Marks.value h) then t else [])
          ++ List.filter (scored name (Marks.value h')) l)%list ∧
    (h' = h ∨ ∃ sr, sr ∈ l ∧ JSMap.get (marks sr) name = Some h').
Proof.
  induction l as [|sr l IH]; intros h t h' t'.
  - simpl. intros [= <- <-]. split; [lra|]. split; [by intros ? ? ?%elem_of_nil|].
    split; [|by left].
    rewrite (proj2 (Qeq_bool_iff _ _)) by lra. by rewrite app_nil_r.
  - cbn [foldl].
    destruct (ResultCalculator.highestStep name (h, t) sr) as [h1 t1] eqn:Est.
    apply highestStep_spec in Est as (S1 & S2 & S3 & S4).
    intros (H1 & H2 & H3 & H4)%IH.
    split; [lra|]. split; [|split].
    + intros sr' m [->|Hin]%elem_of_cons Hm; [|by eapply H2].
      specialize (S2 _ Hm). lra.
    + rewrite H3, S3, filter_scored_cons, app_assoc. f_equal.
      unfold scored in *.
      destruct (Qeq_bool (Marks.value h') (Marks.value h1)) eqn:E1.
      * destruct (Qeq_bool (Marks.value h1) (Marks.value h)) eqn:E2;
          destruct (Qeq_bool (Marks.value h') (Marks.value h)) eqn:E3;
          qprop; try (exfalso; lra);
          (destruct (JSMap.get (marks sr) name) as [m|]; [|done]);
          destruct (Qeq_bool (Marks.getValue m) (Marks.value h1)) eqn:E4;
          destruct (Qeq_bool (Marks.getValue m) (Marks.value h')) eqn:E5;
          qprop; try done; exfalso; lra.
      * qprop.
        rewrite (proj2 (Qeq_bool_false (Marks.value h') (Marks.value h))) by lra.
        destruct (JSMap.get (marks sr) name) as [m|]; [|done].
        specialize (S2 m eq_refl).
        rewrite (proj2 (Qeq_bool_false (Marks.getValue m) (Marks.value h')));
          [done|]. unfold Marks.getValue. lra.
    + destruct H4 as [->|(sr' & ? & ?)].
      * destruct S4 as [->|S4]; [by left|]. right. exists sr. split; [left|done].
      * right. exists sr'. split; [by right|done].
Qed.

(** X16.  [findHighestMarksInSubject] returns marks that are at least the
    marks of every student in the subject, and at least 0; the students it
    returns are exactly the students of the Result whose marks in the
    subject equal the marks returned, in the order of the Result.  The
    marks returned are those of some student, or the initial 0. *)
Theorem findHighestMarksInSubject_spec (r : Result.t) (subjectName : string) :
  ∃ highest students,
    ResultCalculator.findHighestMarksInSubject r subjectName
      = Ok (highest, students) ∧
    (0 <= Marks.getValue highest)%Q ∧
    (∀ sr m, sr ∈ Result.getStudentResults r →
             JSMap.get (marks sr) subjectName = Some m →
             (Marks.getValue m <= Marks.getValue highest)%Q) ∧
    students = List.filter (scored subjectName (Marks.getValue highest))
                           (Result.getStudentResults r) ∧
    (highest = Marks.mk 0
     ∨ ∃ sr, sr ∈ Result.getStudentResults r
             ∧ JSMap.get (marks sr) subjectName = Some highest).
Proof.
  unfold ResultCalculator.findHighestMarksInSubject.
  change Marks.zero with (Ok (Marks.mk 0)). simpl.
  destruct (foldl (ResultCalculator.highestStep subjectName) (Marks.mk 0, [])
                  (Result.getStudentResults r)) as [h' t'] eqn:E.
  apply foldl_highestStep in E as (H1 & H2 & H3 & H4).
  exists h', t'. split; [done|]. split; [exact H1|]. split; [exact H2|].
  split; [|exact H4]. rewrite H3. by destruct (Qeq_bool _ _).
Qed.

Lemma filter_unscored name q (l : list StudentResult) :
  Forall (λ sr, scored name q sr = false) l → List.filter (scored name q) l = [].
Proof. induction 1 as [|sr l Hsr _ IH]; simpl; [done|]. by rewrite Hsr. Qed.

Lemma scored_get name q sr m :
  JSMap.get (marks sr) name = Some m →
  scored name q sr = Qeq_bool (Marks.value m) q.
Proof. unfold scored. by intros ->. Qed.

Lemma scored_none name q sr :
  JSMap.get (marks sr) name = None → scored name q sr = false.
Proof. unfold scored. by intros ->. Qed.

Lemma lowestStep_found name l out sr :
  lowestFound name l out →
  lowestFound name (l ++ [sr]) (ResultCalculator.lowestStep name out sr).
Proof.
  destruct out as [lo t]. unfold lowestFound, ResultCalculator.lowestStep. simpl.
  destruct (JSMap.get (marks sr) name) as [m|] eqn:Em.
  - destruct lo as [lowest|].
    + intros (Hb & Ht & sr0 & Hin0 & Hsr0).
      unfold Marks.getValue.
      destruct (Qlt_bool (Marks.value m) (Marks.value lowest)) eqn:Elt;
        [|destruct (Qeq_bool (Marks.value m) (Marks.value lowest)) eqn:Eeq];
        simpl; qprop.
      * split; [|split].
        -- intros sr' m' [Hin|Hin%list_elem_of_singleton]%elem_of_app Hm';
          [|subst sr'].
           ++ specialize (Hb _ _ Hin Hm'). lra.
           ++ rewrite Em in Hm'. injection Hm' as <-. lra.
        -- rewrite List.filter_app, filter_unscored.
           ++ simpl. rewrite (scored_get _ _ _ _ Em).
              by rewrite (proj2 (Qeq_bool_iff _ _)) by lra.
           ++ apply Forall_forall. intros sr' Hin. unfold scored.
              destruct (JSMap.get (marks sr') name) as [m'|] eqn:Em'; [|done].
              specialize (Hb _ _ Hin Em'). apply Qeq_bool_false.
              unfold Marks.getValue. lra.
        -- exists sr. split; [apply elem_of_app; right; left|done].
      * split; [|split].
        -- intros sr' m' [Hin|Hin%list_elem_of_singleton]%elem_of_app Hm';
          [|subst sr'].
           ++ by apply (Hb _ _ Hin).
           ++ rewrite Em in Hm'. injection Hm' as <-. lra.
        -- rewrite List.filter_app, Ht. simpl. rewrite (scored_get _ _ _ _ Em).
           by rewrite (proj2 (Qeq_bool_iff _ _) Eeq).
        -- exists sr0. split; [apply elem_of_app; by left|done].
      * split; [|split].
        -- intros sr' m' [Hin|Hin%list_elem_of_singleton]%elem_of_app Hm';
          [|subst sr'].
           ++ by apply (Hb _ _ Hin).
           ++ rewrite Em in Hm'. injection Hm' as <-. lra.
        -- rewrite List.filter_app, Ht. simpl. rewrite (scored_get _ _ _ _ Em).
           rewrite (proj2 (Qeq_bool_false _ _) Eeq).
           by rewrite app_nil_r.
        -- exists sr0. split; [apply elem_of_app; by left|done].
    + intros [Hnone Ht]. simpl. split; [|split].
      * intros sr' m' [Hin|Hin%list_elem_of_singleton]%elem_of_app Hm';
          [|subst sr'].
        -- rewrite Forall_forall in Hnone. rewrite (Hnone _ Hin) in Hm'. done.
        -- rewrite Em in Hm'. injection Hm' as <-. lra.
      * rewrite List.filter_app, filter_unscored.
        -- simpl. rewrite (scored_get _ _ _ _ Em).
           by rewrite (proj2 (Qeq_bool_iff _ _)) by lra.
        -- eapply Forall_impl; [exact Hnone|]. simpl. intros sr' Hsr'.
           unfold scored. by rewrite Hsr'.
      * exists sr. split; [apply elem_of_app; right; left|done].
  - destruct lo as [lowest|]; simpl.
    + intros (Hb & Ht & sr0 & Hin0 & Hsr0). split; [|split].
      * intros sr' m' [Hin|Hin%list_elem_of_singleton]%elem_of_app Hm';
          [|subst sr'].
        -- by apply (Hb _ _ Hin).
        -- congruence.
      * rewrite List.filter_app, Ht. simpl. rewrite (scored_none _ _ _ Em).
        by rewrite app_nil_r.
      * exists sr0. split; [apply elem_of_app; by left|done].
    + intros [Hnone Ht]. split; [|done].
      apply Forall_app. split; [done|]. by constructor.
Qed.

Lemma foldl_lowestStep name (l : list StudentResult) :
  lowestFound name l (foldl (ResultCalculator.lowestStep name) (None, []) l).
Proof.
  induction l as [|sr l IH] using rev_ind.
  - simpl. unfold lowestFound. simpl. done.
  - rewrite foldl_app. simpl. by apply lowestStep_found.
Qed.

(** X17.  [findLowestMarksInSubject] returns marks that are at most the
    marks of every student in the subject, and the students it returns are
    exactly the students of the Result whose marks in the subject equal
    the marks returned, in the order of the Result.  When some student has
    marks in the subject, the marks returned are those of a student;
    when none has, they are 0 and no student is returned. *)
Theorem findLowestMarksInSubject_spec (r : Result.t) (subjectName : string) :
  ∃ lowest students,
    ResultCalculator.findLowestMarksInSubject r subjectName
      = Ok (lowest, students) ∧
    (∀ sr m, sr ∈ Result.getStudentResults r →
             JSMap.get (marks sr) subjectName = Some m →
             (Marks.getValue lowest <= Marks.getValue m)%Q) ∧
    students = List.filter (scored subjectName (Marks.getValue lowest))
                           (Result.getStudentResults r) ∧
    ((∃ sr, sr ∈ Result.getStudentResults r
            ∧ is_Some (JSMap.get (marks sr) subjectName)) →
     ∃ sr, sr ∈ Result.getStudentResults r
           ∧ JSMap.get (marks sr) subjectName = Some lowest) ∧
    (Forall (λ sr, JSMap.get (marks sr) subjectName = None)
            (Result.getStudentResults r) →
     lowest = Marks.mk 0 ∧ students = []).
Proof.
  unfold ResultCalculator.findLowestMarksInSubject.
  change Marks.zero with (Ok (Marks.mk 0)).
  pose proof (foldl_lowestStep subjectName (Result.getStudentResults r)) as Hf.
  destruct (Result.getStudentResults r) as [|sr0 l0] eqn:El.
  { simpl. exists (Marks.mk 0), []. split; [done|].
    split; [by intros ? ? ?%elem_of_nil|]. split; [done|].
    split; [|done]. by intros (? & ?%elem_of_nil & _). }
  rewrite <- El in *. assert (Hlen : (length (Result.getStudentResults r) =? 0)%nat = false)
    by by rewrite El.
  rewrite Hlen.
  destruct (foldl (ResultCalculator.lowestStep subjectName) (None, [])
                  (Result.getStudentResults r)) as [[lowest|] t] eqn:E;
    unfold lowestFound in Hf; simpl in Hf.
  - destruct Hf as (Hb & Ht & Hsr). simpl.
    exists lowest, t. split; [done|]. split; [exact Hb|]. split; [exact Ht|].
    split; [done|]. intros Hnone. destruct Hsr as (sr & Hin & Hsr).
    rewrite Forall_forall in Hnone. rewrite (Hnone _ Hin) in Hsr. done.
  - destruct Hf as [Hnone ->]. simpl.
    exists (Marks.mk 0), []. split; [done|]. split; [|split; [|split]].
    + intros sr m Hin Hm. rewrite Forall_forall in Hnone.
      rewrite (Hnone _ Hin) in Hm. done.
    + symmetry. apply filter_unscored.
      eapply Forall_impl; [exact Hnone|]. simpl. intros sr Hsr.
      unfold scored. by rewrite Hsr.
    + intros (sr & Hin & [m Hm]). rewrite Forall_forall in Hnone.
      rewrite (Hnone _ Hin) in Hm. done.
    + done.
Qed.

(** An instance: in the class of three the lowest marks in "Math" are
    those of the third student. *)
Lemma findLowestMarksInSubject_spec_witness :
  ∃ lowest students,
    ResultCalculator.findLowestMarksInSubject sampleClass "Math"
      = Ok (lowest, students) ∧
    ∃ sr, sr ∈ Result.getStudentResults sampleClass
          ∧ JSMap.get (marks sr) "Math" = Some lowest.
Proof.
  destruct (findLowestMarksInSubject_spec sampleClass "Math")
    as (lowest & students & H & _ & _ & Hsome & _).
  exists lowest, students. split; [exact H|]. apply Hsome.
  exists (sampleStudent "001" 85 85). split; [left|by eexists].
Defined.

(** An instance: in the class of three the highest marks in "Math" are at
    least the 85 of the first student. *)
Lemma findHighestMarksInSubject_spec_witness :
  ∃ highest students,
    ResultCalculator.findHighestMarksInSubject sampleClass "Math"
      = Ok (highest, students) ∧
    (Marks.getValue (Marks.mk 85) <= Marks.getValue highest)%Q.
Proof.
  destruct (findHighestMarksInSubject_spec sampleClass "Math")
    as (highest & students & H & _ & Hb & _).
  exists highest, students. split; [exact H|].
  apply (Hb (sampleStudent "001" 85 85)); [left|reflexivity].
Defined.

(* ===================================================================== *)
(** * ResultCalculator: the grade distribution *)
(* ===================================================================== *)

Lemma getLetterGrade_cases (p : Percentage.t) :
  Percentage.getLetterGrade p ∈ letterGrades.
Proof.
  unfold Percentage.getLetterGrade, letterGrades.
  repeat (destruct (Qle_bool _ _); [find_elem|]). find_elem.
Qed.

Lemma countGrade_lookup (d : gmap string number) (sr : StudentResult) (k : string) :
  ResultCalculator.countGrade d sr !! k
  = if String.eqb (Percentage.getLetterGrade (percentage sr)) k
    then Some (Number.add
                 match d !! k with
                 | Some n => if Number.truthy n then n else Num 0
                 | None => Num 0
                 end (Num 1))
    else d !! k.
Proof.
  unfold ResultCalculator.countGrade.
  destruct (String.eqb _ k) eqn:E.
  - apply String.eqb_eq in E. subst k. by rewrite lookup_insert_eq.
  - apply String.eqb_neq in E. by rewrite lookup_insert_ne.
Qed.

Lemma foldl_countGrade_lookup (l : list StudentResult) :
  ∀ (d : gmap string number) (k : string) (q : Q),
    d !! k = Some (Num q) →
    ∃ q', foldl ResultCalculator.countGrade d l !! k = Some (Num q')
          ∧ (q' == q + inject_Z (Z.of_nat (gradeCount k l)))%Q.
Proof.
  induction l as [|sr l IH]; intros d k q Hd; cbn [foldl].
  - exists q. split; [done|]. unfold gradeCount, countIf. simpl.
    change (inject_Z (Z.of_nat 0)) with 0%Q. lra.
  - pose proof (countGrade_lookup d sr k) as Hstep. rewrite Hd in Hstep.
    unfold gradeCount. rewrite countIf_cons. fold (gradeCount k l).
    destruct (String.eqb _ k).
    + simpl in Hstep.
      destruct (Qeq_bool q 0) eqn:E0; simpl in Hstep;
        destruct (IH _ _ _ Hstep) as (q' & Hq' & Heq);
        exists q'; (split; [done|]); rewrite Heq, Nat2Z.inj_add, inject_Z_plus;
        change (inject_Z (Z.of_nat 1)) with 1%Q; qprop; lra.
    + destruct (IH _ _ _ Hstep) as (q' & Hq' & Heq).
      exists q'. split; [done|]. rewrite Heq. simpl.
      change (inject_Z (Z.of_nat 0)) with 0%Q. lra.
Qed.

Lemma foldl_countGrade_absent (l : list StudentResult) :
  ∀ (d : gmap string number) (k : string),
    k ∉ letterGrades → d !! k = None →
    foldl ResultCalculator.countGrade d l !! k = None.
Proof.
  induction l as [|sr l IH]; intros d k Hk Hd; cbn [foldl]; [done|].
  apply IH; [done|]. rewrite countGrade_lookup.
  destruct (String.eqb _ k) eqn:E; [|done].
  apply String.eqb_eq in E. subst k. destruct Hk. apply getLetterGrade_cases.
Qed.

(** X18.  The grade distribution holds, under each of the seven letter
    grades, the number of students of the Result whose percentage has that
    grade, and nothing under any other key; the seven counts add up to the
    number of students. *)
Theorem calculateGradeDistribution_counts (r : Result.t) :
  let d := ResultCalculator.calculateGradeDistribution r in
  let l := Result.getStudentResults r in
  Forall (λ g, tallies d g (gradeCount g l)) letterGrades ∧
  (∀ k, k ∉ letterGrades → d !! k = None) ∧
  sum_list ((λ g, gradeCount g l) <$> letterGrades) = length l.
Proof.
  intros d l. subst d. unfold ResultCalculator.calculateGradeDistribution.
  fold l. set (d0 := ({[ "A+" := Num 0; "A" := Num 0; "B" := Num 0; "C" := Num 0;
                         "D" := Num 0; "E" := Num 0; "F" := Num 0 ]}
                       : gmap string number)).
  split; [|split].
  - apply Forall_forall. intros g Hg.
    assert (H0 : d0 !! g = Some (Num 0)).
    { unfold letterGrades in Hg. subst d0.
      repeat (apply elem_of_cons in Hg as [->|Hg]; [vm_compute; reflexivity|]).
      by apply elem_of_nil in Hg. }
    destruct (foldl_countGrade_lookup l d0 g 0 H0) as (q & Hq & Heq).
    exists q. split; [done|]. rewrite Heq. lra.
  - intros k Hk. apply foldl_countGrade_absent; [done|].
    subst d0. unfold letterGrades in Hk.
    rewrite !not_elem_of_cons in Hk. destruct Hk as (?&?&?&?&?&?&?&_).
    rewrite !lookup_insert_ne by congruence. apply lookup_singleton_ne. congruence.
  - induction l as [|sr l IH]; [done|].
    unfold gradeCount in *. unfold letterGrades in *. csimpl in *.
    rewrite !countIf_cons.
    pose proof (getLetterGrade_cases (percentage sr)) as Hc.
    unfold letterGrades in Hc.
    repeat (apply elem_of_cons in Hc as [->|Hc]; [simpl; lia|]).
    by apply elem_of_nil in Hc.
Qed.

(** An instance: no key but the seven grades is present. *)
Lemma calculateGradeDistribution_counts_witness :
  ResultCalculator.calculateGradeDistribution sampleClass !! "A-" = None.
Proof.
  pose proof (calculateGradeDistribution_counts sampleClass) as H.
  cbv zeta in H. destruct H as (_ & H & _). apply H.
  unfold letterGrades. rewrite !not_elem_of_cons.
  repeat split; try discriminate. apply not_elem_of_nil.
Defined.

(* ===================================================================== *)
(** * ResultCalculator: every student is counted once *)
(* ===================================================================== *)

Lemma defaultDistribution_tallies (r : Result.t) (k : string)
    (f : StudentResult → bool) :
  k ∈ defaultKeys →
  (∀ sr, occurrences k (hitsOf ResultCalculator.defaultRanges sr)
         = if f sr then 1 else 0) →
  tallies (ResultCalculator.calculateMarksDistribution r
             ResultCalculator.defaultRanges)
          k (countIf f (Result.getStudentResults r)).
Proof.
  intros Hk Hocc. unfold ResultCalculator.calculateMarksDistribution.
  set (d0 := foldl _ ∅ _).
  assert (H0 : d0 !! k = Some (Num 0)).
  { subst d0. unfold defaultKeys in Hk.
    repeat (apply elem_of_cons in Hk as [->|Hk]; [vm_compute; reflexivity|]).
    by apply elem_of_nil in Hk. }
  destruct (foldl_countStudent_lookup ResultCalculator.defaultRanges
              (Result.getStudentResults r) d0 k 0 H0) as (q & Hq & Heq).
  exists q. split; [done|]. rewrite Heq.
  rewrite (sum_indicator f) by done. lra.
Qed.

(** X19.  Under the default ranges, when every percentage of the Result
    lies in [0, 100], the five counts of the marks distribution add up to
    the number of students: every student is counted under exactly one
    range key. *)
Theorem calculateMarksDistribution_total (r : Result.t) :
  Forall (λ sr, (0 <= pct sr <= 100)%Q) (Result.getStudentResults r) →
  let d := ResultCalculator.calculateMarksDistribution r
             ResultCalculator.defaultRanges in
  let counts := (λ f, countIf f (Result.getStudentResults r)) <$> defaultBuckets in
  Forall2 (tallies d) defaultKeys counts ∧
  sum_list counts = length (Result.getStudentResults r).
Proof.
  intros Hall d counts. split.
  - subst d counts. unfold defaultKeys, defaultBuckets. csimpl.
    constructor; [|constructor; [|constructor; [|constructor;
      [|constructor; [|constructor]]]]];
      apply defaultDistribution_tallies; try (unfold defaultKeys; find_elem);
      intros sr; destruct (occurrences_default sr) as (H1 & H2 & H3 & H4 & H5);
      done.
  - subst counts. unfold defaultBuckets. csimpl.
    induction Hall as [|sr l Hsr _ IH]; [done|].
    rewrite !countIf_cons. simpl length. rewrite <- IH.
    bucket_cases sr; simpl; try lia; exfalso; lra.
Qed.

(** An instance: the class of three. *)
Lemma calculateMarksDistribution_total_witness :
  sum_list ((λ f, countIf f (Result.getStudentResults sampleClass))
              <$> defaultBuckets)
  = length (Result.getStudentResults sampleClass).
Proof.
  apply (calculateMarksDistribution_total sampleClass).
  repeat constructor; vm_compute; discriminate.
Defined.

(* ===================================================================== *)
(** * ValidationService: the summary of a batch *)
(* ===================================================================== *)

Lemma mapR_length {A B} (f : A → result B) (l : list A) (k : list B) :
  mapR f l = Ok k → length k = length l.
Proof. intros H%mapR_Forall2. symmetry. by eapply Forall2_length. Qed.

Lemma filter_partition_length {A} (f : A → bool) (l : list A) :
  (length (filter (λ x, f x = true) l) + length (filter (λ x, f x = false) l)
   = length l)%nat.
Proof.
  induction l as [|x l IH]; [done|]. rewrite !filter_cons.
  destruct (f x) eqn:E; repeat case_decide; try done; simpl; lia.
Qed.

Lemma filter_length_le {A} (P : A → Prop) `{∀ x, Decision (P x)} (l : list A) :
  (length (filter P l) ≤ length l)%nat.
Proof. apply sublist_length, sublist_filter. Qed.

(** X20.  In the result of [validateData] there is one row result for each
    row of the sheet, in order, each carrying its index; a row result is
    valid exactly when it has no errors; the valid and the invalid rows add
    up to the total, which is the number of rows of the sheet; and the
    rows with warnings are at most that many. *)
Theorem validateData_summary
    (rows : list (gmap string value))
    (mappings : list ValidationService.ColumnMapping)
    (customRules : list ValidationService.ValidationRule)
    (res : ValidationService.DataValidationResult) :
  ValidationService.validateData rows mappings customRules = Ok res →
  let s := ValidationService.summary res in
  ValidationService.totalRows s = length rows ∧
  length (ValidationService.rowResults res) = length rows ∧
  (ValidationService.validRows s + ValidationService.invalidRows s
   = ValidationService.totalRows s)%nat ∧
  (ValidationService.warningRows s ≤ ValidationService.totalRows s)%nat ∧
  (∀ (i : nat) rr,
     ValidationService.rowResults res !! i = Some rr →
     ValidationService.rowIndex rr = i ∧
     (ValidationService.isValid rr = true ↔ ValidationService.errors rr = [])).
Proof.
  unfold ValidationService.validateData.
  destruct (ValidationService.transformRowsForValidation rows mappings)
    as [trows|] eqn:Et; simpl; [|done].
  destruct (ValidationService.analyzeDuplicates trows) as [dups|]; simpl; [|done].
  intros [= <-]. simpl. apply mapR_length in Et.
  split; [done|]. split; [by rewrite length_imap|]. split; [|split].
  - rewrite filter_partition_length. by rewrite length_imap.
  - etrans; [apply filter_length_le|]. by rewrite length_imap.
  - intros i rr Hi. apply list_lookup_imap_Some in Hi as (row & _ & ->).
    unfold ValidationService.validateRow.
    destruct (foldl _ _ _) as [errors warnings]. simpl. split; [done|].
    rewrite Nat.eqb_eq. by destruct errors.
Qed.

(** An instance: the sample sheet has three rows. *)
Lemma validateData_summary_witness :
  ∃ res,
    ValidationService.validateData sampleSheet sampleMappings [] = Ok res ∧
    ValidationService.totalRows (ValidationService.summary res) = 3%nat.
Proof.
  destruct (ValidationService.validateData sampleSheet sampleMappings [])
    as [res|msg] eqn:E.
  - exists res. split; [reflexivity|].
    pose proof (validateData_summary _ _ _ _ E) as H. cbv zeta in H.
    destruct H as (H & _). exact H.
  - unfold ValidationService.validateData in E.
    rewrite transform_sampleSheet in E. discriminate E.
Defined.

(* ===================================================================== *)
(** * ValidationService: when the validation of a batch fails *)
(* ===================================================================== *)

Lemma isOk_false_throws {A} (m : result A) : isOk m = false ↔ throws m.
Proof.
  destruct m; simpl; split; try done.
  - by intros [? ?].
  - intros _. by eexists.
Qed.

Lemma marksClobbered_cons m ms :
  marksClobbered (m :: ms) ↔
  (ValidationService.dataField m = "marks"
   ∧ Exists (λ m', JSString.startsWith "subject_" (ValidationService.dataField m')
                   = true) ms)
  ∨ marksClobbered ms.
Proof.
  unfold marksClobbered. split.
  - intros (i & j & mi & mj & Hij & Hi & Hj & Hmi & Hmj).
    destruct j as [|j]; [lia|]. simpl in Hj.
    destruct i as [|i]; simpl in Hi.
    + injection Hi as ->. left. split; [done|].
      apply Exists_exists. exists mj. split; [|done].
      by eapply list_elem_of_lookup_2.
    + right. exists i, j, mi, mj. repeat split; try done. lia.
  - intros [[Hm Hex]|(i & j & mi & mj & Hij & Hi & Hj & Hmi & Hmj)].
    + apply Exists_exists in Hex as (mj & Hin & Hmj).
      apply list_elem_of_lookup_1 in Hin as [j Hj].
      exists 0%nat, (S j), m, mj. repeat split; try done. lia.
    + exists (S i), (S j), mi, mj. repeat split; try done. lia.
Qed.

Lemma subjectNameOf_field (name : string) :
  JSString.startsWith "subject_" ("subject_" +:+ name) = true
  ∧ subjectNameOf ("subject_" +:+ name) = name.
Proof.
  split; [by destruct name|]. unfold subjectNameOf.
  change ("subject_" +:+ name) with (String "s" (String "u" (String "b" (String "j"
    (String "e" (String "c" (String "t" (String "_" name)))))))).
  simpl. rewrite Nat.sub_0_r.
  induction name as [|c name IH]; simpl; [done|]. by rewrite IH.
Qed.

(** A data field that starts with "subject_" is that prefix followed by
    the name of the subject. *)
Lemma startsWith_subject (dataField : string) :
  JSString.startsWith "subject_" dataField = true →
  dataField = "subject_" +:+ subjectNameOf dataField.
Proof.
  unfold JSString.startsWith. intros H.
  do 8 (destruct dataField as [|? dataField]; [discriminate H|];
        cbn [String.prefix] in H;
        match type of H with
        | context [ascii_dec ?x ?y] => destruct (ascii_dec x y) as [<-|]; [|done]
        end).
  change (String "s" (String "u" (String "b" (String "j"
    (String "e" (String "c" (String "t" (String "_" dataField))))))))
    with ("subject_" +:+ dataField).
  by rewrite (proj2 (subjectNameOf_field dataField)).
Qed.

Lemma subjectNameOf_proto (dataField : string) :
  JSString.startsWith "subject_" dataField = true →
  dataField ≠ "subject___proto__" →
  String.eqb (subjectNameOf dataField) "__proto__" = false.
Proof.
  intros Hs Hne. apply String.eqb_neq. intros Hp. apply Hne.
  by rewrite (startsWith_subject _ Hs), Hp.
Qed.

(** One mapping, by cases. *)
Lemma applyMapping_subject row transformed mapping :
  JSString.startsWith "subject_" (ValidationService.dataField mapping) = true →
  ValidationService.dataField mapping ≠ "subject___proto__" →
  match ValidationService.prop transformed "marks" with
  | Obj marks =>
      ∃ marks',
        ValidationService.applyMapping row transformed mapping
        = Ok (<["marks" := Obj marks']> transformed)
  | Cell _ => throws (ValidationService.applyMapping row transformed mapping)
  end.
Proof.
  intros Hs Hne. unfold ValidationService.applyMapping. rewrite Hs.
  pose proof (subjectNameOf_proto _ Hs Hne) as Hp. unfold subjectNameOf in Hp.
  rewrite Hp.
  destruct (ValidationService.prop transformed "marks") as [[| | | |]|marks];
    by eexists.
Qed.

Lemma applyMapping_field row transformed mapping :
  JSString.startsWith "subject_" (ValidationService.dataField mapping) = false →
  ∃ transformed',
    ValidationService.applyMapping row transformed mapping = Ok transformed'
    ∧ ValidationService.prop transformed' "marks"
      = if String.eqb (ValidationService.dataField mapping) "marks"
        then Cell (default VUndefined (row !! ValidationService.excelColumn mapping))
        else ValidationService.prop transformed "marks".
Proof.
  intros Hs. unfold ValidationService.applyMapping. rewrite Hs.
  destruct (String.eqb (ValidationService.dataField mapping) "__proto__") eqn:Ep.
  - exists transformed. split; [done|].
    apply String.eqb_eq in Ep. by rewrite Ep.
  - eexists. split; [done|]. unfold ValidationService.prop.
    destruct (String.eqb (ValidationService.dataField mapping) "marks") eqn:Em.
    + apply String.eqb_eq in Em. by rewrite Em, lookup_insert_eq.
    + apply String.eqb_neq in Em. by rewrite lookup_insert_ne.
Qed.

(** Once a mapping has put a cell value under "marks", the rest succeeds
    exactly when no mapping to a subject follows. *)
Lemma applyMapping_cell row (mappings : list ValidationService.ColumnMapping) :
  Forall (λ m, ValidationService.dataField m ≠ "subject___proto__") mappings →
  ∀ transformed c,
    ValidationService.prop transformed "marks" = Cell c →
    isOk (foldR (ValidationService.applyMapping row) transformed mappings) = false
    ↔ Exists (λ m, JSString.startsWith "subject_" (ValidationService.dataField m)
                   = true) mappings.
Proof.
  induction 1 as [|m ms Hm _ IH]; intros transformed c Hc; cbn [foldR].
  - split; [done|]. by intros ?%Exists_nil.
  - rewrite Exists_cons.
    destruct (JSString.startsWith "subject_" (ValidationService.dataField m)) eqn:Es.
    + pose proof (applyMapping_subject row transformed m Es Hm) as Ht.
      rewrite Hc in Ht. destruct Ht as [msg ->]. simpl. split; [by left|done].
    + destruct (applyMapping_field row transformed m Es) as (t' & -> & Ht').
      simpl. rewrite Hc in Ht'.
      assert (Hc' : ∃ c', ValidationService.prop t' "marks" = Cell c').
      { destruct (String.eqb _ "marks"); by eexists. }
      destruct Hc' as [c' Hc']. rewrite (IH _ _ Hc').
      split; [by right|]. by intros [?|?].
Qed.

Lemma applyMapping_obj row (mappings : list ValidationService.ColumnMapping) :
  Forall (λ m, ValidationService.dataField m ≠ "subject___proto__") mappings →
  ∀ transformed o,
    ValidationService.prop transformed "marks" = Obj o →
    isOk (foldR (ValidationService.applyMapping row) transformed mappings) = false
    ↔ marksClobbered mappings.
Proof.
  induction 1 as [|m ms Hm Hms IH]; intros transformed o Ho; cbn [foldR].
  - split; [done|]. intros (i & j & mi & mj & _ & Hi & _). done.
  - rewrite marksClobbered_cons.
    destruct (JSString.startsWith "subject_" (ValidationService.dataField m)) eqn:Es.
    + pose proof (applyMapping_subject row transformed m Es Hm) as Ht.
      rewrite Ho in Ht. destruct Ht as [marks' ->]. simpl.
      rewrite (IH _ marks').
      * split; [by right|]. intros [[Hdf _]|?]; [|done].
        rewrite Hdf in Es. done.
      * unfold ValidationService.prop. by rewrite lookup_insert_eq.
    + destruct (applyMapping_field row transformed m Es) as (t' & -> & Ht').
      simpl.
      destruct (String.eqb (ValidationService.dataField m) "marks") eqn:Em.
      * apply String.eqb_eq in Em.
        rewrite (applyMapping_cell row ms Hms _ _ Ht').
        split; [by left|]. intros [[_ ?]|Hc]; [done|].
        destruct Hc as (i & j & mi & mj & _ & _ & Hj & _ & Hmj).
        apply Exists_exists. exists mj. split; [|done].
        by eapply list_elem_of_lookup_2.
      * apply String.eqb_neq in Em. rewrite Ho in Ht'. rewrite (IH _ o Ht').
        split; [by right|]. by intros [[? _]|?].
Qed.

(** The transformation of the rows fails exactly when there is a row and
    a subject is set after the marks were replaced. *)
Lemma transformRowsForValidation_throws rows mappings :
  Forall (λ m, ValidationService.dataField m ≠ "subject___proto__") mappings →
  throws (ValidationService.transformRowsForValidation rows mappings)
  ↔ rows ≠ [] ∧ marksClobbered mappings.
Proof.
  intros Hp. unfold ValidationService.transformRowsForValidation.
  rewrite mapR_throws, Exists_exists. split.
  - intros (row & Hin & Hth). split; [by intros ->; apply elem_of_nil in Hin|].
    apply isOk_false_throws in Hth.
    by apply (applyMapping_obj row mappings Hp _ JSMap.empty) in Hth.
  - intros [Hne Hc]. destruct rows as [|row rows]; [done|].
    exists row. split; [left|]. apply isOk_false_throws.
    by apply (applyMapping_obj row mappings Hp _ JSMap.empty).
Qed.

(** Tracking a row for a field fails exactly when the row collides on
    that field, as long as the map holds no key that it inherits, which
    stays so. *)
Lemma trackField_throws name m e :
  (∀ k, JSObject.inherits k = true → JSMap.get m k = None) →
  throws (ValidationService.trackField name m e) ↔ collidesOn name e.2 = true.
Proof.
  intros Hm. destruct e as [i row].
  unfold ValidationService.trackField, collidesOn. simpl.
  destruct (Field.truthy _); simpl.
  - rewrite track_throws. split; [by intros [_ ?]|].
    intros Hi. split; [by apply Hm|done].
  - split; [by intros [? ?]|done].
Qed.

Lemma trackField_plain name m e m' :
  (∀ k, JSObject.inherits k = true → JSMap.get m k = None) →
  ValidationService.trackField name m e = Ok m' →
  ∀ k, JSObject.inherits k = true → JSMap.get m' k = None.
Proof.
  intros Hm. destruct e as [i row]. unfold ValidationService.trackField.
  destruct (Field.truthy _); [|by intros [= <-]].
  intros Ht k Hk. pose proof Ht as [Hget _]%track_inv. rewrite Hget.
  destruct (String.eqb _ k) eqn:E; [|by apply Hm].
  apply String.eqb_eq in E. subst k.
  assert (Hth : throws (ValidationService.track m
                          (ValidationService.normalize
                             (ValidationService.prop row name)) i)).
  { apply track_throws. split; [by apply Hm|done]. }
  destruct Hth as [msg Hth]. congruence.
Qed.

Lemma foldR_trackRow_throws (indexed : list (nat * gmap string field)) :
  ∀ maps,
    (∀ k, JSObject.inherits k = true → JSMap.get maps.1 k = None) →
    (∀ k, JSObject.inherits k = true → JSMap.get maps.2 k = None) →
    throws (foldR ValidationService.trackRow maps indexed)
    ↔ Exists (λ e, collides e.2 = true) indexed.
Proof.
  induction indexed as [|e indexed IH]; intros maps H1 H2; cbn [foldR].
  - split; [by intros [? ?]|by intros ?%Exists_nil].
  - rewrite Exists_cons. unfold collides at 1. rewrite orb_true_iff.
    rewrite <- (trackField_throws "rollNumber" maps.1 e) by done.
    rewrite <- (trackField_throws "studentName" maps.2 e) by done.
    destruct (ValidationService.trackRow maps e) as [maps1|msg] eqn:E; simpl.
    + pose proof E as [E1 E2]%trackRow_inv. rewrite IH.
      * rewrite E1, E2. split; [by right|]. by intros [[[? ?]|[? ?]]|?].
      * exact (trackField_plain _ _ _ _ H1 E1).
      * exact (trackField_plain _ _ _ _ H2 E2).
    + split; [intros _|intros _; by eexists]. left.
      unfold ValidationService.trackRow in E.
      destruct (ValidationService.trackField "rollNumber" maps.1 e) as [m1|msg1];
        simpl in E; [|left; by eexists].
      destruct (ValidationService.trackField "studentName" maps.2 e) as [m2|msg2];
        simpl in E; [done|right; by eexists].
Qed.

Lemma analyzeDuplicates_throws (trows : list (gmap string field)) :
  throws (ValidationService.analyzeDuplicates trows)
  ↔ Exists (λ row, collides row = true) trows.
Proof.
  unfold ValidationService.analyzeDuplicates.
  assert (Hloop : throws (foldR ValidationService.trackRow (JSMap.empty, JSMap.empty)
                                (imap (λ index row, (index, row)) trows))
                  ↔ Exists (λ row, collides row = true) trows).
  { rewrite foldR_trackRow_throws by done. rewrite !Exists_exists. split.
    - intros ([i row] & (i' & row' & [= <- <-] & Hl)%elem_of_lookup_imap & Hc).
      exists row. split; [by eapply list_elem_of_lookup_2|done].
    - intros (row & [i Hi]%list_elem_of_lookup_1 & Hc).
      exists (i, row). split; [|done]. apply elem_of_lookup_imap. by exists i, row. }
  rewrite <- Hloop.
  destruct (foldR _ _ _) as [maps|msg]; simpl.
  - split; by intros [? ?].
  - split; intros _; by eexists.
Qed.

(** X21.  With mappings whose columns are not named like an inherited
    property and that name no subject "__proto__", [validateData] throws
    in two cases and returns a result in every other: when the sheet has
    at least one row and some mapping to the field "marks" comes before a
    mapping to a subject; and when the text of a roll number or of a
    student name, trimmed and lower-cased, names a property that every
    object inherits, as "constructor" does. *)
Theorem validateData_throws
    (rows : list (gmap string value))
    (mappings : list ValidationService.ColumnMapping)
    (customRules : list ValidationService.ValidationRule) :
  ownColumns mappings →
  Forall (λ m, ValidationService.dataField m ≠ "subject___proto__") mappings →
  throws (ValidationService.validateData rows mappings customRules)
  ↔ (rows ≠ [] ∧ marksClobbered mappings)
    ∨ ∃ trows,
        ValidationService.transformRowsForValidation rows mappings = Ok trows
        ∧ Exists (λ row, collides row = true) trows.
Proof.
  intros _ Hp.
  rewrite <- (transformRowsForValidation_throws rows mappings Hp).
  unfold ValidationService.validateData.
  destruct (ValidationService.transformRowsForValidation rows mappings)
    as [trows|msg]; simpl.
  - destruct (ValidationService.analyzeDuplicates trows) as [dups|msg] eqn:Ed; simpl.
    + split; [by intros [? ?]|]. intros [[? ?]|(trows' & [= <-] & Hc)]; [done|].
      apply analyzeDuplicates_throws in Hc as [msg Hc]. congruence.
    + split; [|intros _; by eexists]. intros _. right. exists trows.
      split; [done|]. apply analyzeDuplicates_throws. rewrite Ed. by eexists.
  - split; [intros _; left; by eexists|intros _; by eexists].
Qed.

Lemma transform_sampleInherited :
  ValidationService.transformRowsForValidation sampleInherited sampleMappings
  = Ok [sampleRow (VString "Asha Rao") (VString "Constructor")
                  [("math", VNumber (Num 72))]].
Proof. vm_compute. reflexivity. Qed.

(** Instances: a sheet with the roll number "Constructor"; and a mapping
    of a "Total" column to the field "marks" before the subject. *)
Lemma validateData_throws_witness :
  throws (ValidationService.validateData sampleInherited sampleMappings []) ∧
  throws (ValidationService.validateData sampleSheet
            (ValidationService.mkColumnMapping "Total" "marks" :: sampleMappings) []).
Proof.
  split.
  - apply validateData_throws; [repeat constructor; discriminate..|].
    right. eexists. split; [apply transform_sampleInherited|].
    apply Exists_cons_hd. reflexivity.
  - apply validateData_throws; [repeat constructor; discriminate..|].
    left. split; [discriminate|].
    exists 0%nat, 3%nat. do 2 eexists. repeat split; [lia|reflexivity..].
Defined.

(* ===================================================================== *)
(** * Counting the occurrences of keys *)
(* ===================================================================== *)

Lemma JSObject_get_set {V} (m : JSMap.t V) (k k' : string) (v : V) :
  JSMap.get (JSObject.set m k v) k'
  = if String.eqb k "__proto__" then JSMap.get m k'
    else if String.eqb k k' then Some v else JSMap.get m k'.
Proof.
  unfold JSObject.set. destruct (String.eqb k "__proto__"); [done|].
  destruct (String.eqb k k') eqn:E.
  - apply String.eqb_eq in E. subst. apply JSMap_get_set_eq.
  - apply String.eqb_neq in E. by apply JSMap_get_set_ne.
Qed.

Lemma JSObject_NoDup_set {V} (m : JSMap.t V) (k : string) (v : V) :
  NoDup (JSMap.keys m) → NoDup (JSMap.keys (JSObject.set m k v)).
Proof.
  unfold JSObject.set. destruct (String.eqb k "__proto__"); [done|].
  apply JSMap_NoDup_set.
Qed.

Lemma inherits_proto (k : string) :
  String.eqb k "__proto__" = true → JSObject.inherits k = true.
Proof. by intros ->%String.eqb_eq. Qed.

(** One increment, read under a key. *)
Lemma increment_get (acc : JSMap.t JSObject.tally) (x k : string) :
  counted acc →
  JSMap.get (JSObject.increment acc x) k
  = if String.eqb x k
    then if JSObject.inherits x
         then if String.eqb x "__proto__" then JSMap.get acc k
              else Some JSObject.Text
         else Some (JSObject.Times (countOf acc x + 1))
    else JSMap.get acc k.
Proof.
  intros Hacc. specialize (Hacc x).
  unfold JSObject.increment, JSObject.get, countOf.
  destruct (JSMap.get acc x) as [[n|]|] eqn:Ex.
  - rewrite JSObject_get_set, Hacc.
    destruct (String.eqb x "__proto__") eqn:Ep;
      [apply inherits_proto in Ep; congruence|done].
  - rewrite JSObject_get_set, Hacc.
    destruct (String.eqb x "__proto__") eqn:Ep; [by destruct (String.eqb x k)|done].
  - destruct (JSObject.inherits x) eqn:Ei; rewrite JSObject_get_set.
    + destruct (String.eqb x "__proto__") eqn:Ep; [by destruct (String.eqb x k)|done].
    + destruct (String.eqb x "__proto__") eqn:Ep;
        [apply inherits_proto in Ep; congruence|done].
Qed.

Lemma increment_counted (acc : JSMap.t JSObject.tally) (x : string) :
  counted acc → counted (JSObject.increment acc x).
Proof.
  intros Hacc k. rewrite increment_get by done.
  destruct (String.eqb x k) eqn:E; [|apply Hacc].
  apply String.eqb_eq in E. subst k.
  destruct (JSObject.inherits x) eqn:Ei; [|done].
  destruct (String.eqb x "__proto__"); [|done].
  specialize (Hacc x). destruct (JSMap.get acc x) as [[n|]|]; congruence.
Qed.

Lemma increment_NoDup (acc : JSMap.t JSObject.tally) (x : string) :
  NoDup (JSMap.keys acc) → NoDup (JSMap.keys (JSObject.increment acc x)).
Proof.
  intros Hnd. unfold JSObject.increment.
  destruct (JSObject.get _ _) as [[n|]| |]; by apply JSObject_NoDup_set.
Qed.

(** After the keys are counted, a key that is not inherited is bound to
    the number of its occurrences, and a key that is inherited is bound
    to no count. *)
Lemma foldl_increment (l : list string) :
  ∀ acc : JSMap.t JSObject.tally,
    counted acc → NoDup (JSMap.keys acc) →
    counted (foldl JSObject.increment acc l)
    ∧ NoDup (JSMap.keys (foldl JSObject.increment acc l))
    ∧ ∀ k, JSObject.inherits k = false →
           JSMap.get (foldl JSObject.increment acc l) k
           = match occurrences k l with
             | O => JSMap.get acc k
             | S n => Some (JSObject.Times (countOf acc k + S n))
             end.
Proof.
  induction l as [|x l IH]; intros acc Hacc Hnd; cbn [foldl]; [done|].
  destruct (IH (JSObject.increment acc x)) as (Hc & Hn & Hget);
    [by apply increment_counted|by apply increment_NoDup|].
  split; [done|]. split; [done|]. intros k Hk. rewrite (Hget k Hk).
  unfold occurrences. rewrite countIf_cons. unfold countOf.
  rewrite increment_get by done.
  rewrite (String.eqb_sym k x).
  destruct (String.eqb x k) eqn:E.
  - apply String.eqb_eq in E. subst x. rewrite Hk. simpl.
    unfold countOf. destruct (countIf _ l); f_equal; f_equal; lia.
  - done.
Qed.

Lemma occurrences_elem (k : string) (l : list string) :
  (0 < occurrences k l)%nat ↔ k ∈ l.
Proof.
  unfold occurrences. induction l as [|x l IH].
  { split; [unfold countIf; simpl; lia|by intros ?%elem_of_nil]. }
  rewrite countIf_cons, elem_of_cons. destruct (String.eqb k x) eqn:E.
  - apply String.eqb_eq in E. split; [by left|lia].
  - apply String.eqb_neq in E. rewrite <- IH. split; [intros; right; lia|].
    intros [?|?]; [done|lia].
Qed.

Lemma NoDup_occurrences (l : list string) :
  NoDup l ↔ ∀ k, (occurrences k l ≤ 1)%nat.
Proof.
  induction l as [|x l IH].
  - split; [intros _ k; unfold occurrences, countIf; simpl; lia|constructor].
  - rewrite NoDup_cons, IH. unfold occurrences in *. split.
    + intros [Hx Hl] k. rewrite countIf_cons. destruct (String.eqb k x) eqn:E.
      * apply String.eqb_eq in E. subst k.
        destruct (decide (0 < countIf (String.eqb x) l)%nat) as [H|H]; [|lia].
        apply occurrences_elem in H. done.
      * specialize (Hl k). lia.
    + intros H. split.
      * intros Hx%occurrences_elem. specialize (H x). rewrite countIf_cons in H.
        rewrite String.eqb_refl in H. unfold occurrences in Hx. lia.
      * intros k. specialize (H k). rewrite countIf_cons in H.
        destruct (String.eqb k x); lia.
Qed.

Lemma occurrences_notInherited (k : string) (l : list string) :
  occurrences k (notInherited l)
  = if JSObject.inherits k then 0%nat else occurrences k l.
Proof.
  unfold occurrences, notInherited. induction l as [|x l IH].
  - by destruct (JSObject.inherits k).
  - cbn [List.filter]. rewrite (countIf_cons _ x l).
    destruct (JSObject.inherits x) eqn:Ex; cbn [negb].
    + rewrite IH. destruct (String.eqb k x) eqn:E; [|done].
      apply String.eqb_eq in E. subst x. by rewrite Ex.
    + rewrite countIf_cons, IH. destruct (String.eqb k x) eqn:E; [|done].
      apply String.eqb_eq in E. subst x. by rewrite Ex.
Qed.

Lemma filter_nil_Forall {A} (f : A → bool) (l : list A) :
  List.filter f l = [] ↔ Forall (λ x, f x = false) l.
Proof.
  induction l as [|x l IH]; simpl; [split; [constructor|done]|].
  rewrite Forall_cons. destruct (f x); [split; [done|by intros [? _]]|].
  rewrite IH. split; [done|by intros [_ ?]].
Qed.

(** No key has been counted more than once exactly when no key, among
    those that are not inherited, occurs twice. *)
Lemma increment_duplicates (l : list string) :
  List.filter (λ e : string * JSObject.tally, JSObject.moreThanOnce e.2)
              (JSObject.entries (foldl JSObject.increment JSMap.empty l)) = []
  ↔ NoDup (notInherited l).
Proof.
  destruct (foldl_increment l JSMap.empty) as (Hc & Hnd & Hget);
    [done|apply NoDup_nil_2|].
  set (counts := foldl JSObject.increment JSMap.empty l) in *.
  rewrite filter_nil_Forall, entries_Permutation, NoDup_occurrences.
  rewrite Forall_forall. split.
  - intros Hf k. rewrite occurrences_notInherited.
    destruct (JSObject.inherits k) eqn:Ek; [lia|].
    destruct (occurrences k l) as [|n] eqn:Eo; [lia|].
    specialize (Hget k Ek). rewrite Eo in Hget.
    apply JSMap_get_Some_elem, Hf in Hget. simpl in Hget.
    apply Nat.ltb_ge in Hget. unfold countOf in Hget. simpl in Hget. lia.
  - intros Hocc [k v] Hin. simpl.
    apply JSMap_get_NoDup in Hin; [|done].
    destruct v as [n|]; [|done]. simpl. apply Nat.ltb_ge.
    pose proof (Hc k) as Hk. rewrite Hin in Hk.
    specialize (Hocc k). rewrite occurrences_notInherited, Hk in Hocc.
    rewrite (Hget k Hk) in Hin.
    destruct (occurrences k l) as [|m]; [done|].
    injection Hin as <-. unfold countOf. simpl. lia.
Qed.

Lemma fmap_nil_iff' {A B} (f : A → B) (l : list A) : f <$> l = [] ↔ l = [].
Proof. destruct l; simpl; split; done. Qed.

Lemma length_zero_nil {A} (l : list A) : (length l =? 0)%nat = true ↔ l = [].
Proof. destruct l; simpl; split; done. Qed.

Lemma if_nonempty_nil {A B} (l : list A) (x : B) :
  (if (0 <? length l)%nat then [x] else []) = [] ↔ l = [].
Proof. destruct l; simpl; split; done. Qed.

(* ===================================================================== *)
(** * ColumnMapper: valid mappings *)
(* ===================================================================== *)

Lemma validateMappings_valid_iff (mappings : list ColumnMapper.ColumnMapping)
    (headers : list string) :
  ColumnMapper.isValid (ColumnMapper.validateMappings mappings headers) = true ↔
  Forall (λ m, ColumnMapper.excelColumn m ∈ headers) mappings
  ∧ "studentName" ∈ ColumnMapper.dataField <$> mappings
  ∧ "rollNumber" ∈ ColumnMapper.dataField <$> mappings
  ∧ NoDup (notInherited (ColumnMapper.dataField <$> mappings)).
Proof.
  unfold ColumnMapper.validateMappings. cbn [ColumnMapper.isValid].
  rewrite length_zero_nil.
  change ColumnMapper.countField with JSObject.increment.
  rewrite !app_nil.
  rewrite !fmap_nil_iff'.
  rewrite if_nonempty_nil.
  rewrite increment_duplicates.
  rewrite !filter_nil_Forall.
  unfold ColumnMapper.REQUIRED_FIELDS. rewrite !Forall_cons.
  rewrite !negb_false_iff, !includes_spec.
  assert (Hinc : Forall (λ x, negb (JSArray.includes headers (ColumnMapper.excelColumn x))
                              = false) mappings
                 ↔ Forall (λ m, ColumnMapper.excelColumn m ∈ headers) mappings).
  { apply Forall_iff. intros m. by rewrite negb_false_iff, includes_spec. }
  rewrite Hinc. split.
  - intros (? & (? & ? & _) & ?). done.
  - intros (? & ? & ? & ?). done.
Qed.

(** X22.  [validateMappings] finds a set of mappings valid exactly when
    every mapped column is one of the headers, both required fields,
    "studentName" and "rollNumber", are mapped, and no field is mapped
    twice, the fields apart that are named like a property that every
    object inherits ("constructor", "toString", ...): the count of the
    mappings to such a field is not a number, and they pass however many
    they are. *)
Theorem validateMappings_isValid (mappings : list ColumnMapper.ColumnMapping)
    (headers : list string) :
  ColumnMapper.isValid (ColumnMapper.validateMappings mappings headers) = true ↔
  Forall (λ m, ColumnMapper.excelColumn m ∈ headers) mappings
  ∧ "studentName" ∈ ColumnMapper.dataField <$> mappings
  ∧ "rollNumber" ∈ ColumnMapper.dataField <$> mappings
  ∧ NoDup (notInherited (ColumnMapper.dataField <$> mappings)).
Proof. apply validateMappings_valid_iff. Qed.

(** Two mappings to the field "constructor" pass; two mappings to the
    field "class" do not. *)
Example validateMappings_inherited_field :
  let mapping column field :=
    ColumnMapper.mkColumnMapping column field false ColumnMapper.TString None in
  let required :=
    [mapping "Name" "studentName"; mapping "Roll" "rollNumber"] in
  ColumnMapper.errors
    (ColumnMapper.validateMappings
       (required ++ [mapping "A" "constructor"; mapping "B" "constructor"])
       ["Name"; "Roll"; "A"; "B"]) = []
  ∧ ColumnMapper.errors
      (ColumnMapper.validateMappings
         (required ++ [mapping "A" "class"; mapping "B" "class"])
         ["Name"; "Roll"; "A"; "B"])
    = ["Field 'class' is mapped multiple times"].
Proof. split; vm_compute; reflexivity. Qed.

(* ===================================================================== *)
(** * ValidationService: the structure of a sheet *)
(* ===================================================================== *)

(** X23.  [validateStructure] finds a sheet valid exactly when it has at
    least one header and at least one row and no two of its headers are
    the same, the headers apart that are named like a property that every
    object inherits ("constructor", "toString", ...), which pass however
    often they occur; warnings and recommendations do not make it
    invalid. *)
Theorem validateStructure_isValid (data : ValidationService.ParsedExcelData) :
  ValidationService.structure_isValid (ValidationService.validateStructure data)
    = true ↔
  ValidationService.headers data ≠ [] ∧ ValidationService.rows data ≠ []
  ∧ NoDup (notInherited (ValidationService.headers data)).
Proof.
  unfold ValidationService.validateStructure.
  cbn [ValidationService.structure_isValid].
  rewrite length_zero_nil.
  change ValidationService.countHeader with JSObject.increment.
  rewrite !app_nil.
  rewrite <- increment_duplicates.
  destruct (ValidationService.headers data) as [|h hs] eqn:Eh.
  { simpl. split; [by intros [? _]|by intros [? _]]. }
  rewrite <- Eh.
  destruct (ValidationService.rows data) as [|row rows] eqn:Er.
  { simpl. split; [by intros (_ & ? & _)|by intros (_ & ? & _)]. }
  assert (H1 : (length (ValidationService.headers data) =? 0)%nat = false)
    by by rewrite Eh.
  rewrite H1. simpl (length (row :: rows) =? 0)%nat. cbv iota.
  set (counts := JSObject.entries
                   (foldl JSObject.increment JSMap.empty
                          (ValidationService.headers data))).
  destruct (List.filter _ counts) as [|e es] eqn:Ef.
  - simpl. rewrite Eh. split; [done|done].
  - simpl. rewrite Eh. split; [by intros (_ & _ & ?)|by intros (_ & _ & ?)].
Qed.

(** A header that occurs twice makes the sheet invalid, unless it is
    named like an inherited property; the headers that are array indices
    are listed first. *)
Example validateStructure_duplicates :
  ValidationService.structure_errors
    (ValidationService.validateStructure
       (ValidationService.mkParsedExcelData ["Name"; "Name"; "Roll"; "2"; "2"] [∅]))
  = ["Duplicate column headers found: 2, Name"]
  ∧ ValidationService.structure_errors
      (ValidationService.validateStructure
         (ValidationService.mkParsedExcelData
            ["constructor"; "constructor"; "Roll"] [∅]))
    = [].
Proof. split; vm_compute; reflexivity. Qed.

(* ===================================================================== *)
(** * ColumnMapper: the edit distance *)
(* ===================================================================== *)

Lemma fillRow_length (c2 : ascii) (str1 : string) :
  ∀ prev left,
    length prev = S (String.length str1) →
    length (ColumnMapper.fillRow c2 str1 prev left) = String.length str1.
Proof.
  induction str1 as [|c1 str1 IH]; intros prev left Hlen; simpl.
  - by destruct prev as [|? [|? ?]].
  - destruct prev as [|diag [|up prev]]; [done..|]. simpl. f_equal.
    apply IH. simpl in *. lia.
Qed.

(** The cells of a row are bounded by the larger of its two indices, when
    those of the row above are. *)
Lemma fillRow_bound (c2 : ascii) (i : nat) (str1 : string) :
  ∀ prev left j0,
    (∀ k x, prev !! k = Some x → (x ≤ Nat.max i (j0 + k))%nat) →
    (left ≤ Nat.max (S i) j0)%nat →
    ∀ k x, ColumnMapper.fillRow c2 str1 prev left !! k = Some x →
           (x ≤ Nat.max (S i) (j0 + 1 + k))%nat.
Proof.
  induction str1 as [|c1 str1 IH]; intros prev left j0 Hprev Hleft k x; simpl.
  - by destruct prev as [|? [|? ?]].
  - destruct prev as [|diag [|up prev]]; [done..|].
    pose proof (Hprev 0%nat diag eq_refl) as Hdiag.
    pose proof (Hprev 1%nat up eq_refl) as Hup.
    set (cell := if Ascii.eqb c2 c1 then diag
                 else ColumnMapper.min3 (diag + 1) (left + 1) (up + 1)).
    assert (Hcell : (cell ≤ Nat.max (S i) (j0 + 1))%nat).
    { subst cell. unfold ColumnMapper.min3. destruct (Ascii.eqb c2 c1); lia. }
    destruct k as [|k]; simpl.
    + intros [= <-]. rewrite Nat.add_0_r. exact Hcell.
    + intros Hk. apply (IH (up :: prev) cell (S j0)) in Hk.
      * lia.
      * intros k' x' Hk'. specialize (Hprev (S k') x' Hk'). lia.
      * lia.
Qed.

Lemma fillRows_bound (str2 str1 : string) :
  ∀ i prevRow,
    length prevRow = S (String.length str1) →
    (∀ k x, prevRow !! k = Some x → (x ≤ Nat.max i k)%nat) →
    let row := ColumnMapper.fillRows (S i) str2 str1 prevRow in
    length row = S (String.length str1) ∧
    ∀ k x, row !! k = Some x → (x ≤ Nat.max (i + String.length str2) k)%nat.
Proof.
  induction str2 as [|c2 str2 IH]; intros i prevRow Hlen Hprev; simpl.
  - split; [done|]. intros k x Hk. specialize (Hprev k x Hk). lia.
  - destruct (IH (S i) (S i :: ColumnMapper.fillRow c2 str1 prevRow (S i)))
      as [Hl Hb].
    + simpl. by rewrite fillRow_length.
    + intros [|k] x; simpl.
      * intros [= <-]. lia.
      * intros Hk. apply (fillRow_bound c2 i str1 prevRow (S i) 0%nat) in Hk.
        -- lia.
        -- intros k' x' Hk'. specialize (Hprev k' x' Hk'). lia.
        -- lia.
    + split; [done|]. intros k x Hk. specialize (Hb k x Hk). lia.
Qed.

Lemma last_lookup_length {A} (l : list A) (n : nat) :
  length l = S n → last l = l !! n.
Proof. intros Hl. rewrite last_lookup, Hl. done. Qed.

Lemma seq_lookup_all (n k x : nat) : seq 0 n !! k = Some x → x = k.
Proof. intros H. apply lookup_seq in H. lia. Qed.

Lemma levenshteinDistance_bound (str1 str2 : string) :
  (ColumnMapper.levenshteinDistance str1 str2
   ≤ Nat.max (String.length str1) (String.length str2))%nat.
Proof.
  unfold ColumnMapper.levenshteinDistance.
  destruct (fillRows_bound str2 str1 0 (seq 0 (String.length str1 + 1)))
    as [Hlen Hb].
  - rewrite length_seq. lia.
  - intros k x Hk. apply seq_lookup_all in Hk. lia.
  - rewrite (last_lookup_length _ _ Hlen).
    destruct (_ !! String.length str1) as [x|] eqn:E; simpl; [|lia].
    specialize (Hb _ _ E). simpl in Hb. lia.
Qed.

Lemma fillRow_diagonal (j : nat) :
  ∀ (str1 : string) (prev : list nat) (left : nat) (c : ascii) (d : nat),
    String.get j str1 = Some c → prev !! j = Some d → is_Some (prev !! S j) →
    ColumnMapper.fillRow c str1 prev left !! j = Some d.
Proof.
  induction j as [|j IH]; intros str1 prev left c d Hc Hd Hs.
  - destruct str1 as [|c1 str1]; [done|]. simpl in Hc. injection Hc as ->.
    destruct prev as [|diag [|up prev]]; [done|by destruct Hs|].
    simpl in Hd. injection Hd as ->. simpl. by rewrite Ascii.eqb_refl.
  - destruct str1 as [|c1 str1]; [done|]. simpl in Hc.
    destruct prev as [|diag [|up prev]]; [done|by destruct Hs|].
    simpl. apply IH; done.
Qed.

Lemma string_app_length (s t : string) :
  String.length (s +:+ t) = (String.length s + String.length t)%nat.
Proof. induction s as [|c s IH]; simpl; [done|]. by rewrite IH. Qed.

Lemma string_app_get (s : string) (c : ascii) (t : string) :
  String.get (String.length s) (s +:+ String c t) = Some c.
Proof. induction s as [|c' s IH]; simpl; done. Qed.

Lemma string_app_snoc (s : string) (c : ascii) (t : string) :
  (s +:+ String c "") +:+ t = s +:+ String c t.
Proof.
  induction s as [|c' s IH]; [done|].
  change (String c' ((s +:+ String c "") +:+ t) = String c' (s +:+ String c t)).
  by rewrite IH.
Qed.

Lemma string_app_empty (s : string) : s +:+ "" = s.
Proof.
  induction s as [|c s IH]; [done|].
  change (String c (s +:+ "") = String c s). by rewrite IH.
Qed.

Lemma fillRows_diagonal (s : string) (str2 : string) :
  ∀ (pre : string) (row : list nat),
    s = pre +:+ str2 →
    length row = S (String.length s) →
    row !! String.length pre = Some 0%nat →
    ColumnMapper.fillRows (S (String.length pre)) str2 s row !! String.length s
    = Some 0%nat.
Proof.
  induction str2 as [|c str2 IH]; intros pre row Hs Hlen Hrow; simpl.
  - rewrite string_app_empty in Hs. by subst pre.
  - specialize (IH (pre +:+ String c "")
                   (S (String.length pre)
                    :: ColumnMapper.fillRow c s row (S (String.length pre)))).
    rewrite string_app_length in IH. simpl in IH.
    rewrite Nat.add_1_r in IH. apply IH.
    + by rewrite string_app_snoc.
    + by rewrite fillRow_length.
    + apply fillRow_diagonal; [|done|].
      * rewrite Hs. apply string_app_get.
      * apply lookup_lt_is_Some. rewrite Hlen, Hs, string_app_length. simpl. lia.
Qed.

Lemma levenshteinDistance_same (s : string) :
  ColumnMapper.levenshteinDistance s s = 0%nat.
Proof.
  unfold ColumnMapper.levenshteinDistance.
  destruct (fillRows_bound s s 0 (seq 0 (String.length s + 1))) as [Hlen _].
  - rewrite length_seq. lia.
  - intros k x Hk. apply seq_lookup_all in Hk. lia.
  - rewrite (last_lookup_length _ _ Hlen).
    rewrite (fillRows_diagonal s s ""); [done|done| |].
    + rewrite length_seq. lia.
    + simpl. replace (String.length s + 1)%nat with (S (String.length s)) by lia.
      done.
Qed.

Lemma levenshteinDistance_empty (s : string) :
  ColumnMapper.levenshteinDistance s "" = String.length s
  ∧ ColumnMapper.levenshteinDistance "" s = String.length s.
Proof.
  unfold ColumnMapper.levenshteinDistance. split.
  - simpl. rewrite (last_lookup_length _ (String.length s)) by (rewrite length_seq; lia).
    rewrite lookup_seq_lt by lia. done.
  - simpl. assert (H : ∀ t i, ColumnMapper.fillRows (S i) t "" [i]
                              = [(i + String.length t)%nat]).
    { induction t as [|c t IHt]; intros i; simpl; [by rewrite Nat.add_0_r|].
      rewrite IHt. f_equal. lia. }
    by rewrite H.
Qed.

(** A cell of a row is 0 only where the characters agree and the cell
    diagonally above is 0. *)
Lemma fillRow_zero (c2 : ascii) (str1 : string) :
  ∀ (prev : list nat) (left k : nat),
    ColumnMapper.fillRow c2 str1 prev left !! k = Some 0%nat →
    String.get k str1 = Some c2 ∧ prev !! k = Some 0%nat.
Proof.
  induction str1 as [|c1 str1 IH]; intros prev left k; simpl.
  - by destruct prev as [|? [|? ?]].
  - destruct prev as [|diag [|up prev]]; [done..|].
    destruct k as [|k]; simpl.
    + destruct (Ascii.eqb c2 c1) eqn:E.
      * apply Ascii.eqb_eq in E. subst c1. by intros [= ->].
      * unfold ColumnMapper.min3. intros [= H]. lia.
    + intros H. by apply IH in H.
Qed.

Lemma string_get_app (pre rest : string) (c : ascii) :
  String.get (String.length pre) (pre +:+ rest) = Some c →
  ∃ rest', rest = String c rest'.
Proof.
  induction pre as [|c' pre IH]; simpl.
  - destruct rest as [|c0 rest]; [done|]. simpl. intros [= ->]. by eexists.
  - exact IH.
Qed.

(** A row holds 0 only in the column of its own index, and only when the
    part of the second string read so far starts the first string. *)
Lemma fillRows_zero (str1 : string) (str2 : string) :
  ∀ (pre : string) (row : list nat),
    (∀ j, row !! j = Some 0%nat →
          j = String.length pre ∧ ∃ rest, str1 = pre +:+ rest) →
    ∀ j, ColumnMapper.fillRows (S (String.length pre)) str2 str1 row !! j
         = Some 0%nat →
         j = String.length (pre +:+ str2) ∧ ∃ rest, str1 = (pre +:+ str2) +:+ rest.
Proof.
  induction str2 as [|c str2 IH]; intros pre row Hrow j; simpl.
  - rewrite string_app_empty. apply Hrow.
  - intros Hj.
    specialize (IH (pre +:+ String c "")
                   (S (String.length pre)
                    :: ColumnMapper.fillRow c str1 row (S (String.length pre)))).
    rewrite string_app_length in IH. simpl in IH. rewrite Nat.add_1_r in IH.
    rewrite string_app_snoc in IH. apply IH; [|exact Hj].
    intros [|k]; simpl; [done|]. intros Hk.
    apply fillRow_zero in Hk as [Hget Hprev].
    apply Hrow in Hprev as [-> [rest ->]].
    apply string_get_app in Hget as [rest' ->].
    split; [done|]. exists rest'. by rewrite string_app_snoc.
Qed.

Lemma string_app_length_eq (s rest : string) :
  String.length s = String.length (s +:+ rest) → rest = "".
Proof.
  rewrite string_app_length. destruct rest; simpl; [done|lia].
Qed.

Lemma levenshteinDistance_zero (str1 str2 : string) :
  ColumnMapper.levenshteinDistance str1 str2 = 0%nat ↔ str1 = str2.
Proof.
  split; [|intros ->; apply levenshteinDistance_same].
  unfold ColumnMapper.levenshteinDistance.
  destruct (fillRows_bound str2 str1 0 (seq 0 (String.length str1 + 1)))
    as [Hlen _].
  { rewrite length_seq. lia. }
  { intros k x Hk. apply seq_lookup_all in Hk. lia. }
  rewrite (last_lookup_length _ _ Hlen).
  destruct (_ !! String.length str1) as [x|] eqn:E; simpl.
  - intros ->. apply (fillRows_zero str1 str2 "") in E.
    + simpl in E. destruct E as [Hl [rest Hr]].
      rewrite Hr in Hl. symmetry in Hl. apply string_app_length_eq in Hl.
      subst rest. by rewrite string_app_empty in Hr.
    + intros j Hj. apply seq_lookup_all in Hj. subst j. simpl.
      split; [done|]. by exists str1.
  - apply lookup_ge_None in E. lia.
Qed.

Lemma calculateStringSimilarity_bounds (str1 str2 : string) :
  (0 <= ColumnMapper.calculateStringSimilarity str1 str2 <= 1)%Q.
Proof.
  unfold ColumnMapper.calculateStringSimilarity.
  set (longer := if (String.length str2 <? String.length str1)%nat
                 then str1 else str2).
  set (shorter := if (String.length str2 <? String.length str1)%nat
                  then str2 else str1).
  destruct (String.length longer) as [|n] eqn:El; simpl; [lra|].
  rewrite <- El.
  pose proof (levenshteinDistance_bound longer shorter) as Hb.
  assert (Hls : (String.length shorter ≤ String.length longer)%nat).
  { subst longer shorter.
    destruct (String.length str2 <? String.length str1)%nat eqn:E.
    - apply Nat.ltb_lt in E. lia.
    - apply Nat.ltb_ge in E. lia. }
  assert (Hd : (inject_Z (Z.of_nat (ColumnMapper.levenshteinDistance longer shorter))
                <= inject_Z (Z.of_nat (String.length longer)))%Q).
  { rewrite <- Zle_Qle. lia. }
  assert (Hd0 : (0 <= inject_Z (Z.of_nat
                          (ColumnMapper.levenshteinDistance longer shorter)))%Q).
  { change 0%Q with (inject_Z 0). rewrite <- Zle_Qle. lia. }
  assert (HL : (0 < inject_Z (Z.of_nat (String.length longer)))%Q).
  { rewrite El. apply count_positive. }
  split.
  - apply Qle_shift_div_l; [done|]. lra.
  - apply Qle_shift_div_r; [done|]. lra.
Qed.

(** X24.  The edit distance that [levenshteinDistance] computes is 0
    exactly between a string and itself, is the length of the other string when
    one of the two is empty, and never exceeds the length of the longer
    string; the similarity of two strings therefore lies in [0, 1], and
    the similarity of a string to itself is 1. *)
Theorem levenshteinDistance_facts :
  (∀ str1 str2, ColumnMapper.levenshteinDistance str1 str2 = 0%nat ↔ str1 = str2) ∧
  (∀ s, ColumnMapper.levenshteinDistance s "" = String.length s
        ∧ ColumnMapper.levenshteinDistance "" s = String.length s) ∧
  (∀ str1 str2,
     (ColumnMapper.levenshteinDistance str1 str2
      ≤ Nat.max (String.length str1) (String.length str2))%nat) ∧
  (∀ str1 str2, (0 <= ColumnMapper.calculateStringSimilarity str1 str2 <= 1)%Q) ∧
  (∀ s, (ColumnMapper.calculateStringSimilarity s s == 1)%Q).
Proof.
  split; [exact levenshteinDistance_zero|].
  split; [exact levenshteinDistance_empty|].
  split; [exact levenshteinDistance_bound|].
  split; [exact calculateStringSimilarity_bounds|].
  intros s. unfold ColumnMapper.calculateStringSimilarity.
  rewrite Nat.ltb_irrefl.
  destruct (String.length s) as [|n] eqn:El; simpl; [lra|].
  rewrite <- El, levenshteinDistance_same.
  assert (HL : (0 < inject_Z (Z.of_nat (String.length s)))%Q).
  { rewrite El. apply count_positive. }
  change (inject_Z (Z.of_nat 0)) with 0%Q. field. lra.
Qed.

(* ===================================================================== *)
(** * ColumnMapper: subject names *)
(* ===================================================================== *)

Lemma lowerChar_subjectNameChar (c : ascii) :
  JSString.isLower c || JSString.isUpper c || JSString.isDigit c
    || JSString.isWhiteSpace c = true →
  JSString.isWhiteSpace c = false →
  isSubjectNameChar (JSString.lowerChar c) = true.
Proof. destruct c as [[] [] [] [] [] [] [] []]; vm_compute; done. Qed.

Lemma forallChars_keepChars (keep : ascii → bool) (s : string) :
  JSString.forallChars keep (JSString.keepChars keep s) = true.
Proof.
  induction s as [|c s IH]; simpl; [done|].
  destruct (keep c) eqn:E; simpl; [by rewrite E|done].
Qed.

Lemma replaceWhitespaceRuns_chars (s : string) :
  ∀ inRun,
    JSString.forallChars
      (λ c, JSString.isLower c || JSString.isUpper c || JSString.isDigit c
            || JSString.isWhiteSpace c) s = true →
    JSString.forallChars isSubjectNameChar
      (JSString.toLowerCase (JSString.replaceWhitespaceRuns "_" s inRun)) = true.
Proof.
  induction s as [|c s IH]; intros inRun; simpl; [done|].
  intros [Hc Hs]%andb_true_iff.
  destruct (JSString.isWhiteSpace c) eqn:Ews.
  - destruct inRun; [by apply IH|].
    change (JSString.toLowerCase ("_" +:+ ?x))
      with (String "_" (JSString.toLowerCase x)).
    simpl. by apply IH.
  - change (JSString.toLowerCase (String c ?x))
      with (String (JSString.lowerChar c) (JSString.toLowerCase x)).
    simpl. rewrite lowerChar_subjectNameChar; [by apply IH|by rewrite Ews|done].
Qed.

Lemma normalizeSubjectName_chars (name : string) :
  JSString.forallChars isSubjectNameChar (ColumnMapper.normalizeSubjectName name)
  = true.
Proof.
  unfold ColumnMapper.normalizeSubjectName.
  apply replaceWhitespaceRuns_chars, forallChars_keepChars.
Qed.

(** X25.  A normalized subject name holds lower-case letters, digits and
    underscores only; and the data field that [autoMapColumns] forms from
    it, "subject_" followed by the name, is recognised as a subject field
    and gives the same name back where it is taken apart. *)
Theorem normalizeSubjectName_field (header : string) :
  let name := ColumnMapper.normalizeSubjectName header in
  JSString.forallChars isSubjectNameChar name = true ∧
  JSString.startsWith "subject_" ("subject_" +:+ name) = true ∧
  subjectNameOf ("subject_" +:+ name) = name.
Proof.
  intros name. split; [apply normalizeSubjectName_chars|].
  apply subjectNameOf_field.
Qed.

(* ===================================================================== *)
(** * ColumnMapper: automatic mapping *)
(* ===================================================================== *)

(** What the search for the best match holds at any time: nothing, or a
    field that has patterns and is not mapped yet, with the confidence
    0.8. *)
Lemma considerPattern_inv (mapped : list string) (h f : string)
    (best : option (string * Q)) (pattern : ColumnMapper.Pattern) :
  f ∈ knownFields → f ∉ mapped →
  (best = None ∨ ∃ f', best = Some (f', 0.8%Q) ∧ f' ∈ knownFields ∧ f' ∉ mapped) →
  let best' := ColumnMapper.considerPattern h f best pattern in
  best' = None ∨ ∃ f', best' = Some (f', 0.8%Q) ∧ f' ∈ knownFields ∧ f' ∉ mapped.
Proof.
  intros Hf Hm Hbest. unfold ColumnMapper.considerPattern,
    ColumnMapper.calculatePatternConfidence.
  destruct (ColumnMapper.test pattern h); [|done].
  destruct Hbest as [->|(f' & -> & ? & ?)]; cbv zeta.
  - right. by exists f.
  - right. exists f'. done.
Qed.

Lemma findBestMatch_inv (mapped : list string) (h : string)
    (entries : list (string * list ColumnMapper.Pattern)) :
  Forall (λ e, e.1 ∈ knownFields) entries →
  ∀ best,
    (best = None ∨ ∃ f', best = Some (f', 0.8%Q) ∧ f' ∈ knownFields ∧ f' ∉ mapped) →
    let best' :=
      foldl (λ bestMatch (entry : string * list ColumnMapper.Pattern),
               if JSArray.includes mapped entry.1 then bestMatch
               else foldl (ColumnMapper.considerPattern h entry.1) bestMatch entry.2)
            best entries in
    best' = None ∨ ∃ f', best' = Some (f', 0.8%Q) ∧ f' ∈ knownFields ∧ f' ∉ mapped.
Proof.
  induction 1 as [|[f patterns] entries Hf _ IH]; intros best Hbest; cbn [foldl];
    [done|].
  apply IH. simpl in *.
  destruct (JSArray.includes mapped f) eqn:Einc; [done|].
  assert (Hm : f ∉ mapped).
  { intros Hin%includes_spec. congruence. }
  clear IH Einc. revert best Hbest.
  induction patterns as [|p patterns IHp]; intros best Hbest; cbn [foldl]; [done|].
  apply IHp. by apply considerPattern_inv.
Qed.

Lemma findBestMatch_Some (mapped : list string) (h f : string) (c : Q) :
  ColumnMapper.findBestMatch mapped h = Some (f, c) →
  c = 0.8%Q ∧ f ∈ knownFields ∧ f ∉ mapped.
Proof.
  intros H.
  destruct (findBestMatch_inv mapped h ColumnMapper.FIELD_PATTERNS) with (best := @None (string * Q))
    as [Hn|(f' & Hs & ? & ?)].
  - apply Forall_forall. intros e He. unfold knownFields.
    apply list_elem_of_fmap. by exists e.
  - by left.
  - unfold ColumnMapper.findBestMatch in H. congruence.
  - unfold ColumnMapper.findBestMatch in H. rewrite H in Hs.
    injection Hs as -> ->. done.
Qed.

Lemma knownFields_not_subject (f : string) :
  f ∈ knownFields → JSString.startsWith "subject_" f = false.
Proof.
  unfold knownFields. simpl. intros H.
  repeat (apply elem_of_cons in H as [->|H]; [reflexivity|]).
  by apply elem_of_nil in H.
Qed.

Lemma fieldMappings_snoc ms m :
  fieldMappings (ms ++ [m])
  = (fieldMappings ms ++ if ColumnMapper.isSubjectMapping m then [] else [m])%list.
Proof.
  unfold fieldMappings. rewrite List.filter_app. simpl.
  by destruct (ColumnMapper.isSubjectMapping m).
Qed.

Lemma isSubjectMapping_subject col name req dt tr :
  ColumnMapper.isSubjectMapping
    (ColumnMapper.mkColumnMapping col ("subject_" +:+ name) req dt tr) = true.
Proof. unfold ColumnMapper.isSubjectMapping. apply subjectNameOf_field. Qed.

Lemma isSubjectMapping_field col f req dt tr :
  f ∈ knownFields →
  ColumnMapper.isSubjectMapping (ColumnMapper.mkColumnMapping col f req dt tr) = false.
Proof. unfold ColumnMapper.isSubjectMapping. apply knownFields_not_subject. Qed.

Lemma mapOther_invariant sampleRows hs st h :
  autoMapInvariant hs st →
  autoMapInvariant (hs ++ [h]) (ColumnMapper.mapOther sampleRows st h).
Proof.
  intros (Hperm & Hfields & Hnd & Hwf & Hsug). unfold ColumnMapper.mapOther.
  destruct (ColumnMapper.looksLikeSubjectColumn h sampleRows);
    unfold autoMapInvariant;
    cbn [ColumnMapper.st_mappings ColumnMapper.st_suggestions
         ColumnMapper.st_unmappedColumns ColumnMapper.st_mappedFields].
  - split; [|split; [|split; [|split]]]; try done.
    + rewrite fmap_app, Hperm. simpl. solve_Permutation.
    + rewrite fieldMappings_snoc, isSubjectMapping_subject. by rewrite app_nil_r.
    + apply Forall_app. split; [done|]. constructor; [|done].
      unfold wellFormedMapping. rewrite isSubjectMapping_subject. done.
  - split; [|done]. rewrite Hperm. solve_Permutation.
Qed.

Lemma mapHeader_invariant sampleRows hs st h :
  autoMapInvariant hs st →
  autoMapInvariant (hs ++ [h]) (ColumnMapper.mapHeader sampleRows st h).
Proof.
  intros Hinv. unfold ColumnMapper.mapHeader.
  destruct (ColumnMapper.findBestMatch _ _) as [[f c]|] eqn:Eb;
    [|by apply mapOther_invariant].
  apply findBestMatch_Some in Eb as (-> & Hf & Hm).
  change (Qlt_bool 0.6 0.8) with true. cbv iota.
  destruct Hinv as (Hperm & Hfields & Hnd & Hwf & Hsug).
  unfold autoMapInvariant.
  cbn [ColumnMapper.st_mappings ColumnMapper.st_suggestions
       ColumnMapper.st_unmappedColumns ColumnMapper.st_mappedFields].
  split; [|split; [|split; [|split]]]; try done.
  - rewrite fmap_app, Hperm. simpl. solve_Permutation.
  - rewrite fieldMappings_snoc, isSubjectMapping_field by done.
    rewrite fmap_app. by rewrite Hfields.
  - apply NoDup_app. split; [done|]. split; [|apply NoDup_singleton].
    intros x Hx ->%list_elem_of_singleton. done.
  - apply Forall_app. split; [done|]. constructor; [|done].
    unfold wellFormedMapping. rewrite isSubjectMapping_field by done. done.
Qed.

Lemma foldl_mapHeader_invariant sampleRows (headers : list string) :
  ∀ hs st,
    autoMapInvariant hs st →
    autoMapInvariant (hs ++ headers)
                     (foldl (ColumnMapper.mapHeader sampleRows) st headers).
Proof.
  induction headers as [|h headers IH]; intros hs st Hinv; cbn [foldl].
  - by rewrite app_nil_r.
  - replace (hs ++ h :: headers)%list with ((hs ++ [h]) ++ headers)%list
      by by rewrite <- app_assoc.
    apply IH. by apply mapHeader_invariant.
Qed.

Lemma autoMapColumns_invariant headers sampleRows :
  autoMapInvariant headers
    (foldl (ColumnMapper.mapHeader sampleRows)
           (ColumnMapper.mkAutoMapState [] [] [] []) headers).
Proof.
  apply (foldl_mapHeader_invariant sampleRows headers []).
  unfold autoMapInvariant. simpl. repeat split; try done; constructor.
Qed.

(** X26.  In the outcome of [autoMapColumns] every header is either the
    column of exactly one mapping or an unmapped column; no field is the
    target of two mappings; a mapping to a field is required exactly when
    the field is, and a mapping to a subject is named after the normalized
    header, is not required and has the marks transformer. *)
Theorem autoMapColumns_mappings (headers : list string)
    (sampleRows : list (gmap string value)) :
  let res := ColumnMapper.autoMapColumns headers sampleRows in
  headers ≡ₚ ((ColumnMapper.excelColumn <$> ColumnMapper.mappings res)
              ++ ColumnMapper.unmappedColumns res)%list ∧
  NoDup (ColumnMapper.dataField <$> fieldMappings (ColumnMapper.mappings res)) ∧
  Forall wellFormedMapping (ColumnMapper.mappings res).
Proof.
  intros res. subst res. unfold ColumnMapper.autoMapColumns. simpl.
  destruct (autoMapColumns_invariant headers sampleRows)
    as (Hperm & Hfields & Hnd & Hwf & _).
  split; [done|]. split; [|done]. by rewrite <- Hfields.
Qed.

Lemma required_not_subject (f : string) :
  f ∈ ColumnMapper.REQUIRED_FIELDS → JSString.startsWith "subject_" f = false.
Proof.
  unfold ColumnMapper.REQUIRED_FIELDS. intros H.
  repeat (apply elem_of_cons in H as [->|H]; [reflexivity|]).
  by apply elem_of_nil in H.
Qed.

Lemma elem_of_fieldMappings (ms : list ColumnMapper.ColumnMapping) m :
  m ∈ fieldMappings ms ↔ m ∈ ms ∧ ColumnMapper.isSubjectMapping m = false.
Proof.
  unfold fieldMappings. rewrite list_elem_of_In, filter_In, <- list_elem_of_In.
  by rewrite negb_true_iff.
Qed.

(** A required field is the target of a mapping exactly when it is the
    target of a mapping to a field. *)
Lemma required_mapped (ms : list ColumnMapper.ColumnMapping) (f : string) :
  f ∈ ColumnMapper.REQUIRED_FIELDS →
  f ∈ ColumnMapper.dataField <$> ms
  ↔ f ∈ ColumnMapper.dataField <$> fieldMappings ms.
Proof.
  intros Hf. rewrite !list_elem_of_fmap. split.
  - intros (m & -> & Hm). exists m. split; [done|].
    apply elem_of_fieldMappings. split; [done|]. by apply required_not_subject.
  - intros (m & -> & [Hm _]%elem_of_fieldMappings). by exists m.
Qed.

Lemma count_two (a b : string) (l : list string) :
  a ≠ b → NoDup l →
  (length (List.filter (λ x, existsb (String.eqb x) [a; b]) l)
   + length (List.filter (λ f, negb (existsb (String.eqb f) l)) [a; b])
   = 2)%nat.
Proof.
  intros Hab. induction 1 as [|x l Hx Hnd IH]; [done|].
  assert (Hin : ∀ y, existsb (String.eqb y) l = true ↔ y ∈ l)
    by (intros y; apply (includes_spec l y)).
  simpl in *. rewrite (String.eqb_sym a x), (String.eqb_sym b x).
  destruct (String.eqb x a) eqn:E1; simpl.
  - apply String.eqb_eq in E1. subst x.
    assert (H1 : existsb (String.eqb a) l = false).
    { apply not_true_iff_false. by rewrite Hin. }
    rewrite H1 in IH. simpl in IH.
    assert (Eab : String.eqb a b = false) by by apply String.eqb_neq.
    rewrite Eab. simpl.
    destruct (existsb (String.eqb b) l); simpl in *; lia.
  - destruct (String.eqb x b) eqn:E2; simpl.
    + apply String.eqb_eq in E2. subst x.
      assert (H2 : existsb (String.eqb b) l = false).
      { apply not_true_iff_false. by rewrite Hin. }
      rewrite H2 in IH. simpl in IH.
      destruct (existsb (String.eqb a) l); simpl in *; lia.
    + exact IH.
Qed.

Lemma count_required (l : list string) :
  NoDup l →
  (length (List.filter (JSArray.includes ColumnMapper.REQUIRED_FIELDS) l)
   + length (List.filter (λ field, negb (JSArray.includes l field))
                         ColumnMapper.REQUIRED_FIELDS)
   = 2)%nat.
Proof. apply (count_two "studentName" "rollNumber"). discriminate. Qed.

Lemma count_isRequired (ms : list ColumnMapper.ColumnMapping) :
  Forall wellFormedMapping ms →
  length (List.filter ColumnMapper.isRequired ms)
  = length (List.filter (JSArray.includes ColumnMapper.REQUIRED_FIELDS)
                        (ColumnMapper.dataField <$> fieldMappings ms)).
Proof.
  induction 1 as [|m ms Hm _ IH]; [done|].
  unfold fieldMappings in *. cbn [List.filter]. unfold wellFormedMapping in Hm.
  destruct (ColumnMapper.isSubjectMapping m); cbn [negb].
  - destruct Hm as (_ & -> & _). done.
  - destruct Hm as (_ & -> & _). rewrite fmap_cons. cbn [List.filter].
    destruct (JSArray.includes ColumnMapper.REQUIRED_FIELDS (ColumnMapper.dataField m));
      cbn [length]; by rewrite IH.
Qed.

Lemma missing_iff (ms : list ColumnMapper.ColumnMapping) (mapped : list string) :
  mapped = ColumnMapper.dataField <$> fieldMappings ms →
  ∀ f, f ∈ List.filter (λ field, negb (JSArray.includes mapped field))
                       ColumnMapper.REQUIRED_FIELDS
       ↔ f ∈ ColumnMapper.REQUIRED_FIELDS ∧ f ∉ ColumnMapper.dataField <$> ms.
Proof.
  intros Hfields f.
  rewrite list_elem_of_In, filter_In, <- list_elem_of_In, negb_true_iff.
  split.
  - intros [Hf Hinc]. split; [done|]. rewrite required_mapped by done.
    rewrite <- Hfields. intros Hin%includes_spec. congruence.
  - intros [Hf Hnot]. split; [done|]. apply not_true_iff_false.
    intros Hin%includes_spec. apply Hnot. rewrite required_mapped by done.
    by rewrite <- Hfields.
Qed.

Lemma suggestFor_inv (P : ColumnMapper.Suggestion → Prop)
    (unmapped : list string) (acc : list ColumnMapper.Suggestion) (field : string) :
  Forall P acc →
  (∀ column why,
     column ∈ unmapped →
     (0.3 < ColumnMapper.calculateStringSimilarity (JSString.toLowerCase column) field)%Q →
     P (ColumnMapper.mkSuggestion column field
          (ColumnMapper.calculateStringSimilarity (JSString.toLowerCase column) field)
          why)) →
  Forall P (ColumnMapper.suggestFor unmapped acc field).
Proof.
  intros Hacc HP. unfold ColumnMapper.suggestFor.
  destruct (JSArray.sort _ _) as [|first rest] eqn:Es; [done|].
  apply Forall_app. split; [done|]. constructor; [|done].
  assert (Hin : first ∈ JSArray.sort (λ a b : string * Q, (b.2 - a.2)%Q)
            (List.filter (λ item : string * Q, Qlt_bool 0.3 item.2)
               ((λ column,
                   (column, ColumnMapper.calculateStringSimilarity
                              (JSString.toLowerCase column) field)) <$> unmapped)))
    by (rewrite Es; left).
  rewrite sort_Permutation in Hin.
  apply list_elem_of_In, filter_In in Hin as [Hin Hsim].
  apply list_elem_of_In, list_elem_of_fmap in Hin as (column & -> & Hcol).
  simpl in *. apply HP; [done|]. by apply Qlt_bool_true.
Qed.

(** X27.  In the outcome of [autoMapColumns] the missing required fields
    are the required fields that no mapping targets; the confidence is the
    share of the two required fields that are mapped, so it is 1 exactly
    when none is missing; and every suggestion is for a missing required
    field, names an unmapped column, and has a confidence above 0.3 and at
    most 1. *)
Theorem autoMapColumns_required (headers : list string)
    (sampleRows : list (gmap string value)) :
  let res := ColumnMapper.autoMapColumns headers sampleRows in
  let missing := ColumnMapper.missingRequiredFields res in
  (∀ f, f ∈ missing ↔
        f ∈ ColumnMapper.REQUIRED_FIELDS
        ∧ f ∉ ColumnMapper.dataField <$> ColumnMapper.mappings res) ∧
  (ColumnMapper.confidence res
   == inject_Z (Z.of_nat (2 - length missing)) / 2)%Q ∧
  ((ColumnMapper.confidence res == 1)%Q ↔ missing = []) ∧
  Forall (λ s, ColumnMapper.suggestedField s ∈ missing
               ∧ ColumnMapper.suggestion_excelColumn s
                 ∈ ColumnMapper.unmappedColumns res
               ∧ (0.3 < ColumnMapper.suggestion_confidence s <= 1)%Q)
         (ColumnMapper.suggestions res).
Proof.
  intros res missing. subst res missing. unfold ColumnMapper.autoMapColumns.
  cbn [ColumnMapper.missingRequiredFields ColumnMapper.mappings
       ColumnMapper.confidence ColumnMapper.suggestions
       ColumnMapper.unmappedColumns].
  destruct (autoMapColumns_invariant headers sampleRows)
    as (Hperm & Hfields & Hnd & Hwf & Hsug).
  set (st := foldl (ColumnMapper.mapHeader sampleRows)
                   (ColumnMapper.mkAutoMapState [] [] [] []) headers) in *.
  set (missing := List.filter
                    (λ field, negb (JSArray.includes (ColumnMapper.st_mappedFields st)
                                                     field))
                    ColumnMapper.REQUIRED_FIELDS).
  assert (Hmissing : ∀ f, f ∈ missing ↔
            f ∈ ColumnMapper.REQUIRED_FIELDS
            ∧ f ∉ ColumnMapper.dataField <$> ColumnMapper.st_mappings st).
  { subst missing. by apply missing_iff. }
  assert (Hcount : (length (List.filter ColumnMapper.isRequired
                                        (ColumnMapper.st_mappings st))
                    = 2 - length missing)%nat).
  { rewrite count_isRequired by done. rewrite <- Hfields.
    pose proof (count_required _ Hnd) as Hc. fold missing in Hc. lia. }
  split; [exact Hmissing|]. split; [|split].
  - rewrite Hcount. reflexivity.
  - rewrite Hcount. change (length ColumnMapper.REQUIRED_FIELDS) with 2%nat.
    assert (Hle : (length missing ≤ 2)%nat).
    { pose proof (count_required _ Hnd) as Hc. fold missing in Hc. lia. }
    destruct missing as [|a [|b [|c rest]]]; simpl in *.
    + split; [done|]. intros _. reflexivity.
    + split; [|done]. intros H. exfalso. revert H. vm_compute. done.
    + split; [|done]. intros H. exfalso. revert H. vm_compute. done.
    + lia.
  - rewrite Hsug.
    assert (Hgen : ∀ fields acc,
              (∀ f, f ∈ fields → f ∈ missing) →
              Forall (λ s, ColumnMapper.suggestedField s ∈ missing
                           ∧ ColumnMapper.suggestion_excelColumn s
                             ∈ ColumnMapper.st_unmappedColumns st
                           ∧ (0.3 < ColumnMapper.suggestion_confidence s <= 1)%Q) acc →
              Forall (λ s, ColumnMapper.suggestedField s ∈ missing
                           ∧ ColumnMapper.suggestion_excelColumn s
                             ∈ ColumnMapper.st_unmappedColumns st
                           ∧ (0.3 < ColumnMapper.suggestion_confidence s <= 1)%Q)
                     (foldl (ColumnMapper.suggestFor (ColumnMapper.st_unmappedColumns st))
                            acc fields)).
    { induction fields as [|f fields IH]; intros acc Hf Hacc; cbn [foldl]; [done|].
      apply IH; [intros; apply Hf; by right|].
      apply suggestFor_inv; [done|]. intros column why Hcol Hsim. simpl.
      split; [apply Hf; left|]. split; [done|]. split; [done|].
      apply calculateStringSimilarity_bounds. }
    apply Hgen; [done|constructor].
Qed.

Lemma List_filter_sublist {A} (f : A → bool) (l : list A) :
  List.filter f l `sublist_of` l.
Proof.
  induction l as [|x l IH]; simpl; [done|].
  destruct (f x); [by apply sublist_skip|by apply sublist_cons].
Qed.

Lemma elem_of_subjectMappings (ms : list ColumnMapper.ColumnMapping) m :
  m ∈ subjectMappings ms ↔ m ∈ ms ∧ ColumnMapper.isSubjectMapping m = true.
Proof.
  unfold subjectMappings. by rewrite list_elem_of_In, filter_In, <- list_elem_of_In.
Qed.

(** No field is the target of two mappings when none is the target of two
    mappings to a field or of two mappings to a subject. *)
Lemma NoDup_dataFields (ms : list ColumnMapper.ColumnMapping) :
  NoDup (ColumnMapper.dataField <$> ms)
  ↔ NoDup (ColumnMapper.dataField <$> fieldMappings ms)
    ∧ NoDup (ColumnMapper.dataField <$> subjectMappings ms).
Proof.
  split.
  - intros Hnd. split.
    + apply (sublist_NoDup _ (ColumnMapper.dataField <$> ms)); [done|].
      apply fmap_sublist, List_filter_sublist.
    + apply (sublist_NoDup _ (ColumnMapper.dataField <$> ms)); [done|].
      apply fmap_sublist, List_filter_sublist.
  - induction ms as [|m ms IH]; [intros _; constructor|].
    unfold fieldMappings, subjectMappings in *. cbn [List.filter].
    destruct (ColumnMapper.isSubjectMapping m) eqn:Em; cbn [negb];
      rewrite !fmap_cons; intros [Hf Hs].
    + apply NoDup_cons in Hs as [Hnin Hs]. apply NoDup_cons. split; [|by apply IH].
      intros (m' & Heq & Hm')%list_elem_of_fmap. apply Hnin.
      apply list_elem_of_fmap. exists m'. split; [done|].
      apply elem_of_subjectMappings. split; [done|].
      unfold ColumnMapper.isSubjectMapping in *. by rewrite <- Heq.
    + apply NoDup_cons in Hf as [Hnin Hf]. apply NoDup_cons. split; [|by apply IH].
      intros (m' & Heq & Hm')%list_elem_of_fmap. apply Hnin.
      apply list_elem_of_fmap. exists m'. split; [done|].
      apply elem_of_fieldMappings. split; [done|].
      unfold ColumnMapper.isSubjectMapping in *. by rewrite <- Heq.
Qed.

Lemma notInherited_all (l : list string) :
  Forall (λ key, JSObject.inherits key = false) l → notInherited l = l.
Proof.
  unfold notInherited. induction 1 as [|x l Hx _ IH]; simpl; [done|].
  by rewrite Hx, IH.
Qed.

(** The fields of the mappings that [autoMapColumns] makes are not named
    like a property that every object inherits. *)
Lemma wellFormedMapping_notInherited (m : ColumnMapper.ColumnMapping) :
  wellFormedMapping m → JSObject.inherits (ColumnMapper.dataField m) = false.
Proof.
  unfold wellFormedMapping.
  destruct (ColumnMapper.isSubjectMapping m).
  - intros (-> & _). reflexivity.
  - intros (Hf & _). unfold knownFields in Hf. simpl in Hf.
    repeat (apply elem_of_cons in Hf as [->|Hf]; [reflexivity|]).
    by apply elem_of_nil in Hf.
Qed.

(** X28.  The mappings that [autoMapColumns] makes for the headers of a
    sheet pass [validateMappings] against the same headers exactly when
    no required field is missing and no two subject columns have the same
    normalized name. *)
Theorem autoMapColumns_validateMappings (headers : list string)
    (sampleRows : list (gmap string value)) :
  let res := ColumnMapper.autoMapColumns headers sampleRows in
  ColumnMapper.isValid
    (ColumnMapper.validateMappings (ColumnMapper.mappings res) headers) = true ↔
  ColumnMapper.missingRequiredFields res = []
  ∧ NoDup (ColumnMapper.dataField
             <$> subjectMappings (ColumnMapper.mappings res)).
Proof.
  intros res. subst res. rewrite validateMappings_valid_iff.
  unfold ColumnMapper.autoMapColumns.
  cbn [ColumnMapper.missingRequiredFields ColumnMapper.mappings].
  destruct (autoMapColumns_invariant headers sampleRows)
    as (Hperm & Hfields & Hnd & Hwf & Hsug).
  set (st := foldl (ColumnMapper.mapHeader sampleRows)
                   (ColumnMapper.mkAutoMapState [] [] [] []) headers) in *.
  pose proof (missing_iff _ _ Hfields) as Hmissing.
  set (missing := List.filter
                    (λ field, negb (JSArray.includes (ColumnMapper.st_mappedFields st)
                                                     field))
                    ColumnMapper.REQUIRED_FIELDS) in *.
  rewrite notInherited_all
    by (apply Forall_fmap; eapply Forall_impl; [exact Hwf|];
        apply wellFormedMapping_notInherited).
  rewrite NoDup_dataFields, <- Hfields.
  assert (Hcols : Forall (λ m, ColumnMapper.excelColumn m ∈ headers)
                         (ColumnMapper.st_mappings st)).
  { apply Forall_forall. intros m Hm. rewrite Hperm. apply elem_of_app. left.
    apply list_elem_of_fmap. by exists m. }
  split.
  - intros (_ & Hname & Hroll & _ & Hsub). split; [|done].
    destruct missing as [|f rest] eqn:Em; [done|]. exfalso.
    destruct (Hmissing f) as [[Hreq Hnot] _]; [left|].
    unfold ColumnMapper.REQUIRED_FIELDS in Hreq.
    apply elem_of_cons in Hreq as [->|Hreq]; [done|].
    apply elem_of_cons in Hreq as [->|Hreq]; [done|]. by apply elem_of_nil in Hreq.
  - intros [Hnone Hsub]. split; [done|].
    assert (Hin : ∀ f, f ∈ ColumnMapper.REQUIRED_FIELDS →
                       f ∈ ColumnMapper.dataField <$> ColumnMapper.st_mappings st).
    { intros f Hf.
      destruct (decide (f ∈ ColumnMapper.dataField <$> ColumnMapper.st_mappings st))
        as [|Hnot]; [done|].
      exfalso. assert (Hm : f ∈ missing) by by apply Hmissing.
      rewrite Hnone in Hm. by apply elem_of_nil in Hm. }
    split; [apply Hin; left|]. split; [apply Hin; right; left|]. done.
Qed.

(* ===================================================================== *)
(** * ColumnMapper: applying the mappings *)
(* ===================================================================== *)

Lemma applyToRow_data (P : gmap string ColumnMapper.property → Prop)
    typeErrorText mappings acc indexed :
  Forall P acc.1 →
  (∀ st,
     st = foldl (ColumnMapper.applyMapping typeErrorText indexed.2 indexed.1)
                (ColumnMapper.mkRowState
                   {[ "marks" := ColumnMapper.MarksObject JSMap.empty;
                      "__originalRow" := ColumnMapper.OriginalRow indexed.2 ]}
                   false acc.2)
                mappings →
     hasRequiredData (ColumnMapper.transformedRow st) →
     P (ColumnMapper.transformedRow st)) →
  Forall P (ColumnMapper.applyToRow typeErrorText mappings acc indexed).1
  ∧ (length (ColumnMapper.applyToRow typeErrorText mappings acc indexed).1
     ≤ S (length acc.1))%nat.
Proof.
  intros Hacc HP. destruct indexed as [index row]. unfold ColumnMapper.applyToRow.
  simpl in HP.
  set (st := foldl _ _ mappings) in *.
  destruct (negb (ColumnMapper.hasValidData st)); [split; [done|simpl; lia]|].
  destruct (List.filter (λ field, negb (ColumnMapper.truthy
                                          (ColumnMapper.prop
                                             (ColumnMapper.transformedRow st) field)))
                        ColumnMapper.REQUIRED_FIELDS) as [|f fs] eqn:Ef;
    cbn [length Nat.ltb Nat.leb fst].
  - split; [|rewrite length_app; simpl; lia].
    apply Forall_app. split; [done|]. constructor; [|done].
    apply HP; [done|].
    apply filter_nil_Forall in Ef. unfold ColumnMapper.REQUIRED_FIELDS in Ef.
    apply Forall_cons in Ef as [H1 Ef]. apply Forall_cons in Ef as [H2 _].
    apply negb_false_iff in H1, H2. done.
  - split; [done|simpl; lia].
Qed.

Lemma foldl_applyToRow (P : gmap string ColumnMapper.property → Prop)
    typeErrorText mappings (indexed : list (nat * gmap string value)) :
  (∀ row index warnings st,
     st = foldl (ColumnMapper.applyMapping typeErrorText row index)
                (ColumnMapper.mkRowState
                   {[ "marks" := ColumnMapper.MarksObject JSMap.empty;
                      "__originalRow" := ColumnMapper.OriginalRow row ]}
                   false warnings)
                mappings →
     hasRequiredData (ColumnMapper.transformedRow st) →
     P (ColumnMapper.transformedRow st)) →
  ∀ acc,
    Forall P acc.1 →
    let out := foldl (ColumnMapper.applyToRow typeErrorText mappings) acc indexed in
    Forall P out.1 ∧ (length out.1 ≤ length acc.1 + length indexed)%nat.
Proof.
  intros HP. induction indexed as [|e indexed IH]; intros acc Hacc; cbn [foldl].
  - simpl. split; [done|lia].
  - destruct (applyToRow_data P typeErrorText mappings acc e Hacc) as [H1 H2].
    { intros st Hst. by eapply HP. }
    destruct (IH _ H1) as [H3 H4]. cbv zeta in *. split; [done|]. simpl. lia.
Qed.

Lemma applyMappings_Forall (P : gmap string ColumnMapper.property → Prop)
    typeErrorText rows mappings :
  (∀ row index warnings st,
     st = foldl (ColumnMapper.applyMapping typeErrorText row index)
                (ColumnMapper.mkRowState
                   {[ "marks" := ColumnMapper.MarksObject JSMap.empty;
                      "__originalRow" := ColumnMapper.OriginalRow row ]}
                   false warnings)
                mappings →
     hasRequiredData (ColumnMapper.transformedRow st) →
     P (ColumnMapper.transformedRow st)) →
  Forall P (ColumnMapper.transformedData
              (ColumnMapper.applyMappings typeErrorText rows mappings))
  ∧ (length (ColumnMapper.transformedData
               (ColumnMapper.applyMappings typeErrorText rows mappings))
     ≤ length rows)%nat.
Proof.
  intros HP. unfold ColumnMapper.applyMappings.
  destruct (foldl_applyToRow P typeErrorText mappings
              (imap (λ index row, (index, row)) rows) HP ([], [])) as [H1 H2];
    [constructor|].
  cbv zeta in *. destruct (foldl _ _ _) as [data warnings]. simpl in *.
  split; [done|]. by rewrite length_imap in H2.
Qed.

(** X29.  [applyMappings] returns at most one row for each row of the
    sheet, and every row it returns has a student name and a roll number
    that are not empty: the rows without them are left out. *)
Theorem applyMappings_required (typeErrorText : string → value → string)
    (rows : list (gmap string value))
    (mappings : list ColumnMapper.ColumnMapping) :
  let data := ColumnMapper.transformedData
                (ColumnMapper.applyMappings typeErrorText rows mappings) in
  (length data ≤ length rows)%nat ∧ Forall hasRequiredData data.
Proof.
  intros data. subst data.
  destruct (applyMappings_Forall hasRequiredData typeErrorText rows mappings)
    as [H1 H2]; [by intros|]. done.
Qed.

Lemma getMarksTransformer_range (v : value) :
  ∃ q, ColumnMapper.getMarksTransformer v = Num q ∧ (0 <= q <= 100)%Q.
Proof.
  rewrite getMarksTransformer_text. unfold transformText.
  destruct (isZeroWord _); [exists 0%Q; split; [done|lra]|].
  destruct (isPassWord _); [exists 40%Q; split; [done|lra]|].
  destruct (JSString.parseFloat _) as [|q]; [exists 0%Q; split; [done|lra]|].
  destruct (clamp_bounds q) as (q' & -> & _ & Hb). by exists q'.
Qed.

Lemma wellFormedMapping_marks (m : ColumnMapper.ColumnMapping) :
  wellFormedMapping m →
  ColumnMapper.dataField m ≠ "marks"
  ∧ (ColumnMapper.isSubjectMapping m = true →
     ColumnMapper.transformer m = Some marksTransformer).
Proof.
  unfold wellFormedMapping.
  destruct (ColumnMapper.isSubjectMapping m) eqn:E.
  - intros (Hf & _ & Ht). split; [|done]. rewrite Hf. discriminate.
  - intros (Hf & _ & _). split; [|done]. intros Hm. rewrite Hm in Hf.
    unfold knownFields in Hf. simpl in Hf.
    repeat (apply elem_of_cons in Hf as [Hf|Hf]; [discriminate Hf|]).
    by apply elem_of_nil in Hf.
Qed.

(** One mapping keeps the marks of the row an object that holds marks
    only. *)
Lemma applyMapping_hasMarks typeErrorText row index st m :
  wellFormedMapping m →
  hasMarks (ColumnMapper.transformedRow st) →
  hasMarks (ColumnMapper.transformedRow
              (ColumnMapper.applyMapping typeErrorText row index st m)).
Proof.
  intros [Hne Htr]%wellFormedMapping_marks (o & Ho & Hvals).
  unfold ColumnMapper.applyMapping.
  unfold ColumnMapper.isSubjectMapping in Htr.
  destruct (JSString.startsWith "subject_" (ColumnMapper.dataField m)) eqn:Es.
  - rewrite (Htr eq_refl). unfold marksTransformer. rewrite Ho.
    cbn [ColumnMapper.transformedRow].
    exists (JSMap.set o
              (String.substring 8 (String.length (ColumnMapper.dataField m) - 8)
                                (ColumnMapper.dataField m))
              (if Value.truthy
                    (VNumber (ColumnMapper.getMarksTransformer
                                (default VUndefined
                                   (row !! ColumnMapper.excelColumn m))))
               then VNumber (ColumnMapper.getMarksTransformer
                               (default VUndefined
                                  (row !! ColumnMapper.excelColumn m)))
               else VNumber (Num 0))).
    split; [unfold ColumnMapper.prop; by rewrite lookup_insert_eq|].
    apply JSMap_values_set; [done|].
    destruct (Value.truthy _).
    + destruct (getMarksTransformer_range
                  (default VUndefined (row !! ColumnMapper.excelColumn m)))
        as (q & -> & Hq). by exists q.
    + exists 0%Q. split; [done|lra].
  - destruct (match ColumnMapper.transformer m with
              | Some f => f (default VUndefined (row !! ColumnMapper.excelColumn m))
              | None => Ok (default VUndefined (row !! ColumnMapper.excelColumn m))
              end) as [processed|message]; cbn [ColumnMapper.transformedRow].
    + exists o. split; [|done].
      unfold ColumnMapper.prop in *. by rewrite lookup_insert_ne.
    + by exists o.
Qed.

Lemma foldl_applyMapping_hasMarks typeErrorText row index mappings :
  Forall wellFormedMapping mappings →
  ∀ st,
    hasMarks (ColumnMapper.transformedRow st) →
    hasMarks (ColumnMapper.transformedRow
                (foldl (ColumnMapper.applyMapping typeErrorText row index) st mappings)).
Proof.
  induction 1 as [|m mappings Hm _ IH]; intros st Hst; cbn [foldl]; [done|].
  apply IH. by apply applyMapping_hasMarks.
Qed.

(** X30.  With mappings as [autoMapColumns] makes them, the [marks] of
    every row that [applyMappings] returns are an object in which every
    value is a number between 0 and 100; this holds in particular of the
    mappings that [autoMapColumns] returns, for any sheet. *)
Theorem applyMappings_marks (typeErrorText : string → value → string)
    (rows : list (gmap string value)) :
  (∀ mappings,
     Forall wellFormedMapping mappings →
     Forall hasMarks
            (ColumnMapper.transformedData
               (ColumnMapper.applyMappings typeErrorText rows mappings))) ∧
  (∀ headers sampleRows,
     Forall hasMarks
            (ColumnMapper.transformedData
               (ColumnMapper.applyMappings typeErrorText rows
                  (ColumnMapper.mappings
                     (ColumnMapper.autoMapColumns headers sampleRows))))).
Proof.
  assert (H : ∀ mappings,
            Forall wellFormedMapping mappings →
            Forall hasMarks
                   (ColumnMapper.transformedData
                      (ColumnMapper.applyMappings typeErrorText rows mappings))).
  { intros mappings Hwf.
    destruct (applyMappings_Forall hasMarks typeErrorText rows mappings)
      as [H1 _]; [|done].
    intros row index warnings st -> _.
    apply foldl_applyMapping_hasMarks; [done|].
    exists JSMap.empty. split; [done|constructor]. }
  split; [exact H|]. intros headers sampleRows. apply H.
  unfold ColumnMapper.autoMapColumns. cbn [ColumnMapper.mappings].
  by destruct (autoMapColumns_invariant headers sampleRows) as (_ & _ & _ & ? & _).
Qed.

(** Instance: a sheet with a name, a roll number and a column of marks. *)
Lemma applyMappings_marks_witness :
  Forall hasMarks
         (ColumnMapper.transformedData
            (ColumnMapper.applyMappings (λ _ _, "")
               [ {[ "Name" := VString "Asha Rao"; "Roll No" := VString "A1";
                    "Math" := VString "absent" ]} ]
               [ ColumnMapper.mkColumnMapping "Name" "studentName" true
                   ColumnMapper.TString
                   (ColumnMapper.getFieldTransformer "studentName");
                 ColumnMapper.mkColumnMapping "Roll No" "rollNumber" true
                   ColumnMapper.TString
                   (ColumnMapper.getFieldTransformer "rollNumber");
                 ColumnMapper.mkColumnMapping "Math" "subject_math" false
                   ColumnMapper.TNumber (Some marksTransformer) ])).
Proof.
  apply (proj1 (applyMappings_marks (λ _ _, "") _)).
  repeat constructor; unfold knownFields; cbn; set_solver.
Defined.
